(** * time_utils: a shallow embedding of [time_utils/__init__.py]

    The development follows the Python module function by function.
    Text is a list of code points below 256, Python integers are [Z],
    Python floats are IEEE binary64 values in the sense of [SpecFloat]
    (53 bits of precision, [emax = 1024]), dictionaries are [gmap]s and
    raising an exception is the [Raise] branch of [result]. *)

From Stdlib Require Import ZArith List Ascii String Bool Lia SpecFloat.
From stdpp Require Import base option list gmap strings.
Import ListNotations.

Local Open Scope Z_scope.

(** ** Exceptions and the error monad *)

Abbreviation str := (list ascii).

Definition py (s : string) : str := list_ascii_of_string s.

Inductive exn : Type :=
| ValueError
| IndexError
| KeyError
| OverflowError
| ZeroDivisionError
| UnknownTimeZoneError (name : str).

Inductive result (A : Type) : Type :=
| Ok (a : A)
| Raise (e : exn).
Arguments Ok {A} a.
Arguments Raise {A} e.

#[global] Instance result_ret : MRet result := fun A a => Ok a.
#[global] Instance result_bind : MBind result := fun A B f m =>
  match m with
  | Ok a => f a
  | Raise e => Raise e
  end.

Definition is_ok {A} (r : result A) : bool :=
  match r with Ok _ => true | Raise _ => false end.

(** [try: body except Exception: handler] *)
Definition try_except {A} (body : result A) (handler : result A) : result A :=
  match body with
  | Ok a => Ok a
  | Raise _ => handler
  end.

(** ** Python text primitives *)

Module PyStr.

Definition code (c : ascii) : Z := Z.of_N (N_of_ascii c).

Definition eqc (a b : ascii) : bool := Ascii.eqb a b.

(** [c in '0123456789'] *)
Definition is_digit (c : ascii) : bool := (48 <=? code c) && (code c <=? 57).

Definition digit_val (c : ascii) : Z := code c - 48.

(** The white space that [int] strips: the ASCII characters for which C's
    [isspace] holds (tab to carriage return, and the space) and, of the
    code points from 128 to 255, the Unicode white space (NEL and the
    no-break space), which [int] first turns into spaces.  The
    separators U+001C to U+001F are white space for [str.isspace] but
    not here. *)
Definition is_space (c : ascii) : bool :=
  let n := code c in
  ((9 <=? n) && (n <=? 13)) || (n =? 32) || (n =? 133) || (n =? 160).

(** The word characters of [re] ([\w] on [str] patterns): alphanumeric
    code points and the underscore. *)
Definition is_word (c : ascii) : bool :=
  let n := code c in
  ((48 <=? n) && (n <=? 57)) || ((65 <=? n) && (n <=? 90))
  || ((97 <=? n) && (n <=? 122)) || (n =? 95)
  || (n =? 170) || (n =? 178) || (n =? 179) || (n =? 181)
  || (n =? 185) || (n =? 186) || ((188 <=? n) && (n <=? 190))
  || ((192 <=? n) && (n <=? 214)) || ((216 <=? n) && (n <=? 246))
  || ((248 <=? n) && (n <=? 255)).

Definition len (s : str) : Z := Z.of_nat (length s).

(** [s[i]], negative indices counting from the end. *)
Definition getitem (s : str) (i : Z) : result ascii :=
  let j := if i <? 0 then len s + i else i in
  if j <? 0 then Raise IndexError
  else match nth_error s (Z.to_nat j) with
       | Some c => Ok c
       | None => Raise IndexError
       end.

(** Slice bounds are clamped as Python does. *)
Definition clamp (s : str) (i : Z) : nat :=
  let j := if i <? 0 then len s + i else i in
  Z.to_nat (Z.min (Z.max 0 j) (len s)).

(** [s[lo:hi]]; [None] stands for an omitted bound. *)
Definition slice (s : str) (lo hi : option Z) : str :=
  let a := match lo with Some i => clamp s i | None => 0%nat end in
  let b := match hi with Some i => clamp s i | None => length s end in
  firstn (b - a) (skipn a s).

Fixpoint startswith (p s : str) : bool :=
  match p, s with
  | [], _ => true
  | c :: p', d :: s' => eqc c d && startswith p' s'
  | _ :: _, [] => false
  end.

(** [s.replace(old, new)] for a non-empty [old]: the occurrences of
    [old] are replaced from left to right and do not overlap; [skip]
    counts the characters of an occurrence that are still to be
    passed over. *)
Fixpoint replace_from (skip : nat) (old new s : str) : str :=
  match s with
  | [] => []
  | c :: s' =>
      match skip with
      | S k => replace_from k old new s'
      | O =>
          if startswith old s
          then new ++ replace_from (length old - 1) old new s'
          else c :: replace_from 0 old new s'
      end
  end.

Definition replace_sub (old new s : str) : str := replace_from 0 old new s.

(** [c.lower()] on code points below 256. *)
Definition lower_char (c : ascii) : ascii :=
  let n := code c in
  if ((65 <=? n) && (n <=? 90)) || ((192 <=? n) && (n <=? 214))
     || ((216 <=? n) && (n <=? 222))
  then ascii_of_N (Z.to_N (n + 32))
  else c.

Definition lower (s : str) : str := map lower_char s.

(** [c.upper()], when it is one code point below 256: the upper case
    of the micro sign and of y with diaeresis lies beyond, and that of
    the sharp s is two letters. *)
Definition upper_char (c : ascii) : option ascii :=
  let n := code c in
  if ((97 <=? n) && (n <=? 122)) || ((224 <=? n) && (n <=? 246))
     || ((248 <=? n) && (n <=? 254))
  then Some (ascii_of_N (Z.to_N (n - 32)))
  else if (n =? 181) || (n =? 223) || (n =? 255) then None
  else Some c.

(** [s.upper() == t] for a text [t] of ASCII capitals other than S. *)
Definition upper_is (t s : str) : bool :=
  bool_decide (mapM upper_char s = Some t).

(** [s.encode('ASCII')] succeeds. *)
Definition is_ascii (s : str) : bool := forallb (fun c => code c <? 128) s.

(** [s.replace(a, b)] for single characters. *)
Definition replace (a b : ascii) (s : str) : str :=
  map (fun c => if eqc c a then b else c) s.

Fixpoint lstrip (s : str) : str :=
  match s with
  | c :: s' => if is_space c then lstrip s' else s
  | [] => []
  end.

Definition strip (s : str) : str := rev (lstrip (rev (lstrip s))).

(** The longest prefix of digits, as the loop of [_fromisoformat]
    collects it. *)
Fixpoint leading_digits (s : str) : str :=
  match s with
  | c :: s' => if is_digit c then c :: leading_digits s' else []
  | [] => []
  end.

(** Digits with single underscores between them, [acc] the value so
    far and [us] telling that the previous character was an underscore. *)
Fixpoint int_digits (acc : Z) (us : bool) (s : str) : option Z :=
  match s with
  | [] => if us then None else Some acc
  | c :: s' =>
      if is_digit c then int_digits (10 * acc + digit_val c) false s'
      else if eqc c "_" then (if us then None else int_digits acc true s')
      else None
  end.

Definition int_unsigned (s : str) : option Z :=
  match s with
  | c :: _ => if is_digit c then int_digits 0 false s else None
  | [] => None
  end.

(** [int(s)] in base ten: surrounding white space, an optional sign,
    digits possibly grouped with underscores. *)
Definition int (s : str) : result Z :=
  let body := strip s in
  let r := match body with
           | c :: t =>
               if eqc c "-" then Z.opp <$> int_unsigned t
               else if eqc c "+" then int_unsigned t
               else int_unsigned body
           | [] => None
           end in
  match r with
  | Some z => Ok z
  | None => Raise ValueError
  end.

End PyStr.

(** ** Python numbers *)

Module PyNum.

Definition prec : Z := 53.
Definition emax : Z := 1024.

Abbreviation float := spec_float.

Definition fadd : float -> float -> float := SFadd prec emax.
Definition fsub : float -> float -> float := SFsub prec emax.
Definition fmul : float -> float -> float := SFmul prec emax.
Definition fdiv : float -> float -> float := SFdiv prec emax.
Definition fneg : float -> float := SFopp.

(** An integer as an exact, not yet rounded, operand. *)
Definition exact (z : Z) : float :=
  match z with
  | Z0 => S754_zero false
  | Zpos p => S754_finite false p 0
  | Zneg p => S754_finite true p 0
  end.

(** The binary64 value nearest to [n / d] (ties to even), for [d > 0]:
    what [float] returns on decimal text and what [int / int] returns. *)
Definition nearest_ratio (n d : Z) : float := fdiv (exact n) (exact d).

(** [float(z)] for an integer [z]. *)
Definition float_of_int (z : Z) : result float :=
  match binary_normalize prec emax z 0 false with
  | S754_infinity _ => Raise OverflowError
  | f => Ok f
  end.

(** [int(f)]: truncation toward zero. *)
Definition int_of_float (f : float) : result Z :=
  match f with
  | S754_zero _ => Ok 0
  | S754_infinity _ => Raise OverflowError
  | S754_nan => Raise ValueError
  | S754_finite s m e =>
      Ok (cond_Zopp s (match e with
                       | Zneg k => Z.shiftr (Zpos m) (Zpos k)
                       | _ => Z.shiftl (Zpos m) e
                       end))
  end.

(** The float has an integral value. *)
Definition is_integral (f : float) : bool :=
  match f with
  | S754_zero _ => true
  | S754_finite _ m (Zneg k) => Zpos m mod 2 ^ Zpos k =? 0
  | S754_finite _ _ _ => true
  | _ => false
  end.

(** [z == f] between an integer and a float compares exact values. *)
Definition int_eq_float (z : Z) (f : float) : bool :=
  match int_of_float f with
  | Ok t => is_integral f && (t =? z)
  | Raise _ => false
  end.

Inductive num : Type :=
| PyInt (z : Z)
| PyFloat (f : float).

Definition to_float (x : num) : result float :=
  match x with
  | PyInt z => float_of_int z
  | PyFloat f => Ok f
  end.

Definition arith (iop : Z -> Z -> Z) (fop : float -> float -> float)
    (x y : num) : result num :=
  match x, y with
  | PyInt a, PyInt b => Ok (PyInt (iop a b))
  | _, _ => a ← to_float x; b ← to_float y; Ok (PyFloat (fop a b))
  end.

Definition add := arith Z.add fadd.
Definition sub := arith Z.sub fsub.
Definition mul := arith Z.mul fmul.

(** Unary minus. *)
Definition neg (x : num) : num :=
  match x with
  | PyInt z => PyInt (- z)
  | PyFloat f => PyFloat (fneg f)
  end.

(** [x == y] *)
Definition eqb (x y : num) : bool :=
  match x, y with
  | PyInt a, PyInt b => a =? b
  | PyInt a, PyFloat f | PyFloat f, PyInt a => int_eq_float a f
  | PyFloat f, PyFloat g => SFeqb f g
  end.

(** [int(x)] *)
Definition to_int (x : num) : result Z :=
  match x with
  | PyInt z => Ok z
  | PyFloat f => int_of_float f
  end.

Fixpoint digits_value (acc : Z) (s : str) : Z :=
  match s with
  | c :: s' => digits_value (10 * acc + PyStr.digit_val c) s'
  | [] => acc
  end.

Definition all_digits (s : str) : bool :=
  match s with
  | [] => false
  | _ => forallb PyStr.is_digit s
  end.

(** [float(s)] on the two shapes the duration grammar lets through,
    digits and digits with a fraction after a full stop.  Python's
    [float] reads more (exponents, [inf], white space); that text
    never reaches it from [parse_iso_duration] and is reported as
    [ValueError] here. *)
Definition float_of_str (s : str) : result float :=
  let ip := PyStr.leading_digits s in
  match skipn (length ip) s with
  | [] =>
      if all_digits ip then Ok (nearest_ratio (digits_value 0 ip) 1)
      else Raise ValueError
  | c :: fp =>
      if PyStr.eqc c "." && all_digits ip && all_digits fp
      then Ok (nearest_ratio (digits_value 0 (ip ++ fp)) (10 ^ PyStr.len fp))
      else Raise ValueError
  end.

Definition zero : num := PyInt 0.

End PyNum.

(** ** Zones and [ensure_tz_object] *)

(** The tzinfo objects the module handles: [pytz.utc], a zone of the
    pytz catalog, and dateutil's fixed offset [tzoffset(None, seconds)]. *)
Inductive tzinfo : Type :=
| pytz_utc
| pytz_zone (name : str)
| tzoffset (seconds : Z).

(** An argument named [tz_string_or_tz_obj] in the source. *)
Inductive tzarg : Type :=
| TzObj (t : tzinfo)
| TzName (name : str).

(** A [datetime.timedelta], as its exact number of microseconds. *)
Abbreviation timedelta := Z.

Module Zone.
Section Collaborators.

(** The zones of pytz by their names ([pytz.all_timezones]). *)
Variable catalog : gmap str tzinfo.
(** [windows_tz.win_tz]: Windows zone names to IANA names. *)
Variable win_tz : gmap str str.
(** [tz.utcoffset(datetime.datetime.utcnow())] for a resolved zone. *)
Variable utcoffset_now : tzinfo -> timedelta.

(** [pytz._unmunge_zone] *)
Definition _unmunge_zone (zone : str) : str :=
  PyStr.replace_sub (py "_minus_") (py "-")
    (PyStr.replace_sub (py "_plus_") (py "+") zone).

(** The names of the catalog by their lower case:
    [dict((tz.lower(), tz) for tz in all_timezones)]. *)
Definition lower_to_standard : gmap str str :=
  list_to_map ((fun k => (PyStr.lower k, k)) <$> (map_to_list catalog).*1).

(** [pytz._case_insensitive_zone_lookup]:
    [lower_to_standard.get(zone.lower()) or zone]. *)
Definition _case_insensitive_zone_lookup (zone : str) : str :=
  match lower_to_standard !! PyStr.lower zone with
  | Some (c :: std) => c :: std
  | _ => zone
  end.

(** [pytz.timezone] (pytz 2019.1 and later): UTC in any case is
    [pytz.utc]; a name that is not ASCII is unknown; any other name is
    looked up in the catalog after [_plus_] and [_minus_] have been
    rewritten and the case has been put right, and the error of a miss
    carries the name in that form. *)
Definition pytz_timezone (zone : str) : result tzinfo :=
  if PyStr.upper_is (py "UTC") zone then Ok pytz_utc
  else if negb (PyStr.is_ascii zone) then Raise (UnknownTimeZoneError zone)
  else
    let zone := _case_insensitive_zone_lookup (_unmunge_zone zone) in
    match catalog !! zone with
    | Some z => Ok z
    | None => Raise (UnknownTimeZoneError zone)
    end.

Definition microsoft_timezone_to_timezone (tz : str) : result str :=
  match win_tz !! tz with
  | Some name => Ok name
  | None => Raise KeyError
  end.

Definition ensure_tz_object (tz_string_or_tz_obj : tzarg) : result tzinfo :=
  match tz_string_or_tz_obj with
  | TzObj t => Ok t
  | TzName name =>
    match pytz_timezone name with
    | Ok z => Ok z
    | Raise e =>
        match microsoft_timezone_to_timezone name with
        | Raise _ => Raise e
        | Ok tz => pytz_timezone tz
        end
    end
  end.

(** [timedelta.total_seconds()]: microseconds over [10**6] as a float. *)
Definition total_seconds (td : timedelta) : PyNum.float :=
  PyNum.nearest_ratio td (10 ^ 6).

(** [x / 3600] for a float [x]. *)
Definition div_3600 (x : PyNum.float) : result PyNum.float :=
  d ← PyNum.float_of_int 3600; Ok (PyNum.fdiv x d).

Definition get_current_utc_offset (tz_string_or_tz_obj : tzarg) : result Z :=
  tz ← ensure_tz_object tz_string_or_tz_obj;
  q ← div_3600 (total_seconds (utcoffset_now tz));
  PyNum.int_of_float q.

End Collaborators.
End Zone.

(** ** [datetime.datetime] values *)

Record datetime : Type := mk_datetime {
  year : Z; month : Z; day : Z;
  hour : Z; minute : Z; second : Z; microsecond : Z;
  tz : option tzinfo
}.

Module DT.

Definition is_leap (y : Z) : bool :=
  (y mod 4 =? 0) && (negb (y mod 100 =? 0) || (y mod 400 =? 0)).

Definition days_in_month (y m : Z) : Z :=
  if m =? 2 then (if is_leap y then 29 else 28)
  else if (m =? 4) || (m =? 6) || (m =? 9) || (m =? 11) then 30
  else 31.

Definition between (lo x hi : Z) : bool := (lo <=? x) && (x <=? hi).

(** The checks of the [datetime.datetime(...)] constructor. *)
Definition valid_fields (y m d hh mm ss us : Z) : bool :=
  between 1 y 9999 && between 1 m 12 && between 1 d (days_in_month y m)
  && between 0 hh 23 && between 0 mm 59 && between 0 ss 59
  && between 0 us 999999.

Definition new (y m d hh mm ss us : Z) (t : option tzinfo) : result datetime :=
  if valid_fields y m d hh mm ss us
  then Ok (mk_datetime y m d hh mm ss us t)
  else Raise ValueError.

End DT.

(** ** The timestamp parser: [_fromisoformat] and [datetime_parse] *)

Module Parse.

Import PyStr.

Definition sl (s : str) (lo hi : Z) : str := slice s (Some lo) (Some hi).

(** Lines 174-179: the optional seconds. *)
Definition parse_seconds (s : str) : result Z :=
  match getitem s 16 with
  | Ok c => if eqc c ":" then int (sl s 17 19) else Ok 0
  | Raise IndexError => Ok 0
  | Raise e => Raise e
  end.

(** Lines 181-198: the optional fraction, in microseconds. *)
Definition parse_fragment (s : str) : result Z :=
  match getitem s 19 with
  | Ok c =>
      if eqc c "." then
        let fff := leading_digits (slice s (Some 20) None) in
        if len fff =? 3 then n ← int fff; Ok (n * 1000)
        else if len fff =? 6 then int fff
        else Raise ValueError
      else Ok 0
  | Raise IndexError => Ok 0
  | Raise e => Raise e
  end.

Definition is_sign (c : ascii) : bool := eqc c "+" || eqc c "-".

(** [int(f'{sign}1') * (int(hh) * 3600 + int(mm) * 60)] *)
Definition offset_seconds (sign : ascii) (hh mm : str) : result Z :=
  sg ← int [sign; "1"%char];
  h ← int hh;
  m ← int mm;
  Ok (sg * (h * 3600 + m * 60)).

(** Lines 200-207: the zone suffix. *)
Definition parse_tzinfo (s : str) : result (option tzinfo) :=
  c1 ← getitem s (-1);
  if eqc c1 "Z" then Ok (Some pytz_utc)
  else
    c6 ← getitem s (-6);
    if is_sign c6 then
      n ← offset_seconds c6 (sl s (-5) (-3)) (slice s (Some (-2)) None);
      Ok (Some (tzoffset n))
    else
      c5 ← getitem s (-5);
      if is_sign c5 then
        n ← offset_seconds c5 (sl s (-4) (-2)) (slice s (Some (-2)) None);
        Ok (Some (tzoffset n))
      else Ok None.

(** Line 172: [s[4] == s[7] == '-' and s[10] == 'T' and s[13] == ':'],
    with Python's evaluation order. *)
Definition has_layout (s : str) : result bool :=
  c4 ← getitem s 4;
  c7 ← getitem s 7;
  if eqc c4 c7 && eqc c7 "-" then
    c10 ← getitem s 10;
    if eqc c10 "T" then
      c13 ← getitem s 13; Ok (eqc c13 ":")
    else Ok false
  else Ok false.

Definition _fromisoformat (datetime_str : str) : result datetime :=
  ok ← has_layout datetime_str;
  if ok : bool then
    seconds ← parse_seconds datetime_str;
    ms ← parse_fragment datetime_str;
    tzinfo ← parse_tzinfo datetime_str;
    y ← int (slice datetime_str None (Some 4));
    m ← int (sl datetime_str 5 7);
    d ← int (sl datetime_str 8 10);
    hh ← int (sl datetime_str 11 13);
    mm ← int (sl datetime_str 14 16);
    DT.new (Z.max 1 y) (Z.max 1 m) (Z.max 1 d) hh mm seconds ms tzinfo
  else Raise ValueError.

Section Fallback.

Variable catalog : gmap str tzinfo.
Variable win_tz : gmap str str.
(** pytz's [tz.localize(dt)]. *)
Variable pytz_localize : tzinfo -> datetime -> result datetime.
(** [dateutil.parser.parse], the generic fallback parser. *)
Variable dateutil_parse : str -> result datetime.

Definition localize (datetime_obj : datetime) (tz_string_or_tz_obj : tzarg)
    : result datetime :=
  z ← Zone.ensure_tz_object catalog win_tz tz_string_or_tz_obj;
  pytz_localize z datetime_obj.

Definition ensure_tz_info (datetime_obj : datetime) (default_tz : tzarg)
    : result datetime :=
  match tz datetime_obj with
  | Some _ => Ok datetime_obj
  | None => localize datetime_obj default_tz
  end.

(** Truth value of the [default_tz] argument. *)
Definition truthy (default_tz : option tzarg) : option tzarg :=
  match default_tz with
  | Some (TzName []) => None
  | other => other
  end.

(** The call of [datetime.datetime.fromisoformat] on lines 224-231
    has no effect: its value is overwritten on line 233 and its
    exceptions are swallowed. *)
Definition datetime_parse (datetime_str : str) (default_tz : option tzarg)
    : result datetime :=
  dt ← try_except (_fromisoformat datetime_str) (dateutil_parse datetime_str);
  match truthy default_tz with
  | Some z => ensure_tz_info dt z
  | None => Ok dt
  end.

End Fallback.

End Parse.

(** ** Regular expressions, as far as [ISO8601_DURATION] uses them *)

Module Re.

Import PyStr.

Inductive cls : Type :=
| OneOf (members : str)
| Range (lo hi : ascii).

Definition cls_mem (k : cls) (c : ascii) : bool :=
  match k with
  | OneOf l => existsb (eqc c) l
  | Range lo hi => (code lo <=? code c) && (code c <=? code hi)
  end.

(** [PlusClass k] is [[k]+]; [Named n r] is [(?P<n>r)]; [NotAhead r]
    is [(?!r)].  Groups without a name only bracket and are written
    with [Cat]: [groupdict] does not show them. *)
Inductive regex : Type :=
| Bol
| Eol
| WordBoundary
| Lit (c : ascii)
| Class (k : cls)
| PlusClass (k : cls)
| Cat (r1 r2 : regex)
| Opt (r : regex)
| Named (name : string) (r : regex)
| NotAhead (r : regex).

(** A position of the backtracking matcher: the character before it,
    the text after it and the groups captured on the way. *)
Record mstate : Type := mk_mstate {
  prev : option ascii;
  rest : str;
  groups : gmap string str
}.

Definition word_at (c : option ascii) : bool :=
  match c with Some a => is_word a | None => false end.

(** [$] without [MULTILINE]: the end, or just before a final newline. *)
Definition at_end (s : str) : bool :=
  match s with
  | [] => true
  | [c] => eqc c "010"
  | _ => false
  end.

(** The positions after zero or more characters of [k], longest first. *)
Fixpoint run_star (k : cls) (p : option ascii) (s : str)
    (g : gmap string str) : list mstate :=
  match s with
  | c :: s' =>
      if cls_mem k c then run_star k (Some c) s' g ++ [mk_mstate p s g]
      else [mk_mstate p s g]
  | [] => [mk_mstate p s g]
  end.

Definition set_group (name : string) (before after : mstate) : mstate :=
  mk_mstate (prev after) (rest after)
    (<[name := firstn (length (rest before) - length (rest after)) (rest before)]>
       (groups after)).

(** All the ways [r] matches at a position, in the order in which the
    backtracking matcher of [re] tries them. *)
Fixpoint run (r : regex) (st : mstate) : list mstate :=
  match r with
  | Bol => match prev st with None => [st] | Some _ => [] end
  | Eol => if at_end (rest st) then [st] else []
  | WordBoundary =>
      if xorb (word_at (prev st)) (word_at (head (rest st))) then [st] else []
  | Lit c =>
      match rest st with
      | d :: s' => if eqc c d then [mk_mstate (Some d) s' (groups st)] else []
      | [] => []
      end
  | Class k =>
      match rest st with
      | d :: s' => if cls_mem k d then [mk_mstate (Some d) s' (groups st)] else []
      | [] => []
      end
  | PlusClass k =>
      match rest st with
      | d :: s' => if cls_mem k d then run_star k (Some d) s' (groups st) else []
      | [] => []
      end
  | Cat r1 r2 => run r1 st ≫= run r2
  | Opt r1 => run r1 st ++ [st]
  | Named name r1 => set_group name st <$> run r1 st
  | NotAhead r1 => match run r1 st with [] => [st] | _ :: _ => [] end
  end.

(** [pattern.match(s)] followed by [groupdict()]: a group that took
    no part in the match is absent from the map (Python's [None]). *)
Definition re_match (r : regex) (s : str) : option (gmap string str) :=
  groups <$> head (run r (mk_mstate None s ∅)).

End Re.

Declare Scope re_scope.
Delimit Scope re_scope with re.
Infix "⋅" := Re.Cat (at level 41, right associativity) : re_scope.

(** Lines 17-27. *)
Definition digit : Re.cls := Re.Range "0" "9".

Definition number : Re.regex :=
  (Re.PlusClass digit ⋅ Re.Opt (Re.Class (Re.OneOf (py ",.")) ⋅ Re.PlusClass digit))%re.

Definition field (name : string) (unit : ascii) : Re.regex :=
  Re.Opt (Re.Named name (number ⋅ Re.Lit unit)%re).

Definition time_section : Re.regex :=
  Re.Opt (Re.Named "separator" (Re.Lit "T") ⋅ field "hours" "H"
          ⋅ field "minutes" "M" ⋅ field "seconds" "S")%re.

Definition date_fields : Re.regex :=
  (field "years" "Y" ⋅ field "months" "M" ⋅ field "weeks" "W"
   ⋅ field "days" "D" ⋅ time_section ⋅ Re.Eol)%re.

Definition body : Re.regex :=
  (Re.Lit "P" ⋅ Re.NotAhead Re.WordBoundary ⋅ date_fields)%re.

Definition ISO8601_DURATION : Re.regex :=
  (Re.Bol ⋅ Re.Opt (Re.Named "sign" (Re.Class (Re.OneOf (py "+-")))) ⋅ body)%re.

(** ** The duration parser *)

(** The keyword arguments with which [relativedelta] is built; what
    dateutil does with them afterwards is outside the module. *)
Record relativedelta : Type := mk_relativedelta {
  years : PyNum.num; months : PyNum.num; days : PyNum.num;
  weeks : PyNum.num; hours : PyNum.num; minutes : PyNum.num;
  seconds : PyNum.num
}.

Module Duration.

Import PyNum.

(** [val[:-1].replace(',', '.')] *)
Definition field_text (val : str) : str :=
  PyStr.replace "," "." (PyStr.slice val None (Some (-1))).

Definition _parse_single_duration_value (val : option str) : result num :=
  match val with
  | None => Ok (PyInt 0)
  | Some v => f ← float_of_str (field_text v); Ok (PyFloat f)
  end.

Definition _parse_duration_years (year_val : option str) : result (num * num) :=
  match year_val with
  | None => Ok (PyInt 0, PyInt 0)
  | Some _ =>
      val ← _parse_single_duration_value year_val;
      years ← to_int val;
      if eqb (PyInt years) val then Ok (PyInt years, PyInt 0)
      else
        fracs ← sub val (PyInt years);
        months ← mul fracs (PyInt 12);
        im ← to_int months;
        if negb (eqb (PyInt im) months) then Raise ValueError
        else Ok (PyInt years, months)
  end.

Definition _parse_duration_months (month_val : option str) : result num :=
  match month_val with
  | None => Ok (PyInt 0)
  | Some _ =>
      val ← _parse_single_duration_value month_val;
      iv ← to_int val;
      if negb (eqb (PyInt iv) val) then Raise ValueError
      else Ok (PyInt iv)
  end.

(** Lines 346-363: the fields of a text the grammar accepts. *)
Definition from_groups (matches : gmap string str) : result relativedelta :=
  let sign := match matches !! "sign"%string with
              | Some s => if bool_decide (s = py "-") then PyInt (-1) else PyInt 1
              | None => PyInt 1
              end in
  '(years, extra_months) ← _parse_duration_years (matches !! "years"%string);
  y ← mul sign years;
  m0 ← _parse_duration_months (matches !! "months"%string);
  m1 ← add m0 extra_months;
  m ← mul sign m1;
  d0 ← _parse_single_duration_value (matches !! "days"%string);
  d ← mul sign d0;
  w0 ← _parse_single_duration_value (matches !! "weeks"%string);
  w ← mul sign w0;
  h0 ← _parse_single_duration_value (matches !! "hours"%string);
  h ← mul sign h0;
  mi0 ← _parse_single_duration_value (matches !! "minutes"%string);
  mi ← mul sign mi0;
  s0 ← _parse_single_duration_value (matches !! "seconds"%string);
  s ← mul sign s0;
  Ok (mk_relativedelta y m d w h mi s).

Definition of_datetime (dt : datetime) : relativedelta :=
  mk_relativedelta (PyInt (year dt)) (PyInt (month dt)) (PyInt (day dt))
    (PyInt 0) (PyInt (hour dt)) (PyInt (minute dt)) (PyInt (second dt)).

Section Fallback.

Variable dateutil_parse : str -> result datetime.

(** [datetime_parse(duration_str[1:])]: no default zone is passed,
    so neither the catalog nor [localize] takes part. *)
Definition date_literal (duration_str : str) : result datetime :=
  try_except (Parse._fromisoformat (PyStr.slice duration_str (Some 1) None))
             (dateutil_parse (PyStr.slice duration_str (Some 1) None)).

Definition parse_iso_duration (duration_str : str) : result relativedelta :=
  match Re.re_match ISO8601_DURATION duration_str with
  | None =>
      if PyStr.startswith (py "P") duration_str then
        match date_literal duration_str with
        | Ok dt => Ok (of_datetime dt)
        | Raise _ => Raise ValueError
        end
      else Raise ValueError
  | Some matches => from_groups matches
  end.

End Fallback.

Definition all_zero : relativedelta :=
  mk_relativedelta (PyInt 0) (PyInt 0) (PyInt 0) (PyInt 0) (PyInt 0)
    (PyInt 0) (PyInt 0).

(** Component-wise [-x]. *)
Definition negate (r : relativedelta) : relativedelta :=
  mk_relativedelta (neg (years r)) (neg (months r)) (neg (days r))
    (neg (weeks r)) (neg (hours r)) (neg (minutes r)) (neg (seconds r)).

End Duration.

(** ** Calendar arithmetic *)

(** Dates and instants are kept in the form in which CPython computes
    with them.  A [date] is its proleptic Gregorian ordinal
    ([date.toordinal()]: 1 for 0001-01-01, 3652059 for 9999-12-31); an
    [instant] is a [datetime] seen as the number of wall-clock
    microseconds since [datetime.min], with its tzinfo. *)
Module Calendar.

Definition MAXORDINAL : Z := 3652059.

Record date : Type := mk_date { toordinal : Z }.

Definition date_min : date := mk_date 1.
Definition date_max : date := mk_date MAXORDINAL.

Definition valid_date (d : date) : Prop := 1 <= toordinal d <= MAXORDINAL.

Definition days_before_year (y : Z) : Z :=
  let p := y - 1 in p * 365 + p / 4 - p / 100 + p / 400.

Fixpoint days_before_month (y : Z) (m : nat) : Z :=
  match m with
  | O | S O => 0
  | S m' => days_before_month y m' + DT.days_in_month y (Z.of_nat m')
  end.

(** [datetime.date(y, m, d)] with its range checks. *)
Definition date_of_ymd (y m d : Z) : result date :=
  if DT.between 1 y 9999 && DT.between 1 m 12
     && DT.between 1 d (DT.days_in_month y m)
  then Ok (mk_date (days_before_year y + days_before_month y (Z.to_nat m) + d))
  else Raise ValueError.

(** [date + datetime.timedelta(days=n)] *)
Definition date_add_days (d : date) (n : Z) : result date :=
  let o := toordinal d + n in
  if (0 <? o) && (o <=? MAXORDINAL) then Ok (mk_date o)
  else Raise OverflowError.

(** [date.isoweekday()]: Monday is 1 and Sunday is 7. *)
Definition isoweekday (d : date) : Z :=
  let r := toordinal d mod 7 in if r =? 0 then 7 else r.

Definition is_business_day (date_obj : date) : bool :=
  existsb (Z.eqb (isoweekday date_obj)) [1; 2; 3; 4; 5].

(** The [while] loop of [_get_next_timedelta]; [fuel] bounds the
    number of times its condition is tested and [None] means that the
    bound was reached. *)
Fixpoint search (fuel : nat) (increment_fn : date -> result date)
    (predicate_fn : date -> bool) (next_day : date) : option (result date) :=
  match fuel with
  | O => None
  | S fuel' =>
      if predicate_fn next_day then Some (Ok next_day)
      else match increment_fn next_day with
           | Ok d => search fuel' increment_fn predicate_fn d
           | Raise e => Some (Raise e)
           end
  end.

Definition _get_next_timedelta (fuel : nat) (start_date_obj : date)
    (increment_fn : date -> result date) (predicate_fn : date -> bool)
    : option (result date) :=
  match increment_fn start_date_obj with
  | Ok next_day => search fuel increment_fn predicate_fn next_day
  | Raise e => Some (Raise e)
  end.

Definition get_next_business_day (fuel : nat) (date_obj : date) :=
  _get_next_timedelta fuel date_obj (fun d => date_add_days d 1) is_business_day.

Definition get_previous_business_day (fuel : nat) (date_obj : date) :=
  _get_next_timedelta fuel date_obj (fun d => date_add_days d (-1)) is_business_day.

Definition US_PER_DAY : Z := 86400 * 10 ^ 6.
Definition MAX_WALL : Z := MAXORDINAL * US_PER_DAY - 1.

Record instant : Type := mk_instant { wall : Z; zone : option tzinfo }.

Definition valid_instant (x : instant) : Prop := 0 <= wall x <= MAX_WALL.

Definition instant_of_datetime (dt : datetime) : result instant :=
  d ← date_of_ymd (year dt) (month dt) (day dt);
  Ok (mk_instant ((toordinal d - 1) * US_PER_DAY
                  + ((hour dt * 60 + minute dt) * 60 + second dt) * 10 ^ 6
                  + microsecond dt) (tz dt)).

(** [datetime + timedelta] *)
Definition instant_add (x : instant) (td : timedelta) : result instant :=
  let w := wall x + td in
  if (0 <=? w) && (w <=? MAX_WALL) then Ok (mk_instant w (zone x))
  else Raise OverflowError.

(** [a - b] for two datetimes that share their tzinfo: the difference
    of the wall clocks. *)
Definition instant_sub (a b : instant) : timedelta := wall a - wall b.

(** [a % b] on timedeltas. *)
Definition timedelta_mod (a b : timedelta) : result timedelta :=
  if b =? 0 then Raise ZeroDivisionError else Ok (a mod b).

(** [delta or timedelta], the second built from the keyword
    arguments: a zero timedelta is false. *)
Definition pick_delta (delta : option timedelta) (delta_kwargs : timedelta)
    : timedelta :=
  match delta with
  | Some d => if d =? 0 then delta_kwargs else d
  | None => delta_kwargs
  end.

(** [datetime.min], naive or with the tzinfo of the argument put on. *)
Definition epoch_of (datetime_obj : instant) : instant :=
  mk_instant 0 (zone datetime_obj).

Definition ceil_datetime (datetime_obj : instant) (delta : option timedelta)
    (delta_kwargs : timedelta) : result instant :=
  let delta := pick_delta delta delta_kwargs in
  let min_datetime := epoch_of datetime_obj in
  r ← timedelta_mod (instant_sub min_datetime datetime_obj) delta;
  instant_add datetime_obj r.

Definition floor_datetime (datetime_obj : instant) (delta : option timedelta)
    (delta_kwargs : timedelta) : result instant :=
  let delta := pick_delta delta delta_kwargs in
  let min_datetime := epoch_of datetime_obj in
  r ← timedelta_mod (instant_sub datetime_obj min_datetime) delta;
  instant_add datetime_obj (- r).

Definition get_next_even_15_minutes (datetime_obj : instant) : result instant :=
  ceil_datetime datetime_obj (Some (15 * 60 * 10 ^ 6)) 0.

End Calendar.

(** ** The date parser and [ensure_datetime] *)

Module DateParse.

Import PyStr.

(** Lines 142-144, the body of the [try]: [None] when the test on the
    two hyphens is false and control leaves the [try] without a value. *)
Definition fast_path (date_str : str) : result (option Calendar.date) :=
  c4 ← getitem date_str 4;
  c7 ← getitem date_str 7;
  if eqc c4 c7 && eqc c7 "-" then
    y ← int (slice date_str None (Some 4));
    m ← int (Parse.sl date_str 5 7);
    d ← int (Parse.sl date_str 8 10);
    dd ← Calendar.date_of_ymd y m d;
    Ok (Some dd)
  else Ok None.

(** [dt.date()] *)
Definition date_of (dt : datetime) : result Calendar.date :=
  Calendar.date_of_ymd (year dt) (month dt) (day dt).

Section Fallback.

Variable catalog : gmap str tzinfo.
Variable win_tz : gmap str str.
Variable pytz_localize : tzinfo -> datetime -> result datetime.
Variable dateutil_parse : str -> result datetime.

Definition date_parse (date_str : str) : result Calendar.date :=
  match fast_path date_str with
  | Ok (Some dd) => Ok dd
  | _ => dt ← dateutil_parse date_str; date_of dt
  end.

(** The first argument of [ensure_datetime]: a [datetime.datetime] or a
    text. *)
Inductive datetime_arg : Type :=
| GivenDatetime (dt : datetime)
| GivenText (s : str).

Definition ensure_datetime (datetime_or_datetime_str : datetime_arg)
    (default_tz : option tzarg) : result datetime :=
  dt ← match datetime_or_datetime_str with
       | GivenDatetime dt => Ok dt
       | GivenText s =>
           Parse.datetime_parse catalog win_tz pytz_localize dateutil_parse s None
       end;
  match Parse.truthy default_tz with
  | Some z => Parse.ensure_tz_info catalog win_tz pytz_localize dt z
  | None => Ok dt
  end.

End Fallback.

End DateParse.

(** ** Days, months and comparable date objects *)

Module Moments.

Import Calendar.

(** [datetime.datetime(1, 1, 1, 0, 0, 0, tzinfo=pytz.utc)] *)
Definition min_datetime : result datetime :=
  DT.new 1 1 1 0 0 0 0 (Some pytz_utc).

(** [datetime.datetime(9999, 12, 31, 23, 59, 59, 999999, tzinfo=pytz.utc)] *)
Definition max_datetime : result datetime :=
  DT.new 9999 12 31 23 59 59 999999 (Some pytz_utc).

(** A [datetime.time] without tzinfo, as microseconds since midnight. *)
Definition time_of (hour minute second : Z) : Z :=
  ((hour * 60 + minute) * 60 + second) * 10 ^ 6.

(** [datetime.datetime.combine(date_obj, time_obj)] *)
Definition datetime_combine (date_obj : date) (time_obj : Z) : instant :=
  mk_instant ((toordinal date_obj - 1) * US_PER_DAY + time_obj) None.


(** An argument of the functions on date objects: a [datetime.date]
    or a [datetime.datetime]. *)
Inductive date_object : Type :=
| DateObj (d : date)
| DatetimeObj (x : instant).

Fixpoint get_maybe_tz_from_date_objects (date_objects : list date_object) : tzinfo :=
  match date_objects with
  | DatetimeObj x :: rest =>
      match zone x with
      | Some z => z
      | None => get_maybe_tz_from_date_objects rest
      end
  | DateObj _ :: rest => get_maybe_tz_from_date_objects rest
  | [] => pytz_utc
  end.

Section Collaborators.

Variable catalog : gmap str tzinfo.
Variable win_tz : gmap str str.
(** [tz.localize(dt)] for a resolved zone, on datetimes in wall-clock
    form. *)
Variable tz_localize : tzinfo -> instant -> result instant.

Definition localize (datetime_obj : instant) (tz_string_or_tz_obj : tzarg)
    (overwrite : bool) : result instant :=
  tz ← Zone.ensure_tz_object catalog win_tz tz_string_or_tz_obj;
  if overwrite then tz_localize tz (mk_instant (wall datetime_obj) None)
  else tz_localize tz datetime_obj.

Definition combine (date_obj : date) (time_obj : Z) (tz_string_or_tz_obj : tzarg)
    : result instant :=
  localize (datetime_combine date_obj time_obj) tz_string_or_tz_obj true.


Definition beginning_of_day (date_obj : date) (tz_string_or_tz_obj : tzarg)
    : result instant :=
  combine date_obj (time_of 0 0 0) tz_string_or_tz_obj.



(** One turn of the loop of [ensure_date_objects_are_comparable]. *)
Definition comparable (tz : tzinfo) (date_object : date_object) : result instant :=
  match date_object with
  | DateObj d => beginning_of_day d (TzObj tz)
  | DatetimeObj x =>
      match zone x with
      | None => localize x (TzObj tz) false
      | Some _ => Ok x
      end
  end.

Fixpoint collect (tz : tzinfo) (date_objects : list date_object)
    : result (list instant) :=
  match date_objects with
  | [] => Ok []
  | o :: rest => x ← comparable tz o; ret ← collect tz rest; Ok (x :: ret)
  end.

Definition ensure_date_objects_are_comparable (date_objects : list date_object)
    : result (list instant) :=
  collect (get_maybe_tz_from_date_objects date_objects) date_objects.

End Collaborators.

End Moments.

(** ** Shifting by a [datetime.timedelta] *)

Module Shift.

Import Calendar.

(** The keywords of [datetime.timedelta]. *)
Inductive keyword : Type :=
| kw_days | kw_seconds | kw_microseconds | kw_milliseconds
| kw_minutes | kw_hours | kw_weeks.

#[global] Instance keyword_eq_dec : EqDecision keyword.
Proof. solve_decision. Defined.

#[global] Instance keyword_countable : Countable keyword.
Proof.
  refine (inj_countable'
    (fun k => match k with
              | kw_days => 0 | kw_seconds => 1 | kw_microseconds => 2
              | kw_milliseconds => 3 | kw_minutes => 4 | kw_hours => 5
              | kw_weeks => 6
              end%nat)
    (fun n => match n with
              | 0 => kw_days | 1 => kw_seconds | 2 => kw_microseconds
              | 3 => kw_milliseconds | 4 => kw_minutes | 5 => kw_hours
              | _ => kw_weeks
              end%nat) _).
  intros []; reflexivity.
Defined.

(** Keyword arguments with integer values; a keyword that is not
    passed has the default 0. *)
Abbreviation kwargs := (gmap keyword Z).

Definition arg (kw : kwargs) (k : keyword) : Z := default 0 (kw !! k).

(** The microseconds that the keyword arguments add up to. *)
Definition total_us (kw : kwargs) : Z :=
  arg kw kw_days * US_PER_DAY
  + arg kw kw_seconds * 10 ^ 6
  + arg kw kw_microseconds
  + arg kw kw_milliseconds * 1000
  + arg kw kw_minutes * (60 * 10 ^ 6)
  + arg kw kw_hours * (3600 * 10 ^ 6)
  + arg kw kw_weeks * (7 * US_PER_DAY).

(** [datetime.timedelta] called with the keyword arguments: the number
    of whole days must not exceed 999999999 in magnitude. *)
Definition timedelta_new (kw : kwargs) : result timedelta :=
  let d := total_us kw / US_PER_DAY in
  if (-999999999 <=? d) && (d <=? 999999999) then Ok (total_us kw)
  else Raise OverflowError.

Definition timedelta (datetime_obj : instant) (kw : kwargs) : result instant :=
  td ← timedelta_new kw;
  instant_add datetime_obj td.

Section Clock.

(** The value of [now()], the current time in UTC. *)
Variable now : result instant.

Definition in_time (kw : kwargs) : result instant :=
  x ← now; timedelta x kw.

(** [{k: -1*v for k, v in kwargs.items()}] *)
Definition time_ago (kw : kwargs) : result instant :=
  in_time ((fun v => -1 * v) <$> kw).

End Clock.

End Shift.

(** * Vocabulary of the statements

    Definitions that are not in the Python module but that the
    properties below are stated with. *)

(** *** Collaborators of the closed examples *)

(** A fallback parser that accepts nothing, and a zone that cannot
    localize: the collaborators of the closed examples below. *)
Definition no_fallback : str -> result datetime := fun _ => Raise ValueError.
Definition no_localize : tzinfo -> datetime -> result datetime :=
  fun _ _ => Raise ValueError.

(** *** Zone names *)


(** *** Offsets *)

(** [int(td.total_seconds() / 3600)] for a timedelta. *)
Definition hours_of_offset (td : timedelta) : result Z :=
  q ← Zone.div_3600 (Zone.total_seconds td); PyNum.int_of_float q.

(** The float [3600.0], the divisor of [div_3600]. *)
Definition f3600 : PyNum.float := S754_finite false 7916483719987200 (-41).

(** An offset of [h] whole hours is reported as [h]. *)
Definition whole_hour_at (h : Z) : bool :=
  match hours_of_offset (h * 3600000000) with
  | Ok r => r =? h
  | Raise _ => false
  end.

(** [f] holds on the [n] integers from [z] upward. *)
Fixpoint holds_from (n : nat) (z : Z) (f : Z -> bool) : bool :=
  match n with
  | O => true
  | S n' => f z && holds_from n' (Z.succ z) f
  end.

(** *** Timestamps *)

(** [follows pat b]: the text [b] goes along the pattern [pat], in
    which [d] stands for a digit and any other character for itself;
    [b] may stop before the pattern does. *)
Fixpoint follows (pat b : str) : bool :=
  match pat, b with
  | _, [] => true
  | p :: pat', c :: b' =>
      (if PyStr.eqc p "d" then PyStr.is_digit c else PyStr.eqc p c)
      && follows pat' b'
  | [], _ :: _ => false
  end.

(** The profile without its zone suffix:
    [YYYY-MM-DDThh:mm], [YYYY-MM-DDThh:mm:ss], and the latter with three
    or six fraction digits. *)
Definition timestamp_base (b : str) : bool :=
  existsb (Nat.eqb (length b)) [16; 19; 23; 26]%nat
  && follows (py "dddd-dd-ddTdd:dd:dd.dddddd") b.

Definition two_digits (a b : ascii) : Z := 10 * PyStr.digit_val a + PyStr.digit_val b.

Definition sign_value (sg : ascii) : Z := if PyStr.eqc sg "-" then -1 else 1.

(** The number written with the digits of [b] from [lo] up to [hi]. *)
Definition digits_at (b : str) (lo hi : Z) : Z :=
  PyNum.digits_value 0 (Parse.sl b lo hi).

(** The seconds of a timestamp of the profile: none when the text
    stops after the minutes. *)
Definition seconds_of (b : str) : Z :=
  if PyStr.len b =? 16 then 0 else digits_at b 17 19.

(** Its microseconds: three fraction digits count milliseconds, six
    count microseconds. *)
Definition microseconds_of (b : str) : Z :=
  if PyStr.len b =? 23 then digits_at b 20 23 * 1000
  else if PyStr.len b =? 26 then digits_at b 20 26
  else 0.

(** The zone suffixes of the profile with the tzinfo that each stands
    for: none, [Z], [+hh:mm] and [+hhmm] (or with [-]). *)
Definition zone_of_suffix (z : str) : option (option tzinfo) :=
  let offset sg h1 h2 m1 m2 :=
    if Parse.is_sign sg && PyStr.is_digit h1 && PyStr.is_digit h2
       && PyStr.is_digit m1 && PyStr.is_digit m2
    then Some (Some (tzoffset (sign_value sg
                      * (two_digits h1 h2 * 3600 + two_digits m1 m2 * 60))))
    else None in
  match z with
  | [] => Some None
  | [c] => if PyStr.eqc c "Z" then Some (Some pytz_utc) else None
  | [sg; h1; h2; m1; m2] => offset sg h1 h2 m1 m2
  | [sg; h1; h2; c; m1; m2] =>
      if PyStr.eqc c ":" then offset sg h1 h2 m1 m2 else None
  | _ => None
  end.

(** The offset of a fixed-offset or UTC tzinfo, in seconds. *)
Definition fixed_utcoffset (t : tzinfo) : option Z :=
  match t with
  | pytz_utc => Some 0
  | tzoffset n => Some n
  | pytz_zone _ => None
  end.

(** The instant on the UTC time line of an aware datetime with a fixed
    offset, in microseconds since 0001-01-01T00:00:00 UTC. *)
Definition utc_microseconds (dt : datetime) : option Z :=
  match tz dt, Calendar.instant_of_datetime dt with
  | Some t, Ok i =>
      match fixed_utcoffset t with
      | Some off => Some (Calendar.wall i - off * 10 ^ 6)
      | None => None
      end
  | _, _ => None
  end.

(** *** Results *)

Definition result_map {A B} (f : A -> B) (r : result A) : result B :=
  match r with
  | Ok a => Ok (f a)
  | Raise e => Raise e
  end.

(** *** Matching *)

(** [first_match r st st']: the first way in which [r] matches at [st]
    ends at [st'], which is where the backtracking matcher goes when
    the rest of the pattern then succeeds. *)
Definition first_match (r : Re.regex) (st st' : Re.mstate) : Prop :=
  exists others, Re.run r st = st' :: others.

(** [r] has no group called [n]. *)
Fixpoint no_group (n : string) (r : Re.regex) : bool :=
  match r with
  | Re.Cat r1 r2 => no_group n r1 && no_group n r2
  | Re.Opt r1 | Re.NotAhead r1 => no_group n r1
  | Re.Named name r1 => negb (String.eqb n name) && no_group n r1
  | _ => true
  end.

Definition with_group (n : string) (v : str) (st : Re.mstate) : Re.mstate :=
  Re.mk_mstate (Re.prev st) (Re.rest st) (<[n := v]> (Re.groups st)).

(** The optional sign with which [ISO8601_DURATION] starts. *)
Definition sign_group : Re.regex :=
  Re.Opt (Re.Named "sign" (Re.Class (Re.OneOf (py "+-")))).

(** The characters that [r] can consume. *)
Fixpoint accepts (r : Re.regex) (c : ascii) : bool :=
  match r with
  | Re.Lit a => PyStr.eqc a c
  | Re.Class k | Re.PlusClass k => Re.cls_mem k c
  | Re.Cat r1 r2 => accepts r1 c || accepts r2 c
  | Re.Opt r1 | Re.Named _ r1 => accepts r1 c
  | _ => false
  end.

(** [r] ends with [$]. *)
Fixpoint ends_with_eol (r : Re.regex) : bool :=
  match r with
  | Re.Eol => true
  | Re.Cat _ r2 => ends_with_eol r2
  | _ => false
  end.

(** The characters of which the texts of the duration grammar are
    made, the newline that [$] lets pass at the end among them. *)
Definition duration_alphabet (c : ascii) : bool :=
  PyStr.is_digit c || existsb (PyStr.eqc c) (py "+-P,.YMWDTHS") || PyStr.eqc c "010".

(** *** Durations *)

(** The sign with which the fields are multiplied: -1 when the text
    starts with a minus sign. *)
Definition sign_of (matches : gmap string str) : PyNum.num :=
  match matches !! "sign"%string with
  | Some s => if bool_decide (s = py "-") then PyNum.PyInt (-1) else PyNum.PyInt 1
  | None => PyNum.PyInt 1
  end.

(** The floats of [int] constants in mixed arithmetic. *)
Definition minus_one : PyNum.float := binary_normalize PyNum.prec PyNum.emax (-1) 0 false.
Definition plus_one : PyNum.float := binary_normalize PyNum.prec PyNum.emax 1 0 false.
Definition twelve : PyNum.float := binary_normalize PyNum.prec PyNum.emax 12 0 false.

(** A years field that reads as the float [v], split in binary64 into
    the year count and, when [v] is not integral, the months that the
    remainder stands for. *)
Definition split_years (v : PyNum.float) : result (Z * option PyNum.float) :=
  y ← PyNum.int_of_float v;
  if PyNum.is_integral v then Ok (y, None)
  else
    fy ← PyNum.float_of_int y;
    let m := PyNum.fmul (PyNum.fsub v fy) twelve in
    _ ← PyNum.int_of_float m;
    if PyNum.is_integral m then Ok (y, Some m) else Raise ValueError.

Definition extra_months (m : option PyNum.float) : PyNum.num :=
  match m with
  | Some m => PyNum.PyFloat m
  | None => PyNum.PyInt 0
  end.

(** A delta of years and months only. *)
Definition years_delta (y m : PyNum.num) : relativedelta :=
  mk_relativedelta y m (PyNum.PyInt 0) (PyNum.PyInt 0) (PyNum.PyInt 0)
    (PyNum.PyInt 0) (PyNum.PyInt 0).

(** Fields whose group took no part in the match are zero. *)
Definition missing_fields_zero (g : gmap string str) (r : relativedelta) : Prop :=
  (g !! "years"%string = None -> years r = PyNum.PyInt 0)
  /\ (g !! "years"%string = None -> g !! "months"%string = None ->
      months r = PyNum.PyInt 0)
  /\ (g !! "days"%string = None -> days r = PyNum.PyInt 0)
  /\ (g !! "weeks"%string = None -> weeks r = PyNum.PyInt 0)
  /\ (g !! "hours"%string = None -> hours r = PyNum.PyInt 0)
  /\ (g !! "minutes"%string = None -> minutes r = PyNum.PyInt 0)
  /\ (g !! "seconds"%string = None -> seconds r = PyNum.PyInt 0).

(** *** Dates as text *)

Definition digit_char (d : Z) : ascii := ascii_of_N (Z.to_N (48 + d)).

(** The last [width] decimal digits of [z], most significant first:
    [z] written with [%0<width>d] when [0 <= z < 10 ^ width]. *)
Fixpoint zfill (width : nat) (z : Z) : str :=
  match width with
  | O => []
  | S w => zfill w (z / 10) ++ [digit_char (z mod 10)]
  end.

(** [YYYY-MM-DD], the text of [date.isoformat()]. *)
Definition isoformat (y m d : Z) : str :=
  zfill 4 y ++ "-"%char :: zfill 2 m ++ "-"%char :: zfill 2 d.

(** *** Collaborators of the closed examples *)

(** pytz's [localize] as far as the model shows it: a naive datetime
    gets the tzinfo, one that has a tzinfo already is refused. *)
Definition attach_zone (z : tzinfo) (x : Calendar.instant)
    : result Calendar.instant :=
  match Calendar.zone x with
  | None => Ok (Calendar.mk_instant (Calendar.wall x) (Some z))
  | Some _ => Raise ValueError
  end.

(** pytz's [localize] on the fields of a datetime: a naive datetime
    gets the tzinfo, one that has a tzinfo already is refused. *)
Definition attach_tzinfo (z : tzinfo) (dt : datetime) : result datetime :=
  match tz dt with
  | None => Ok (mk_datetime (year dt) (month dt) (day dt) (hour dt) (minute dt)
                  (second dt) (microsecond dt) (Some z))
  | Some _ => Raise ValueError
  end.

(** *** The calendar *)

(** The day that a leap year has more. *)
Definition leap_day (y : Z) : Z := if DT.is_leap y then 1 else 0.


(** A quarter of an hour, in microseconds. *)
Definition QUARTER_HOUR : Z := 15 * 60 * 10 ^ 6.

(** * Properties *)

(** ** Zone resolution *)

Section ZoneFacts.

Variable catalog : gmap str tzinfo.
Variable win_tz : gmap str str.






Lemma ensure_tz_object_idempotent (a : tzarg) (z : tzinfo) :
  Zone.ensure_tz_object catalog win_tz a = Ok z ->
  Zone.ensure_tz_object catalog win_tz (TzObj z) = Ok z.
Proof. reflexivity. Qed.

End ZoneFacts.


(** Lookups in a catalog of two zones and a table of one Windows name:
    the case of a name is put right, UTC needs no catalog, a Windows
    name is translated, and when the translation is unknown too the
    error names the translation. *)
Example ensure_tz_object_cases :
  let helsinki := pytz_zone (py "Europe/Helsinki") in
  let catalog : gmap str tzinfo :=
    {[ py "Europe/Helsinki" := helsinki; py "Etc/GMT+3" := pytz_zone (py "Etc/GMT+3") ]} in
  let win_tz : gmap str str :=
    {[ py "FLE Standard Time" := py "Europe/Helsinki";
       py "Mars Standard Time" := py "Mars/Olympus" ]} in
  Zone.ensure_tz_object catalog win_tz (TzName (py "Europe/Helsinki")) = Ok helsinki
  /\ Zone.ensure_tz_object catalog win_tz (TzName (py "europe/helsinki")) = Ok helsinki
  /\ Zone.ensure_tz_object catalog win_tz (TzName (py "Etc/GMT_plus_3"))
     = Ok (pytz_zone (py "Etc/GMT+3"))
  /\ Zone.ensure_tz_object catalog win_tz (TzName (py "utc")) = Ok pytz_utc
  /\ Zone.ensure_tz_object catalog win_tz (TzName (py "FLE Standard Time")) = Ok helsinki
  /\ Zone.ensure_tz_object catalog win_tz (TzName (py "Mars/Olympus"))
     = Raise (UnknownTimeZoneError (py "Mars/Olympus"))
  /\ Zone.ensure_tz_object catalog win_tz (TzName (py "Mars Standard Time"))
     = Raise (UnknownTimeZoneError (py "Mars/Olympus")).
Proof. cbv zeta. repeat split; vm_compute; reflexivity. Qed.

(** *** The whole-hour offset *)

Lemma holds_from_spec (f : Z -> bool) (n : nat) (z x : Z) :
  holds_from n z f = true -> z <= x < z + Z.of_nat n -> f x = true.
Proof.
  revert z. induction n as [|n IH]; intros z H Hx; simpl in H.
  - lia.
  - apply andb_true_iff in H as [H0 H1].
    destruct (Z.eq_dec x z) as [->|Hne]; [exact H0|].
    apply (IH (Z.succ z)); [exact H1|lia].
Qed.

(** **** Binary64 division on offsets

    [total_seconds() / 3600] is two correctly rounded divisions; each
    moves the quotient by less than one unit of its last place, which
    is too little to cross a whole hour from inside one. *)

Section RoundingFacts.

Import PyNum.

(** The bit length of a positive number. *)
Lemma digits2_bounds (p : positive) :
  2 ^ (Zpos (digits2_pos p) - 1) <= Zpos p < 2 ^ Zpos (digits2_pos p).
Proof.
  induction p as [p IH|p IH|]; cbn [digits2_pos].
  - rewrite Pos2Z.inj_succ.
    replace (Z.succ (Zpos (digits2_pos p)) - 1) with (Z.succ (Zpos (digits2_pos p) - 1)) by lia.
    rewrite !Z.pow_succ_r by lia. lia.
  - rewrite Pos2Z.inj_succ.
    replace (Z.succ (Zpos (digits2_pos p)) - 1) with (Z.succ (Zpos (digits2_pos p) - 1)) by lia.
    rewrite !Z.pow_succ_r by lia. lia.
  - cbn. lia.
Qed.

Lemma digits2_unique (p : positive) (d : Z) :
  2 ^ (d - 1) <= Zpos p < 2 ^ d -> Zpos (digits2_pos p) = d.
Proof.
  intros [Hlo Hhi]. pose proof (digits2_bounds p) as [Hl Hh].
  assert (0 < d).
  { destruct (Z.ltb_spec 0 d); [assumption|].
    assert (2 ^ d <= 1).
    { destruct (Z.eq_dec d 0) as [->|]; [cbn; lia|].
      rewrite Z.pow_neg_r by lia. lia. }
    lia. }
  assert (Zpos (digits2_pos p) - 1 < d).
  { apply (Z.pow_lt_mono_r_iff 2); lia. }
  assert (d - 1 < Zpos (digits2_pos p)).
  { apply (Z.pow_lt_mono_r_iff 2); lia. }
  lia.
Qed.

Lemma shr_1_m (mrs : shr_record) :
  0 <= shr_m mrs -> shr_m (shr_1 mrs) = shr_m mrs / 2.
Proof.
  destruct mrs as [m r s]. cbn [shr_m]. intros Hm.
  destruct m as [|p|p]; [reflexivity| |lia].
  destruct p as [p|p|]; cbn [shr_1 shr_m].
  - rewrite Pos2Z.inj_xI. apply (Z.div_unique _ _ _ 1); lia.
  - rewrite Pos2Z.inj_xO. apply (Z.div_unique _ _ _ 0); lia.
  - reflexivity.
Qed.

Lemma round_nearest_even_cases (m : Z) (l : location) :
  round_nearest_even m l = m \/ round_nearest_even m l = m + 1.
Proof.
  destruct l as [|[| |]]; cbn; auto. destruct (Z.even m); auto.
Qed.

Lemma fexp_normal (x : Z) : -1074 <= x - 53 -> fexp prec emax x = x - 53.
Proof.
  intros H. unfold fexp, emin, prec, emax. lia.
Qed.

Lemma shr_record_m (m : Z) (l : location) : shr_m (shr_record_of_loc m l) = m.
Proof. destruct l as [|[| |]]; reflexivity. Qed.

Lemma shr_fexp_digits (p : positive) (e d : Z) (l : location) :
  Zpos (digits2_pos p) = d -> -1074 <= d + e - 53 ->
  shr_fexp prec emax (Zpos p) e l
  = shr (shr_record_of_loc (Zpos p) l) e (d - 53).
Proof.
  intros Hd He. unfold shr_fexp. cbn [Zdigits2]. rewrite Hd.
  rewrite fexp_normal by lia. f_equal. lia.
Qed.

(** Rounding a quotient of 53 or 54 bits: the result is a normal float
    at most two binades up, within one unit of the quotient. *)
Lemma round_normal (s : bool) (q e : Z) (l : location) :
  2 ^ 52 <= q < 2 ^ 54 -> -1074 <= e <= 969 ->
  exists (F : positive) (n : Z),
    binary_round_aux prec emax s q e l = S754_finite s F (e + n)
    /\ 0 <= n <= 2
    /\ 2 ^ 52 <= Zpos F < 2 ^ 53
    /\ (Zpos F - 1) * 2 ^ n <= q <= (Zpos F + 1) * 2 ^ n.
Proof.
  intros Hq He. destruct q as [|p|p]; try lia.
  unfold binary_round_aux.
  (* the first shift *)
  assert (H1 : exists M n1 l1,
             shr_fexp prec emax (Zpos p) e l = (Build_shr_record M (fst l1) (snd l1), e + n1)
             /\ 0 <= n1 <= 1 /\ 2 ^ 52 <= M < 2 ^ 53
             /\ M * 2 ^ n1 <= Zpos p <= M * 2 ^ n1 + (2 ^ n1 - 1)).
  { destruct (Z.ltb_spec (Zpos p) (2 ^ 53)) as [Hlt|Hge].
    - rewrite (shr_fexp_digits p e 53 l) by (try apply digits2_unique; lia).
      change (53 - 53) with 0. cbn [shr].
      destruct (shr_record_of_loc (Zpos p) l) as [m r t] eqn:E.
      exists (Zpos p), 0, (r, t).
      assert (m = Zpos p) by (rewrite <- (shr_record_m (Zpos p) l), E; reflexivity).
      subst m. rewrite Z.add_0_r. cbn [fst snd]. repeat split; cbn; lia.
    - rewrite (shr_fexp_digits p e 54 l) by (try apply digits2_unique; lia).
      change (54 - 53) with 1. cbn [shr].
      change (SpecFloat.iter_pos shr_1 1 ?x) with (shr_1 x).
      pose proof (shr_1_m (shr_record_of_loc (Zpos p) l)) as Hm.
      rewrite shr_record_m in Hm. specialize (Hm ltac:(lia)).
      destruct (shr_1 (shr_record_of_loc (Zpos p) l)) as [m r t].
      cbn [shr_m] in Hm. subst m.
      exists (Zpos p / 2), 1, (r, t). cbn [fst snd].
      split; [reflexivity|].
      pose proof (Z.div_mod (Zpos p) 2 ltac:(lia)).
      pose proof (Z.mod_pos_bound (Zpos p) 2 ltac:(lia)).
      change (2 ^ 54) with (2 * 2 ^ 53) in Hq. change (2 ^ 1) with 2.
      repeat split; lia. }
  destruct H1 as (M & n1 & l1 & -> & Hn1 & HM & HMq).
  set (m2 := round_nearest_even (shr_m _) _).
  assert (Hm2 : m2 = M \/ m2 = M + 1) by apply round_nearest_even_cases.
  clearbody m2.
  destruct (Z.ltb_spec m2 (2 ^ 53)) as [Hlt|Hge].
  - destruct m2 as [|p2|p2]; try lia.
    rewrite (shr_fexp_digits p2 (e + n1) 53 loc_Exact)
      by (try apply digits2_unique; lia).
    change (53 - 53) with 0. cbn [shr shr_record_of_loc shr_m].
    replace (e + n1 <=? emax - prec) with true
      by (symmetry; apply Z.leb_le; unfold emax, prec; lia).
    exists p2, n1. split; [reflexivity|].
    assert (n1 = 0 \/ n1 = 1) as [-> | ->] by lia; cbn in *; lia.
  - assert (m2 = 2 ^ 53) by lia. subst m2.
    change (2 ^ 53) with (Zpos 9007199254740992).
    rewrite (shr_fexp_digits _ (e + n1) 54 loc_Exact) by (try reflexivity; lia).
    change (54 - 53) with 1. cbn [shr shr_record_of_loc].
    change (SpecFloat.iter_pos shr_1 1 ?x) with (shr_1 x).
    cbn [shr_m shr_1 orb].
    replace (e + n1 + 1 <=? emax - prec) with true
      by (symmetry; apply Z.leb_le; unfold emax, prec; lia).
    exists 4503599627370496%positive, (n1 + 1).
    split; [f_equal; lia|].
    assert (n1 = 0 \/ n1 = 1) as [-> | ->] by lia; cbn in *; lia.
Qed.

(** The quotient and exponent the division hands to the rounding. *)
Lemma div_core (m1 m2 : positive) (e1 e2 : Z) :
  let E := Zpos (digits2_pos m1) + e1 - (Zpos (digits2_pos m2) + e2) - 53 in
  -1074 <= E -> E <= e1 - e2 ->
  SFdiv_core_binary prec emax (Zpos m1) e1 (Zpos m2) e2
  = ((Zpos m1 * 2 ^ (e1 - e2 - E)) / Zpos m2, E,
     new_location (Zpos m2) ((Zpos m1 * 2 ^ (e1 - e2 - E)) mod Zpos m2)).
Proof.
  intros E Hlo Hhi. unfold SFdiv_core_binary. cbn [Zdigits2].
  rewrite fexp_normal by (fold E; lia).
  replace (Zpos (digits2_pos m1) + e1 - (Zpos (digits2_pos m2) + e2) - 53) with E
    by reflexivity.
  rewrite Z.min_l by lia.
  assert (Hm : match e1 - e2 - E with
               | Zpos _ => Z.shiftl (Zpos m1) (e1 - e2 - E)
               | 0 => Zpos m1
               | Zneg _ => 0
               end = Zpos m1 * 2 ^ (e1 - e2 - E)).
  { destruct (e1 - e2 - E) as [|k|k] eqn:Ek; [cbn; lia| |lia].
    rewrite Z.shiftl_mul_pow2 by lia. reflexivity. }
  rewrite Hm. unfold Z.div, Z.modulo.
  destruct (Z.div_eucl _ _) as [q r]. reflexivity.
Qed.

Lemma float_of_3600 : float_of_int 3600 = Ok f3600.
Proof. reflexivity. Qed.

(** [x / 10**6] for a positive number [x] of microseconds below 2^37. *)
Lemma total_seconds_bounds (px : positive) :
  Zpos px < 2 ^ 37 ->
  let d := Zpos (digits2_pos px) in
  exists (Fa : positive) (n q1 : Z),
    Zone.total_seconds (Zpos px) = S754_finite false Fa (d - 73 + n)
    /\ 0 <= n <= 2 /\ 1 <= d <= 37
    /\ 2 ^ 52 <= Zpos Fa < 2 ^ 53
    /\ 10 ^ 6 * q1 <= Zpos px * 2 ^ (73 - d) < 10 ^ 6 * (q1 + 1)
    /\ 2 ^ 72 <= Zpos px * 2 ^ (73 - d) < 2 ^ 73
    /\ (Zpos Fa - 1) * 2 ^ n <= q1 <= (Zpos Fa + 1) * 2 ^ n.
Proof.
  intros Hx d. pose proof (digits2_bounds px) as Hd. fold d in Hd.
  assert (Hd1 : 1 <= d) by (unfold d; lia).
  assert (Hd37 : d <= 37).
  { assert (d - 1 < 37); [|lia]. apply (Z.pow_lt_mono_r_iff 2); lia. }
  set (P0 := 2 ^ (73 - d)).
  assert (HP : Zpos px * P0 < 2 ^ 73 /\ 2 ^ 72 <= Zpos px * P0).
  { unfold P0. split.
    - replace 73 with (d + (73 - d)) at 2 by lia. rewrite Z.pow_add_r by lia.
      apply Z.mul_lt_mono_pos_r; [apply Z.pow_pos_nonneg; lia|lia].
    - replace 72 with ((d - 1) + (73 - d)) by lia. rewrite Z.pow_add_r by lia.
      apply Z.mul_le_mono_nonneg_r; [apply Z.pow_nonneg; lia|lia]. }
  unfold Zone.total_seconds, nearest_ratio, fdiv.
  change (10 ^ 6) with 1000000. cbn [exact SFdiv xorb].
  rewrite (div_core px 1000000 0 0) by (cbn [digits2_pos Pos.succ]; fold d; lia).
  change (Zpos (digits2_pos 1000000)) with 20. fold d.
  replace (d + 0 - (20 + 0) - 53) with (d - 73) by lia.
  replace (0 - 0 - (d - 73)) with (73 - d) by lia. fold P0.
  set (q1 := Zpos px * P0 / 1000000).
  pose proof (Z.div_mod (Zpos px * P0) 1000000 ltac:(lia)) as Hdm.
  pose proof (Z.mod_pos_bound (Zpos px * P0) 1000000 ltac:(lia)) as Hmb.
  fold q1 in Hdm.
  destruct (round_normal false q1 (d - 73)
              (new_location 1000000 (Zpos px * P0 mod 1000000)))
    as (Fa & n & Hr & Hn & HF & Hq).
  { change (2 ^ 52) with 4503599627370496. change (2 ^ 54) with 18014398509481984.
    change (2 ^ 72) with 4722366482869645213696 in HP.
    change (2 ^ 73) with 9444732965739290427392 in HP. lia. }
  { lia. }
  exists Fa, n, q1. split; [exact Hr|].
  change (10 ^ 6) with 1000000.
  repeat split; try lia.
Qed.

(** [a / 3600] for a positive normal float [a]. *)
Lemma div_3600_bounds (Fa : positive) (ea : Z) :
  2 ^ 52 <= Zpos Fa < 2 ^ 53 -> -1000 <= ea <= 900 ->
  exists (Fb : positive) (n q2 : Z),
    fdiv (S754_finite false Fa ea) f3600 = S754_finite false Fb (ea - 12 + n)
    /\ 0 <= n <= 2
    /\ 2 ^ 52 <= Zpos Fb < 2 ^ 53
    /\ 7916483719987200 * q2 <= Zpos Fa * 2 ^ 53 < 7916483719987200 * (q2 + 1)
    /\ (Zpos Fb - 1) * 2 ^ n <= q2 <= (Zpos Fb + 1) * 2 ^ n.
Proof.
  intros HF He. unfold fdiv, f3600. cbn [SFdiv xorb].
  assert (Hd : Zpos (digits2_pos Fa) = 53) by (apply digits2_unique; lia).
  rewrite (div_core Fa 7916483719987200 ea (-41))
    by (rewrite Hd; change (Zpos (digits2_pos 7916483719987200)) with 53; lia).
  rewrite Hd. change (Zpos (digits2_pos 7916483719987200)) with 53.
  replace (53 + ea - (53 + -41) - 53) with (ea - 12) by lia.
  replace (ea - -41 - (ea - 12)) with 53 by lia.
  set (q2 := Zpos Fa * 2 ^ 53 / 7916483719987200).
  pose proof (Z.div_mod (Zpos Fa * 2 ^ 53) 7916483719987200 ltac:(lia)) as Hdm.
  pose proof (Z.mod_pos_bound (Zpos Fa * 2 ^ 53) 7916483719987200 ltac:(lia)) as Hmb.
  fold q2 in Hdm.
  change (2 ^ 53) with 9007199254740992 in *.
  change (2 ^ 52) with 4503599627370496 in *.
  destruct (round_normal false q2 (ea - 12)
              (new_location 7916483719987200
                 (Zpos Fa * 9007199254740992 mod 7916483719987200)))
    as (Fb & n & Hr & Hn & HFb & Hq).
  { change (2 ^ 52) with 4503599627370496. change (2 ^ 54) with 18014398509481984.
    lia. }
  { lia. }
  exists Fb, n, q2. split; [exact Hr|].
  change (2 ^ 53) with 9007199254740992 in HFb.
  change (2 ^ 52) with 4503599627370496 in HFb.
  repeat split; lia.
Qed.

(** [int] of a positive float with a negative exponent. *)
Lemma int_of_float_shift (F : positive) (k : Z) :
  0 < k -> int_of_float (S754_finite false F (- k)) = Ok (Zpos F / 2 ^ k).
Proof.
  intros Hk. destruct k as [|p|p]; try lia.
  change (- Zpos p) with (Zneg p). cbn [int_of_float cond_Zopp].
  rewrite Z.shiftr_div_pow2 by lia. reflexivity.
Qed.

(** Below 24 hours and off the whole hours, the two divisions and the
    truncation give the whole hours of a positive offset. *)
Lemma hours_positive (px : positive) :
  Zpos px < 86400 * 10 ^ 6 -> Zpos px mod 3600000000 <> 0 ->
  hours_of_offset (Zpos px) = Ok (Zpos px / 3600000000).
Proof.
  intros Hx Hr.
  destruct (total_seconds_bounds px) as (Fa & n & q1 & Ha & Hn & Hd & HFa & Hq1 & HxP0 & HFq).
  { change (2 ^ 37) with 137438953472. change (86400 * 10 ^ 6) with 86400000000 in Hx. lia. }
  set (d := Zpos (digits2_pos px)) in *.
  destruct (div_3600_bounds Fa (d - 73 + n) HFa ltac:(lia))
    as (Fb & n' & q2 & Hb & Hn' & HFb & Hq2 & HFq2).
  unfold hours_of_offset. rewrite Ha. unfold Zone.div_3600.
  rewrite float_of_3600. cbn [mbind result_bind]. rewrite Hb.
  replace (d - 73 + n - 12 + n') with (- (85 - d - n - n')) by lia.
  rewrite int_of_float_shift by lia. f_equal.
  replace (85 - d - n - n') with ((73 - d) + (12 - n - n')) by lia.
  rewrite Z.pow_add_r by lia.
  set (P0 := 2 ^ (73 - d)) in *.
  assert (HP0 : 2 ^ 36 <= P0).
  { unfold P0. apply Z.pow_le_mono_r; lia. }
  set (h := Zpos px / 3600000000).
  pose proof (Z.div_mod (Zpos px) 3600000000 ltac:(lia)) as Hdm. fold h in Hdm.
  pose proof (Z.mod_pos_bound (Zpos px) 3600000000 ltac:(lia)) as Hmb.
  set (r := Zpos px mod 3600000000) in *.
  assert (Hh : 0 <= h) by (unfold h; apply Z.div_pos; lia).
  set (hP := h * P0). set (rP := r * P0).
  assert (HxP : Zpos px * P0 = 3600000000 * hP + rP) by (unfold hP, rP; rewrite Hdm at 1; ring).
  assert (HrP : P0 <= rP <= 3599999999 * P0) by (unfold rP; nia).
  assert (HhP : 0 <= hP) by (unfold hP; nia).
  assert (Hhh : hP = h * P0) by reflexivity.
  clearbody hP rP P0. clear Hdm Hmb Hr.
  change (10 ^ 6) with 1000000 in *.
  change (2 ^ 36) with 68719476736 in *.
  change (2 ^ 52) with 4503599627370496 in *.
  change (2 ^ 53) with 9007199254740992 in *.
  change (2 ^ 72) with 4722366482869645213696 in *.
  change (2 ^ 73) with 9444732965739290427392 in *.
  rewrite HxP in *.
  symmetry.
  assert (Hc : n = 0 \/ n = 1 \/ n = 2) by lia.
  assert (Hc' : n' = 0 \/ n' = 1 \/ n' = 2) by lia.
  destruct Hc as [-> |[-> | ->]]; destruct Hc' as [-> |[-> | ->]];
    cbn [Z.sub Z.add Z.opp Z.pos_sub Z.pow Z.pow_pos Pos.iter Z.mul Pos.mul Pos.add Pos.succ Pos.pred_double] in *.
  all: match goal with
       | |- ?q = ?a / (?P * ?c) =>
           apply (Z.div_unique a (P * c) q (a - (P * c) * q))
       end.
  all: unfold h; lia.
Qed.

(** Rounding commutes with the sign. *)
Lemma round_opp (s : bool) (m e : Z) (l : location) :
  binary_round_aux prec emax (negb s) m e l
  = SFopp (binary_round_aux prec emax s m e l).
Proof.
  unfold binary_round_aux.
  destruct (shr_fexp prec emax m e l) as [mrs e'].
  destruct (shr_fexp prec emax _ e' loc_Exact) as [mrs' e''].
  destruct (shr_m mrs') as [|p|p]; try reflexivity.
  destruct (e'' <=? emax - prec); reflexivity.
Qed.

Lemma total_seconds_opp (p : positive) :
  Zone.total_seconds (Zneg p) = fneg (Zone.total_seconds (Zpos p)).
Proof.
  unfold Zone.total_seconds, nearest_ratio, fdiv, fneg.
  change (10 ^ 6) with 1000000. cbn [exact SFdiv xorb].
  destruct (SFdiv_core_binary _ _ _ _ _ _) as [[mz ez] lz].
  apply (round_opp false).
Qed.

Lemma fdiv_opp (a : float) : fdiv (fneg a) f3600 = fneg (fdiv a f3600).
Proof.
  unfold fdiv, fneg, f3600.
  destruct a as [s|s| |s m e].
  - destruct s; reflexivity.
  - destruct s; reflexivity.
  - reflexivity.
  - cbn [SFopp SFdiv].
    destruct (SFdiv_core_binary _ _ _ _ _ _) as [[mz ez] lz].
    rewrite !xorb_false_r. apply round_opp.
Qed.

Lemma int_of_float_opp (b : float) :
  int_of_float (fneg b) = result_map Z.opp (int_of_float b).
Proof.
  destruct b as [s|s| |s m e]; try reflexivity.
  cbn [fneg SFopp int_of_float result_map]. f_equal.
  destruct s; cbn [negb cond_Zopp]; lia.
Qed.

(** A negative offset gives the opposite of the positive one. *)
Lemma hours_of_offset_opp (p : positive) :
  hours_of_offset (Zneg p) = result_map Z.opp (hours_of_offset (Zpos p)).
Proof.
  unfold hours_of_offset, Zone.div_3600. rewrite float_of_3600.
  cbn [mbind result_bind]. rewrite total_seconds_opp, fdiv_opp.
  apply int_of_float_opp.
Qed.

(** The 24 whole hours, by evaluation. *)
Lemma whole_hours_checked : holds_from 24 0 whole_hour_at = true.
Proof. vm_compute. reflexivity. Qed.

Lemma hours_whole (h : Z) :
  0 <= h < 24 -> hours_of_offset (h * 3600000000) = Ok h.
Proof.
  intros Hh.
  pose proof (holds_from_spec whole_hour_at 24 0 h whole_hours_checked ltac:(lia)) as H.
  unfold whole_hour_at in H.
  destruct (hours_of_offset _) as [r|]; [|discriminate].
  apply Z.eqb_eq in H. congruence.
Qed.

Lemma hours_nonneg (x : Z) :
  0 <= x < 86400 * 10 ^ 6 -> hours_of_offset x = Ok (x / 3600000000).
Proof.
  intros Hx. change (86400 * 10 ^ 6) with 86400000000 in Hx.
  destruct (Z.eq_dec (x mod 3600000000) 0) as [Hr|Hr].
  - pose proof (Z.div_mod x 3600000000 ltac:(lia)) as Hdm.
    rewrite Hr, Z.add_0_r, Z.mul_comm in Hdm.
    rewrite Hdm at 1. apply hours_whole.
    split; [apply Z.div_pos; lia|apply Z.div_lt_upper_bound; lia].
  - destruct x as [|p|p]; [exfalso; apply Hr; reflexivity| |lia].
    apply hours_positive; [change (86400 * 10 ^ 6) with 86400000000; lia|exact Hr].
Qed.

(** [int(td.total_seconds() / 3600)] is [td] in hours, truncated toward
    zero, for every [td] strictly between -24 h and 24 h. *)
Theorem hours_of_offset_truncates (td : timedelta) :
  - (86400 * 10 ^ 6) < td < 86400 * 10 ^ 6 ->
  hours_of_offset td = Ok (Z.quot td (3600 * 10 ^ 6)).
Proof.
  intros Htd. change (3600 * 10 ^ 6) with 3600000000.
  destruct td as [|p|p].
  - reflexivity.
  - rewrite hours_nonneg by lia. f_equal. symmetry. apply Z.quot_div_nonneg; lia.
  - rewrite hours_of_offset_opp, hours_nonneg by lia.
    cbn [result_map]. f_equal.
    change (Zneg p) with (- Zpos p). rewrite Z.quot_opp_l by lia.
    f_equal. symmetry. apply Z.quot_div_nonneg; lia.
Qed.

End RoundingFacts.

Section OffsetFacts.

Variable catalog : gmap str tzinfo.
Variable win_tz : gmap str str.
Variable utcoffset_now : tzinfo -> timedelta.

(** C10.  For a zone whose current offset lies strictly between -24 h
    and +24 h (every offset a [tzinfo] may report),
    [get_current_utc_offset] returns the offset in hours truncated
    toward zero ([Z.quot]): the sub-hour part is dropped for positive
    offsets and for negative ones, so a negative non-whole offset gives
    its integer part, not the floor. *)
Theorem get_current_utc_offset_truncates (a : tzarg) (z : tzinfo) (off : timedelta) :
  Zone.ensure_tz_object catalog win_tz a = Ok z ->
  utcoffset_now z = off ->
  - (86400 * 10 ^ 6) < off < 86400 * 10 ^ 6 ->
  Zone.get_current_utc_offset catalog win_tz utcoffset_now a
  = Ok (Z.quot off (3600 * 10 ^ 6))
  /\ (off < 0 -> off mod (3600 * 10 ^ 6) <> 0 ->
      Zone.get_current_utc_offset catalog win_tz utcoffset_now a
      = Ok (off / (3600 * 10 ^ 6) + 1))
  /\ (0 <= off ->
      Zone.get_current_utc_offset catalog win_tz utcoffset_now a
      = Ok (off / (3600 * 10 ^ 6))).
Proof.
  intros Hz Hoff Hrange.
  assert (E : Zone.get_current_utc_offset catalog win_tz utcoffset_now a
              = Ok (Z.quot off (3600 * 10 ^ 6))).
  { unfold Zone.get_current_utc_offset. rewrite Hz. simpl. rewrite Hoff.
    apply hours_of_offset_truncates. exact Hrange. }
  change (3600 * 10 ^ 6) with 3600000000 in *.
  split; [exact E|]. split.
  - intros Hneg Hrem. rewrite E. f_equal.
    Z.to_euclidean_division_equations. lia.
  - intros Hpos. rewrite E. f_equal.
    Z.to_euclidean_division_equations. lia.
Qed.

End OffsetFacts.

(** UTC-05:30 gives -5 and UTC+05:30 gives 5. *)
Lemma get_current_utc_offset_half_hours :
  (Zone.ensure_tz_object ∅ ∅ (TzObj (tzoffset (-19800))) = Ok (tzoffset (-19800))
   /\ - (86400 * 10 ^ 6) < -19800 * 10 ^ 6 < 86400 * 10 ^ 6
   /\ Zone.get_current_utc_offset ∅ ∅
        (fun z => match z with tzoffset s => s * 10 ^ 6 | _ => 0 end)
        (TzObj (tzoffset (-19800))) = Ok (-5))
  /\ Zone.get_current_utc_offset ∅ ∅
        (fun z => match z with tzoffset s => s * 10 ^ 6 | _ => 0 end)
        (TzObj (tzoffset 19800)) = Ok 5.
Proof.
  split.
  - split; [reflexivity|]. split; [lia|].
    exact (proj1 (get_current_utc_offset_truncates ∅ ∅
             (fun z => match z with tzoffset s => s * 10 ^ 6 | _ => 0 end)
             (TzObj (tzoffset (-19800))) (tzoffset (-19800)) (-19800 * 10 ^ 6)
             eq_refl eq_refl ltac:(lia))).
  - vm_compute. reflexivity.
Defined.

(** ** Grid rounding *)

Section GridFacts.

Import Calendar.

Lemma instant_add_zero (x : instant) :
  valid_instant x -> instant_add x 0 = Ok x.
Proof.
  intros [Hlo Hhi]. unfold instant_add. rewrite Z.add_0_r.
  destruct x as [w z]; simpl in *.
  rewrite (proj2 (Z.leb_le 0 w) Hlo), (proj2 (Z.leb_le w MAX_WALL) Hhi).
  reflexivity.
Qed.

Lemma timedelta_mod_nonzero (a b : timedelta) :
  b <> 0 -> timedelta_mod a b = Ok (a mod b).
Proof.
  intros Hb. unfold timedelta_mod.
  destruct (Z.eqb_spec b 0); [contradiction|reflexivity].
Qed.

Lemma on_grid_opp (w d : Z) : w mod d = 0 -> (0 - w) mod d = 0.
Proof.
  intros H. destruct (Z.eq_dec d 0) as [->|Hd].
  - rewrite Z.mod_0_r in *. lia.
  - apply Z.mod_divide in H; [|exact Hd].
    apply Z.mod_divide; [exact Hd|].
    rewrite Z.sub_0_l. apply Z.divide_opp_r. exact H.
Qed.


End GridFacts.


Example ceil_test_cases :
  (x ← Calendar.instant_of_datetime (mk_datetime 2018 2 15 12 38 0 0 None);
   Calendar.get_next_even_15_minutes x)
  = Calendar.instant_of_datetime (mk_datetime 2018 2 15 12 45 0 0 None)
  /\ (x ← Calendar.instant_of_datetime (mk_datetime 2018 2 15 23 48 0 0 None);
      Calendar.get_next_even_15_minutes x)
     = Calendar.instant_of_datetime (mk_datetime 2018 2 16 0 0 0 0 None)
  /\ (x ← Calendar.instant_of_datetime
            (mk_datetime 2018 2 15 12 38 0 0 (Some (pytz_zone (py "Europe/Helsinki"))));
      Calendar.get_next_even_15_minutes x)
     = Calendar.instant_of_datetime
         (mk_datetime 2018 2 15 12 45 0 0 (Some (pytz_zone (py "Europe/Helsinki")))).
Proof. repeat split; vm_compute; reflexivity. Qed.

(** ** Business days *)

Section BusinessDayFacts.

Import Calendar.

Lemma is_business_day_spec (d : date) :
  is_business_day d = true <-> (1 <= toordinal d mod 7 <= 5).
Proof.
  unfold is_business_day, isoweekday.
  pose proof (Z.mod_pos_bound (toordinal d) 7 ltac:(lia)) as Hb.
  destruct (Z.eqb_spec (toordinal d mod 7) 0) as [E|E]; simpl.
  - rewrite E. split; [discriminate|lia].
  - rewrite !orb_false_r, !orb_true_iff, !Z.eqb_eq. lia.
Qed.

Lemma is_business_day_false (d : date) :
  is_business_day d = false <-> (toordinal d mod 7 = 6 \/ toordinal d mod 7 = 0).
Proof.
  pose proof (is_business_day_spec d) as H.
  pose proof (Z.mod_pos_bound (toordinal d) 7 ltac:(lia)) as Hb.
  destruct (is_business_day d); split; intros H0; try discriminate; try lia.
Qed.

(** More fuel does not change an answer. *)
Lemma search_fuel_mono (incr : date -> result date) (pred : date -> bool)
    (fuel fuel' : nat) (d : date) (r : result date) :
  search fuel incr pred d = Some r -> (fuel <= fuel')%nat ->
  search fuel' incr pred d = Some r.
Proof.
  revert fuel' d. induction fuel as [|fuel IH]; intros fuel' d H Hle.
  - discriminate.
  - destruct fuel' as [|fuel']; [lia|]. simpl in *.
    destruct (pred d); [exact H|].
    destruct (incr d); [|exact H].
    apply IH; [exact H|lia].
Qed.

Lemma date_add_days_ok (d : date) (n : Z) :
  0 < toordinal d + n <= MAXORDINAL ->
  date_add_days d n = Ok (mk_date (toordinal d + n)).
Proof.
  intros [Hlo Hhi]. unfold date_add_days.
  rewrite (proj2 (Z.ltb_lt _ _) Hlo), (proj2 (Z.leb_le _ _) Hhi). reflexivity.
Qed.

Ltac weekday_cases o :=
  let H := fresh "Hmod" in
  pose proof (Z.mod_pos_bound o 7 ltac:(lia)) as H;
  pose proof (Z.div_mod o 7 ltac:(lia)).

Lemma next_business_day_steps (d : date) :
  valid_date d -> toordinal d < MAXORDINAL ->
  exists d',
    get_next_business_day 3 d = Some (Ok d')
    /\ valid_date d' /\ is_business_day d' = true
    /\ toordinal d < toordinal d' <= toordinal d + 3
    /\ (forall k, toordinal d < k < toordinal d' -> is_business_day (mk_date k) = false).
Proof.
  intros [Hlo Hhi] Hlt. unfold MAXORDINAL in *.
  unfold get_next_business_day, _get_next_timedelta.
  set (o := toordinal d) in *.
  assert (Hw : forall j, (o + j) mod 7 = (o mod 7 + j) mod 7).
  { intros j. rewrite Z.add_mod_idemp_l by lia. reflexivity. }
  pose proof (Z.mod_pos_bound o 7 ltac:(lia)) as Hb.
  pose proof (Z.div_mod o 7 ltac:(lia)) as Hdm.
  rewrite date_add_days_ok by (fold o; unfold MAXORDINAL; lia). fold o.
  destruct (is_business_day (mk_date (o + 1))) eqn:E1.
  { exists (mk_date (o + 1)). simpl. rewrite E1.
    repeat split; simpl; unfold MAXORDINAL; lia. }
  apply is_business_day_false in E1. simpl in E1.
  assert (Hr : o mod 7 = 5 \/ o mod 7 = 6).
  { rewrite (Hw 1) in E1.
    assert (o mod 7 = 0 \/ o mod 7 = 1 \/ o mod 7 = 2 \/ o mod 7 = 3
            \/ o mod 7 = 4 \/ o mod 7 = 5 \/ o mod 7 = 6) as Hc by lia.
    destruct Hc as [H|[H|[H|[H|[H|[H|H]]]]]]; rewrite H in E1;
      vm_compute in E1; lia. }
  destruct Hr as [Hr|Hr].
  - (* Friday: Saturday and Sunday are skipped *)
    assert (E1' : is_business_day (mk_date (o + 1)) = false).
    { apply is_business_day_false. simpl. rewrite (Hw 1), Hr. left. reflexivity. }
    assert (E2 : is_business_day (mk_date (o + 2)) = false).
    { apply is_business_day_false. simpl. rewrite (Hw 2), Hr. right. reflexivity. }
    assert (E3 : is_business_day (mk_date (o + 3)) = true).
    { apply is_business_day_spec. simpl. rewrite (Hw 3), Hr. vm_compute. split; discriminate. }
    exists (mk_date (o + 3)). simpl. rewrite E1'.
    rewrite date_add_days_ok by (simpl; unfold MAXORDINAL; lia). simpl.
    replace (o + 1 + 1) with (o + 2) by lia. rewrite E2.
    rewrite date_add_days_ok by (simpl; unfold MAXORDINAL; lia). simpl.
    replace (o + 2 + 1) with (o + 3) by lia. rewrite E3.
    repeat split; simpl; unfold MAXORDINAL; try lia.
    intros k Hk. assert (k = o + 1 \/ k = o + 2) as [->| ->] by lia; assumption.
  - (* Saturday: Sunday is skipped *)
    assert (E1' : is_business_day (mk_date (o + 1)) = false).
    { apply is_business_day_false. simpl. rewrite (Hw 1), Hr. right. reflexivity. }
    assert (E2 : is_business_day (mk_date (o + 2)) = true).
    { apply is_business_day_spec. simpl. rewrite (Hw 2), Hr. vm_compute. split; discriminate. }
    exists (mk_date (o + 2)). simpl. rewrite E1'.
    rewrite date_add_days_ok by (simpl; unfold MAXORDINAL; lia). simpl.
    replace (o + 1 + 1) with (o + 2) by lia. rewrite E2.
    repeat split; simpl; unfold MAXORDINAL; try lia.
    intros k Hk. assert (k = o + 1) as -> by lia. assumption.
Qed.

Lemma previous_business_day_steps (d : date) :
  valid_date d -> 1 < toordinal d ->
  exists d',
    get_previous_business_day 3 d = Some (Ok d')
    /\ valid_date d' /\ is_business_day d' = true
    /\ toordinal d - 3 <= toordinal d' < toordinal d
    /\ (forall k, toordinal d' < k < toordinal d -> is_business_day (mk_date k) = false).
Proof.
  intros [Hlo Hhi] Hlt. unfold MAXORDINAL in *.
  unfold get_previous_business_day, _get_next_timedelta.
  set (o := toordinal d) in *.
  assert (Hw : forall j, (o + j) mod 7 = (o mod 7 + j) mod 7).
  { intros j. rewrite Z.add_mod_idemp_l by lia. reflexivity. }
  pose proof (Z.mod_pos_bound o 7 ltac:(lia)) as Hb.
  pose proof (Z.div_mod o 7 ltac:(lia)) as Hdm.
  rewrite date_add_days_ok by (fold o; unfold MAXORDINAL; lia). fold o.
  destruct (is_business_day (mk_date (o + -1))) eqn:E1.
  { exists (mk_date (o + -1)). simpl. rewrite E1.
    repeat split; simpl; unfold MAXORDINAL; lia. }
  apply is_business_day_false in E1. simpl in E1.
  assert (Hr : o mod 7 = 1 \/ o mod 7 = 0).
  { rewrite (Hw (-1)) in E1.
    assert (o mod 7 = 0 \/ o mod 7 = 1 \/ o mod 7 = 2 \/ o mod 7 = 3
            \/ o mod 7 = 4 \/ o mod 7 = 5 \/ o mod 7 = 6) as Hc by lia.
    destruct Hc as [H|[H|[H|[H|[H|[H|H]]]]]]; rewrite H in E1;
      vm_compute in E1; lia. }
  destruct Hr as [Hr|Hr].
  - (* Monday: Sunday and Saturday are skipped *)
    assert (E1' : is_business_day (mk_date (o + -1)) = false).
    { apply is_business_day_false. simpl. rewrite (Hw (-1)), Hr. right. reflexivity. }
    assert (E2 : is_business_day (mk_date (o + -2)) = false).
    { apply is_business_day_false. simpl. rewrite (Hw (-2)), Hr. left. reflexivity. }
    assert (E3 : is_business_day (mk_date (o + -3)) = true).
    { apply is_business_day_spec. simpl. rewrite (Hw (-3)), Hr. vm_compute. split; discriminate. }
    exists (mk_date (o + -3)). simpl. rewrite E1'.
    rewrite date_add_days_ok by (simpl; unfold MAXORDINAL; lia). simpl.
    replace (o + -1 + -1) with (o + -2) by lia. rewrite E2.
    rewrite date_add_days_ok by (simpl; unfold MAXORDINAL; lia). simpl.
    replace (o + -2 + -1) with (o + -3) by lia. rewrite E3.
    repeat split; simpl; unfold MAXORDINAL; try lia.
    intros k Hk. assert (k = o + -1 \/ k = o + -2) as [->| ->] by lia; assumption.
  - (* Sunday: Saturday is skipped *)
    assert (E1' : is_business_day (mk_date (o + -1)) = false).
    { apply is_business_day_false. simpl. rewrite (Hw (-1)), Hr. left. reflexivity. }
    assert (E2 : is_business_day (mk_date (o + -2)) = true).
    { apply is_business_day_spec. simpl. rewrite (Hw (-2)), Hr. vm_compute. split; discriminate. }
    exists (mk_date (o + -2)). simpl. rewrite E1'.
    rewrite date_add_days_ok by (simpl; unfold MAXORDINAL; lia). simpl.
    replace (o + -1 + -1) with (o + -2) by lia. rewrite E2.
    repeat split; simpl; unfold MAXORDINAL; try lia.
    intros k Hk. assert (k = o + -1) as -> by lia. assumption.
Qed.

Lemma get_next_timedelta_fuel_mono (incr : date -> result date)
    (pred : date -> bool) (fuel fuel' : nat) (d : date) (r : result date) :
  _get_next_timedelta fuel d incr pred = Some r -> (fuel <= fuel')%nat ->
  _get_next_timedelta fuel' d incr pred = Some r.
Proof.
  unfold _get_next_timedelta. destruct (incr d); [|tauto].
  apply search_fuel_mono.
Qed.

(** C7 (as amended).  Three tests of the loop condition are enough.
    For every date but the last one, [get_next_business_day] returns a
    Monday-to-Friday date, later than the start by one to three days,
    and every day passed over is a Saturday or a Sunday; for every date
    but the first one, [get_previous_business_day] does the same
    backwards.  The start itself is never returned. *)
Theorem business_day_stepping (fuel : nat) (d : date) :
  (3 <= fuel)%nat -> valid_date d ->
  (toordinal d < MAXORDINAL ->
   exists d',
     get_next_business_day fuel d = Some (Ok d')
     /\ valid_date d' /\ is_business_day d' = true
     /\ toordinal d < toordinal d' <= toordinal d + 3
     /\ (forall k, toordinal d < k < toordinal d' ->
                   is_business_day (mk_date k) = false))
  /\ (1 < toordinal d ->
      exists d',
        get_previous_business_day fuel d = Some (Ok d')
        /\ valid_date d' /\ is_business_day d' = true
        /\ toordinal d - 3 <= toordinal d' < toordinal d
        /\ (forall k, toordinal d' < k < toordinal d ->
                      is_business_day (mk_date k) = false)).
Proof.
  intros Hfuel Hd. split; intros Hb.
  - destruct (next_business_day_steps d Hd Hb) as (d' & H & Hrest).
    exists d'. split; [|exact Hrest].
    apply (get_next_timedelta_fuel_mono _ _ 3); assumption.
  - destruct (previous_business_day_steps d Hd Hb) as (d' & H & Hrest).
    exists d'. split; [|exact Hrest].
    apply (get_next_timedelta_fuel_mono _ _ 3); assumption.
Qed.

End BusinessDayFacts.

(** C7 (as stated) fails at the ends of the date range: after
    9999-12-31 and before 0001-01-01 there is no date to step to. *)
Lemma business_day_out_of_range :
  Calendar.date_of_ymd 9999 12 31 = Ok Calendar.date_max
  /\ Calendar.get_next_business_day 3 Calendar.date_max = Some (Raise OverflowError)
  /\ Calendar.date_of_ymd 1 1 1 = Ok Calendar.date_min
  /\ Calendar.get_previous_business_day 3 Calendar.date_min = Some (Raise OverflowError).
Proof. repeat split; vm_compute; reflexivity. Qed.

(** 2018-02-16 is a Friday: the next business day is Monday 2018-02-19
    and the previous one Thursday 2018-02-15. *)
Lemma friday_business_days :
  (3 <= 3)%nat /\ Calendar.valid_date (Calendar.mk_date 736741)
  /\ Calendar.date_of_ymd 2018 2 16 = Ok (Calendar.mk_date 736741)
  /\ (exists d', Calendar.get_next_business_day 3 (Calendar.mk_date 736741) = Some (Ok d')
                 /\ Calendar.toordinal d' <= 736744)
  /\ Calendar.get_next_business_day 3 (Calendar.mk_date 736741)
     = Some (Calendar.date_of_ymd 2018 2 19)
  /\ Calendar.get_previous_business_day 3 (Calendar.mk_date 736741)
     = Some (Calendar.date_of_ymd 2018 2 15).
Proof.
  assert (Hv : Calendar.valid_date (Calendar.mk_date 736741)).
  { unfold Calendar.valid_date, Calendar.MAXORDINAL. simpl. lia. }
  split; [lia|]. split; [exact Hv|]. split; [vm_compute; reflexivity|].
  split.
  - destruct (business_day_stepping 3 (Calendar.mk_date 736741) ltac:(lia) Hv)
      as [Hn _].
    destruct Hn as (d' & H1 & _ & _ & H2 & _).
    { unfold Calendar.MAXORDINAL. simpl. lia. }
    exists d'. split; [exact H1|]. simpl in H2. lia.
  - split; vm_compute; reflexivity.
Defined.

(** ** Characters and [int] *)

Section TextFacts.

Import PyStr.

Lemma eqc_eq (a b : ascii) : eqc a b = true <-> a = b.
Proof. apply Ascii.eqb_eq. Qed.

Lemma eqc_refl (a : ascii) : eqc a a = true.
Proof. apply Ascii.eqb_refl. Qed.

Lemma digit_neq (c x : ascii) :
  is_digit c = true -> is_digit x = false -> eqc c x = false /\ eqc x c = false.
Proof.
  intros Hc Hx. split.
  - destruct (eqc c x) eqn:E; [|reflexivity].
    apply eqc_eq in E. subst. congruence.
  - destruct (eqc x c) eqn:E; [|reflexivity].
    apply eqc_eq in E. subst. congruence.
Qed.

Lemma digit_not_space (c : ascii) : is_digit c = true -> is_space c = false.
Proof.
  unfold is_digit, is_space. intros H.
  apply andb_true_iff in H as [H1 H2].
  apply Z.leb_le in H1. apply Z.leb_le in H2.
  repeat match goal with
         | |- context [?a <=? ?b] => destruct (Z.leb_spec a b)
         | |- context [?a =? ?b] => destruct (Z.eqb_spec a b)
         end; simpl; try reflexivity; lia.
Qed.

Lemma digit_is_word (c : ascii) : is_digit c = true -> is_word c = true.
Proof.
  unfold is_digit, is_word. intros H. rewrite H. reflexivity.
Qed.

Lemma lstrip_digit (c : ascii) (s : str) :
  is_digit c = true -> lstrip (c :: s) = c :: s.
Proof. intros H. simpl. rewrite (digit_not_space c H). reflexivity. Qed.

Lemma strip_digits (s : str) :
  forallb is_digit s = true -> strip s = s.
Proof.
  intros H. unfold strip.
  destruct s as [|c s]; [reflexivity|].
  simpl in H. apply andb_true_iff in H as [Hc Hs].
  rewrite (lstrip_digit c s Hc).
  assert (Hrev : forallb is_digit (rev (c :: s)) = true).
  { rewrite forallb_forall. intros x Hx. apply in_rev in Hx.
    destruct Hx as [<-|Hx]; [exact Hc|].
    rewrite forallb_forall in Hs. apply Hs. exact Hx. }
  destruct (rev (c :: s)) as [|d t] eqn:E.
  - apply (f_equal (@length ascii)) in E. rewrite length_rev in E. discriminate.
  - simpl in Hrev. apply andb_true_iff in Hrev as [Hd _].
    rewrite (lstrip_digit d t Hd). rewrite <- E. apply rev_involutive.
Qed.

Lemma int_digits_value (s : str) (acc : Z) :
  forallb is_digit s = true ->
  int_digits acc false s = Some (PyNum.digits_value acc s).
Proof.
  revert acc. induction s as [|c s IH]; intros acc H; simpl in *.
  - reflexivity.
  - apply andb_true_iff in H as [Hc Hs]. rewrite Hc. apply IH. exact Hs.
Qed.

(** [int] on a non-empty run of digits is its decimal value. *)
Lemma int_all_digits (s : str) :
  PyNum.all_digits s = true -> int s = Ok (PyNum.digits_value 0 s).
Proof.
  intros H. destruct s as [|c s]; [discriminate|].
  unfold PyNum.all_digits in H. unfold int.
  rewrite (strip_digits _ H).
  pose proof H as H'. simpl in H'. apply andb_true_iff in H' as [Hc Hs].
  destruct (digit_neq c "-" Hc eq_refl) as [-> _].
  destruct (digit_neq c "+" Hc eq_refl) as [-> _].
  unfold int_unsigned. rewrite Hc.
  rewrite (int_digits_value _ 0 H). reflexivity.
Qed.

Lemma leading_digits_all (s : str) : forallb is_digit (leading_digits s) = true.
Proof.
  induction s as [|c s IH]; simpl; [reflexivity|].
  destruct (is_digit c) eqn:E; simpl; [|reflexivity].
  rewrite E. exact IH.
Qed.

Lemma leading_digits_app (ds rest : str) :
  forallb is_digit ds = true ->
  match rest with c :: _ => is_digit c = false | [] => True end ->
  leading_digits (ds ++ rest) = ds.
Proof.
  intros Hds Hrest. induction ds as [|d ds IH]; simpl in *.
  - destruct rest as [|c r]; [reflexivity|]. simpl. rewrite Hrest. reflexivity.
  - apply andb_true_iff in Hds as [Hd Hds]. rewrite Hd. f_equal. apply IH. exact Hds.
Qed.

Lemma digits_value_bounds (s : str) (acc : Z) :
  forallb is_digit s = true -> 0 <= acc ->
  acc * 10 ^ len s <= PyNum.digits_value acc s < (acc + 1) * 10 ^ len s.
Proof.
  revert acc. induction s as [|c s IH]; intros acc H Ha.
  - simpl. unfold len. simpl. lia.
  - simpl in H. apply andb_true_iff in H as [Hc Hs].
    assert (Hv : 0 <= digit_val c <= 9).
    { unfold is_digit in Hc. apply andb_true_iff in Hc as [H1 H2].
      apply Z.leb_le in H1. apply Z.leb_le in H2. unfold digit_val. lia. }
    simpl PyNum.digits_value.
    specialize (IH (10 * acc + digit_val c) Hs ltac:(lia)).
    unfold len in *. simpl length. rewrite Nat2Z.inj_succ, Z.pow_succ_r by lia.
    nia.
Qed.

End TextFacts.

(** ** Texts with a known prefix or suffix *)

Section TextAppend.

Import PyStr.

Lemma getitem_app (p s : str) (c : ascii) (i : Z) :
  len p = i -> getitem (p ++ c :: s) i = Ok c.
Proof.
  intros <-. unfold getitem, len.
  destruct (Z.ltb_spec (Z.of_nat (length p)) 0) as [H|_]; [lia|].
  destruct (Z.ltb_spec (Z.of_nat (length p)) 0) as [H|_]; [lia|].
  rewrite Nat2Z.id.
  replace (nth_error (p ++ c :: s) (length p)) with (Some c); [reflexivity|].
  symmetry. rewrite nth_error_app2 by lia. rewrite Nat.sub_diag. reflexivity.
Qed.

Lemma getitem_short (s : str) (i : Z) :
  len s <= i -> getitem s i = Raise IndexError.
Proof.
  intros H. unfold getitem, len in *.
  destruct (Z.ltb_spec i 0) as [Hi|_]; [lia|].
  destruct (Z.ltb_spec i 0) as [Hi|_]; [lia|].
  destruct (nth_error s (Z.to_nat i)) eqn:E; [|reflexivity].
  assert (nth_error s (Z.to_nat i) <> None) as Hn by congruence.
  apply nth_error_Some in Hn. lia.
Qed.

Lemma getitem_ok_len (s : str) (i : Z) (c : ascii) :
  0 <= i -> getitem s i = Ok c -> i < len s.
Proof.
  intros Hi H. destruct (Z.lt_ge_cases i (len s)) as [|Hge]; [assumption|].
  rewrite (getitem_short s i Hge) in H. discriminate.
Qed.

(** [s[lo:hi]] when both bounds fall inside a known prefix. *)
Lemma sl_app (p q s : str) (lo hi : Z) :
  len p = lo -> len q = hi - lo -> Parse.sl (p ++ q ++ s) lo hi = q.
Proof.
  intros Hp Hq. unfold Parse.sl, slice, clamp, len in *.
  rewrite !length_app.
  destruct (Z.ltb_spec lo 0) as [H|_]; [lia|].
  destruct (Z.ltb_spec hi 0) as [H|_]; [lia|].
  replace (Z.to_nat (Z.min (Z.max 0 lo) (Z.of_nat (length p + (length q + length s)))))
    with (length p) by lia.
  replace (Z.to_nat (Z.min (Z.max 0 hi) (Z.of_nat (length p + (length q + length s)))))
    with (length p + length q)%nat by lia.
  rewrite skipn_app, skipn_all, Nat.sub_diag. cbn [skipn app].
  replace (length p + length q - length p)%nat with (length q) by lia.
  change (drop 0 (q ++ s)) with (q ++ s). rewrite firstn_app, firstn_all, Nat.sub_diag. cbn [firstn]. apply app_nil_r.
Qed.

Lemma slice_head (q s : str) (hi : Z) :
  len q = hi -> slice (q ++ s) None (Some hi) = q.
Proof.
  intros Hq. unfold slice, clamp, len in *. rewrite length_app.
  destruct (Z.ltb_spec hi 0) as [H|_]; [lia|].
  replace (Z.to_nat (Z.min (Z.max 0 hi) (Z.of_nat (length q + length s))))
    with (length q) by lia.
  rewrite Nat.sub_0_r. change (drop 0 (q ++ s)) with (q ++ s).
  rewrite firstn_app, firstn_all, Nat.sub_diag. cbn [firstn]. apply app_nil_r.
Qed.

Lemma getitem_app_l (p s : str) (i : Z) :
  0 <= i < len p -> getitem (p ++ s) i = getitem p i.
Proof.
  intros Hi. unfold getitem, len in *.
  destruct (Z.ltb_spec i 0) as [H|_]; [exfalso; lia|].
  destruct (Z.ltb_spec i 0) as [H|_]; [exfalso; lia|].
  rewrite nth_error_app1 by lia. reflexivity.
Qed.

Lemma getitem_neg_app (p z : str) (i : Z) :
  - len z <= i < 0 -> getitem (p ++ z) i = getitem z i.
Proof.
  intros Hi. unfold getitem, len in *. rewrite length_app.
  destruct (Z.ltb_spec i 0) as [_|H]; [|exfalso; lia].
  destruct (Z.ltb_spec (Z.of_nat (length p + length z) + i) 0) as [H|_]; [exfalso; lia|].
  destruct (Z.ltb_spec (Z.of_nat (length z) + i) 0) as [H|_]; [exfalso; lia|].
  rewrite nth_error_app2 by lia.
  replace (Z.to_nat (Z.of_nat (length p + length z) + i) - length p)%nat
    with (Z.to_nat (Z.of_nat (length z) + i)) by lia.
  reflexivity.
Qed.

Lemma slice_app_l (p s : str) (lo : option Z) (hi : Z) :
  match lo with Some l => 0 <= l <= hi | None => True end ->
  0 <= hi <= len p ->
  slice (p ++ s) lo (Some hi) = slice p lo (Some hi).
Proof.
  intros Hlo Hhi. unfold slice, clamp, len in *. rewrite length_app.
  destruct (Z.ltb_spec hi 0) as [H|_]; [exfalso; lia|].
  replace (Z.to_nat (Z.min (Z.max 0 hi) (Z.of_nat (length p + length s))))
    with (Z.to_nat hi) by lia.
  replace (Z.to_nat (Z.min (Z.max 0 hi) (Z.of_nat (length p))))
    with (Z.to_nat hi) by lia.
  destruct lo as [l|].
  - destruct (Z.ltb_spec l 0) as [H|_]; [exfalso; lia|].
    replace (Z.to_nat (Z.min (Z.max 0 l) (Z.of_nat (length p + length s))))
      with (Z.to_nat l) by lia.
    replace (Z.to_nat (Z.min (Z.max 0 l) (Z.of_nat (length p))))
      with (Z.to_nat l) by lia.
    rewrite skipn_app, firstn_app, length_skipn.
    replace (Z.to_nat hi - Z.to_nat l - (length p - Z.to_nat l))%nat with 0%nat by lia.
    cbn [firstn]. apply app_nil_r.
  - rewrite !Nat.sub_0_r. change (drop 0 (p ++ s)) with (p ++ s).
    change (drop 0 p) with p. rewrite firstn_app.
    replace (Z.to_nat hi - length p)%nat with 0%nat by lia.
    cbn [firstn]. apply app_nil_r.
Qed.

(** A slice with negative bounds that reach no further back than the
    suffix [z]. *)
Lemma slice_neg_app (p z : str) (lo : Z) (hi : option Z) :
  - len z <= lo < 0 ->
  match hi with Some h => lo <= h < 0 | None => True end ->
  slice (p ++ z) (Some lo) hi = slice z (Some lo) hi.
Proof.
  intros Ha Hhi. unfold slice, clamp, len in *. rewrite length_app.
  destruct (Z.ltb_spec lo 0) as [_|H]; [|exfalso; lia].
  replace (Z.to_nat (Z.min (Z.max 0 (Z.of_nat (length p + length z) + lo))
                       (Z.of_nat (length p + length z))))
    with (length p + Z.to_nat (Z.of_nat (length z) + lo))%nat by lia.
  replace (Z.to_nat (Z.min (Z.max 0 (Z.of_nat (length z) + lo)) (Z.of_nat (length z))))
    with (Z.to_nat (Z.of_nat (length z) + lo)) by lia.
  rewrite skipn_app, skipn_all2 by lia. cbn [app].
  replace (length p + Z.to_nat (Z.of_nat (length z) + lo) - length p)%nat
    with (Z.to_nat (Z.of_nat (length z) + lo)) by lia.
  destruct hi as [h|].
  - destruct (Z.ltb_spec h 0) as [_|H]; [|exfalso; lia].
    f_equal. lia.
  - f_equal. lia.
Qed.

(** [s[len(p):]] *)
Lemma slice_from (p t : str) (lo : Z) :
  len p = lo -> slice (p ++ t) (Some lo) None = t.
Proof.
  intros Hp. unfold slice, clamp, len in *. rewrite length_app.
  destruct (Z.ltb_spec lo 0) as [H|_]; [exfalso; lia|].
  replace (Z.to_nat (Z.min (Z.max 0 lo) (Z.of_nat (length p + length t))))
    with (length p) by lia.
  rewrite skipn_app, skipn_all, Nat.sub_diag. cbn [app].
  change (drop 0 t) with t.
  replace (length p + length t - length p)%nat with (length t) by lia.
  apply firstn_all.
Qed.

End TextAppend.

(** ** The fast path *)

Ltac bind_inv H :=
  repeat match type of H with
         | mbind _ ?m = Ok _ =>
             let E := fresh "E" in
             destruct m eqn:E; [cbn [mbind result_bind] in H|discriminate H]
         | (if ?b then _ else _) = Ok _ =>
             let E := fresh "E" in
             destruct b eqn:E; [|try discriminate H]
         end.

Section FastPathFacts.

Import PyStr Parse.

Lemma getitem_raises (s : str) (i : Z) (e : exn) :
  getitem s i = Raise e -> e = IndexError.
Proof.
  unfold getitem. destruct (_ <? 0); [congruence|].
  destruct (nth_error _ _); congruence.
Qed.

Lemma int_raises (s : str) (e : exn) : int s = Raise e -> e = ValueError.
Proof.
  unfold int.
  match goal with |- match ?r with _ => _ end = _ -> _ => destruct r end;
    congruence.
Qed.

Lemma parse_seconds_raises (s : str) (e : exn) :
  parse_seconds s = Raise e -> e = ValueError.
Proof.
  unfold parse_seconds. destruct (getitem s 16) as [c|e'] eqn:E.
  - destruct (eqc c ":"); [apply int_raises|discriminate].
  - apply getitem_raises in E. subst e'. discriminate.
Qed.

(** What a successful run of [_fromisoformat] has computed. *)
Lemma fromisoformat_inv (s : str) (dt : datetime) :
  _fromisoformat s = Ok dt ->
  has_layout s = Ok true
  /\ parse_seconds s = Ok (second dt)
  /\ parse_fragment s = Ok (microsecond dt)
  /\ parse_tzinfo s = Ok (tz dt)
  /\ exists y m d,
       int (slice s None (Some 4)) = Ok y /\ int (sl s 5 7) = Ok m
       /\ int (sl s 8 10) = Ok d
       /\ year dt = Z.max 1 y /\ month dt = Z.max 1 m /\ day dt = Z.max 1 d
       /\ int (sl s 11 13) = Ok (hour dt) /\ int (sl s 14 16) = Ok (minute dt).
Proof.
  unfold _fromisoformat. intros H.
  destruct (has_layout s) as [[|]|] eqn:El; cbn [mbind result_bind] in H;
    try discriminate H.
  bind_inv H. unfold DT.new in H.
  destruct (DT.valid_fields _ _ _ _ _ _ _); [|discriminate H].
  injection H as <-. simpl.
  repeat split; try reflexivity. exists a2, a3, a4. repeat split; reflexivity.
Qed.

Section WithFallback.

Variable catalog : gmap str tzinfo.
Variable win_tz : gmap str str.
Variable pytz_localize : tzinfo -> datetime -> result datetime.
Variable dateutil_parse : str -> result datetime.

Abbreviation datetime_parse := (Parse.datetime_parse catalog win_tz pytz_localize dateutil_parse).

(** When position 19 holds a full stop, the digits that follow it
    decide what [parse_fragment] returns: three digits are milliseconds,
    six digits are microseconds, and with any other number of digits
    [_fromisoformat] raises [ValueError], after which [datetime_parse]
    returns what the fallback parser makes of the whole text. *)
Lemma fragment_by_digits (s : str) (default_tz : option tzarg) :
  let fff := leading_digits (slice s (Some 20) None) in
  has_layout s = Ok true ->
  getitem s 19 = Ok "."%char ->
  (len fff = 3 ->
   parse_fragment s = Ok (PyNum.digits_value 0 fff * 1000)
   /\ 0 <= PyNum.digits_value 0 fff * 1000 < 10 ^ 6
   /\ forall dt, _fromisoformat s = Ok dt ->
                 microsecond dt = PyNum.digits_value 0 fff * 1000)
  /\ (len fff = 6 ->
      parse_fragment s = Ok (PyNum.digits_value 0 fff)
      /\ 0 <= PyNum.digits_value 0 fff < 10 ^ 6
      /\ forall dt, _fromisoformat s = Ok dt ->
                    microsecond dt = PyNum.digits_value 0 fff)
  /\ (len fff <> 3 -> len fff <> 6 ->
      parse_fragment s = Raise ValueError
      /\ _fromisoformat s = Raise ValueError
      /\ datetime_parse s default_tz
         = (dt ← dateutil_parse s;
            match truthy default_tz with
            | Some z => ensure_tz_info catalog win_tz pytz_localize dt z
            | None => Ok dt
            end)).
Proof.
  intros fff Hlay Hdot.
  assert (Hall : forallb is_digit fff = true) by apply leading_digits_all.
  assert (Hint : fff <> [] -> int fff = Ok (PyNum.digits_value 0 fff)).
  { intros Hne. apply int_all_digits. unfold PyNum.all_digits.
    destruct fff; [contradiction|exact Hall]. }
  pose proof (digits_value_bounds fff 0 Hall ltac:(lia)) as Hb.
  split; [|split].
  - intros H3.
    assert (Hf : parse_fragment s = Ok (PyNum.digits_value 0 fff * 1000)).
    { unfold parse_fragment. rewrite Hdot. simpl eqc. cbv iota. fold fff.
      rewrite H3. simpl. rewrite Hint; [reflexivity|].
      intros ->. discriminate H3. }
    split; [exact Hf|]. split.
    + rewrite H3 in Hb. lia.
    + intros dt Hdt. apply fromisoformat_inv in Hdt as (_ & _ & Hu & _).
      congruence.
  - intros H6.
    assert (Hf : parse_fragment s = Ok (PyNum.digits_value 0 fff)).
    { unfold parse_fragment. rewrite Hdot. simpl eqc. cbv iota. fold fff.
      rewrite H6. simpl. rewrite Hint; [reflexivity|].
      intros ->. discriminate H6. }
    split; [exact Hf|]. split.
    + rewrite H6 in Hb. lia.
    + intros dt Hdt. apply fromisoformat_inv in Hdt as (_ & _ & Hu & _).
      congruence.
  - intros H3 H6.
    assert (Hf : parse_fragment s = Raise ValueError).
    { unfold parse_fragment. rewrite Hdot. simpl eqc. cbv iota. fold fff.
      destruct (Z.eqb_spec (len fff) 3); [contradiction|].
      destruct (Z.eqb_spec (len fff) 6); [contradiction|]. reflexivity. }
    assert (Hiso : _fromisoformat s = Raise ValueError).
    { unfold _fromisoformat. rewrite Hlay. cbn [mbind result_bind].
      destruct (parse_seconds s) as [n|e] eqn:Es; cbn [mbind result_bind].
      - rewrite Hf. reflexivity.
      - apply parse_seconds_raises in Es. subst e. reflexivity. }
    split; [exact Hf|]. split; [exact Hiso|].
    unfold Parse.datetime_parse. rewrite Hiso. reflexivity.
Qed.

End WithFallback.
End FastPathFacts.

Example fraction_cases :
  Parse._fromisoformat (py "2017-11-13T12:15:01.000213+0600")
  = Ok (mk_datetime 2017 11 13 12 15 1 213 (Some (tzoffset 21600)))
  /\ Parse._fromisoformat (py "2017-11-13T12:15:01.12Z") = Raise ValueError
  /\ Parse._fromisoformat (py "2017-11-13T12:15:01.1234Z") = Raise ValueError
  /\ Parse._fromisoformat (py "2017-11-13T12:15:01.1234567Z") = Raise ValueError
  /\ Parse._fromisoformat (py "2017-11-13T12:15:01.Z") = Raise ValueError.
Proof. repeat split; vm_compute; reflexivity. Qed.

Section ClampFacts.

Import PyStr Parse.

Variable catalog : gmap str tzinfo.
Variable win_tz : gmap str str.
Variable pytz_localize : tzinfo -> datetime -> result datetime.
Variable dateutil_parse : str -> result datetime.

(** The year, month and day that [_fromisoformat] hands to the
    [datetime] constructor are [max(1, _)] of the numbers it has read. *)
Lemma clamp_by_reads (s : str) (y m d hh mm ss us : Z)
    (tzv : option tzinfo) :
  has_layout s = Ok true ->
  parse_seconds s = Ok ss ->
  parse_fragment s = Ok us ->
  parse_tzinfo s = Ok tzv ->
  int (slice s None (Some 4)) = Ok y ->
  int (sl s 5 7) = Ok m ->
  int (sl s 8 10) = Ok d ->
  int (sl s 11 13) = Ok hh ->
  int (sl s 14 16) = Ok mm ->
  _fromisoformat s = DT.new (Z.max 1 y) (Z.max 1 m) (Z.max 1 d) hh mm ss us tzv
  /\ (y = 0 -> Z.max 1 y = 1) /\ (m = 0 -> Z.max 1 m = 1) /\ (d = 0 -> Z.max 1 d = 1)
  /\ (DT.valid_fields (Z.max 1 y) (Z.max 1 m) (Z.max 1 d) hh mm ss us = true ->
      _fromisoformat s
      = Ok (mk_datetime (Z.max 1 y) (Z.max 1 m) (Z.max 1 d) hh mm ss us tzv)
      /\ Parse.datetime_parse catalog win_tz pytz_localize dateutil_parse s None
         = Ok (mk_datetime (Z.max 1 y) (Z.max 1 m) (Z.max 1 d) hh mm ss us tzv)).
Proof.
  intros Hlay Hs Hu Ht Hy Hm Hd Hhh Hmm.
  assert (E : _fromisoformat s
              = DT.new (Z.max 1 y) (Z.max 1 m) (Z.max 1 d) hh mm ss us tzv).
  { unfold _fromisoformat.
    rewrite Hlay, Hs, Hu, Ht, Hy, Hm, Hd, Hhh, Hmm. reflexivity. }
  split; [exact E|].
  split; [intros ->; reflexivity|].
  split; [intros ->; reflexivity|].
  split; [intros ->; reflexivity|].
  intros Hv. unfold DT.new in E. rewrite Hv in E.
  split; [exact E|].
  unfold Parse.datetime_parse. rewrite E. reflexivity.
Qed.

End ClampFacts.

(** ** Zone suffixes *)

Section SuffixFacts.

Import PyStr Parse.

Lemma digit_not_sign (c : ascii) : is_digit c = true -> is_sign c = false.
Proof.
  intros H. unfold is_sign.
  destruct (digit_neq c "+" H eq_refl) as [-> _].
  destruct (digit_neq c "-" H eq_refl) as [-> _]. reflexivity.
Qed.

Lemma sign_cases (c : ascii) : is_sign c = true -> c = "+"%char \/ c = "-"%char.
Proof.
  unfold is_sign. intros H. apply orb_true_iff in H as [H|H];
    apply eqc_eq in H; auto.
Qed.

Lemma base_shapes (b : str) :
  timestamp_base b = true ->
  (length b = 16 \/ length b = 19 \/ length b = 23 \/ length b = 26)%nat
  /\ follows (py "dddd-dd-ddTdd:dd:dd.dddddd") b = true.
Proof.
  unfold timestamp_base. intros H. apply andb_true_iff in H as [Hl Hf].
  split; [|exact Hf]. simpl in Hl.
  repeat (apply orb_true_iff in Hl as [Hl|Hl]; [apply Nat.eqb_eq in Hl; lia|]).
  discriminate.
Qed.

(** A text of known length as the list of its characters. *)
Ltac explode b Hlen :=
  repeat (destruct b as [|? b]; [discriminate Hlen|]);
  destruct b; [clear Hlen|discriminate Hlen].

(** What [follows] says of each character. *)
Ltac read_pattern Hf :=
  cbn [follows py list_ascii_of_string] in Hf;
  repeat match type of Hf with
         | context [eqc ?p "d"] =>
             let r := eval vm_compute in (eqc p "d") in
             change (eqc p "d") with r in Hf; cbv iota in Hf
         end;
  repeat (apply andb_true_iff in Hf as [? Hf]);
  repeat match goal with
         | H : eqc _ _ = true |- _ => apply eqc_eq in H; subst
         end.

(** Indexing and slicing of a text whose length is known. *)
Ltac eval_text :=
  repeat match goal with
         | |- context [getitem ?l ?i] =>
             let r := eval vm_compute in (getitem l i) in
             change (getitem l i) with r
         | |- context [slice ?l ?a ?b] =>
             let r := eval vm_compute in (slice l a b) in
             change (slice l a b) with r
         | |- context [sl ?l ?a ?b] =>
             let r := eval vm_compute in (sl l a b) in
             change (sl l a b) with r
         end.

Ltac digit_facts :=
  repeat match goal with
         | H : is_digit ?c = true |- context [is_digit ?c] => rewrite H
         | H : is_digit ?c = true |- context [is_sign ?c] =>
             rewrite (digit_not_sign c H)
         | H : is_digit ?c = true
           |- context [eqc ?c (Ascii ?b0 ?b1 ?b2 ?b3 ?b4 ?b5 ?b6 ?b7)] =>
             rewrite (proj1 (digit_neq c (Ascii b0 b1 b2 b3 b4 b5 b6 b7) H eq_refl))
         | |- context [int ?l] =>
             rewrite (int_all_digits l)
               by (unfold PyNum.all_digits; cbn [forallb];
                   repeat match goal with
                          | H : is_digit _ = true |- _ => rewrite H
                          end; reflexivity)
         end.

Ltac closed_chars :=
  repeat match goal with
         | |- context [is_digit (Ascii ?b0 ?b1 ?b2 ?b3 ?b4 ?b5 ?b6 ?b7)] =>
             let r := eval vm_compute in (is_digit (Ascii b0 b1 b2 b3 b4 b5 b6 b7)) in
             change (is_digit (Ascii b0 b1 b2 b3 b4 b5 b6 b7)) with r
         | |- context [is_sign (Ascii ?b0 ?b1 ?b2 ?b3 ?b4 ?b5 ?b6 ?b7)] =>
             let r := eval vm_compute in (is_sign (Ascii b0 b1 b2 b3 b4 b5 b6 b7)) in
             change (is_sign (Ascii b0 b1 b2 b3 b4 b5 b6 b7)) with r
         | |- context [eqc (Ascii ?b0 ?b1 ?b2 ?b3 ?b4 ?b5 ?b6 ?b7)
                           (Ascii ?c0 ?c1 ?c2 ?c3 ?c4 ?c5 ?c6 ?c7)] =>
             let r := eval vm_compute in
                        (eqc (Ascii b0 b1 b2 b3 b4 b5 b6 b7)
                             (Ascii c0 c1 c2 c3 c4 c5 c6 c7)) in
             change (eqc (Ascii b0 b1 b2 b3 b4 b5 b6 b7)
                         (Ascii c0 c1 c2 c3 c4 c5 c6 c7)) with r
         | |- context [len (?x :: ?l)] =>
             let r := eval vm_compute in (len (x :: l)) in
             change (len (x :: l)) with r
         | |- context [len []] => change (len []) with 0
         end.

(** The digits at the head of a text whose characters are known to be
    digits or are given. *)
Ltac eval_leading :=
  repeat match goal with
         | |- context [leading_digits ?l] =>
             let v := fresh "v" in
             let E := fresh "E" in
             remember (leading_digits l) as v eqn:E;
             cbn [leading_digits] in E;
             repeat match type of E with
                    | context [is_digit (Ascii ?b0 ?b1 ?b2 ?b3 ?b4 ?b5 ?b6 ?b7)] =>
                        let r := eval vm_compute in
                                   (is_digit (Ascii b0 b1 b2 b3 b4 b5 b6 b7)) in
                        change (is_digit (Ascii b0 b1 b2 b3 b4 b5 b6 b7)) with r in E;
                        cbv iota in E
                    | context [is_digit ?c] =>
                        match goal with
                        | H : is_digit c = true |- _ => rewrite H in E
                        end
                    end;
             subst v
         end.

Ltac step :=
  eval_text; cbn [mbind result_bind]; eval_leading;
  closed_chars; digit_facts;
  cbn [mbind result_bind andb orb Z.eqb Pos.eqb]; cbv iota.

Ltac run_fast_path :=
  simpl app;
  unfold has_layout, parse_seconds, parse_fragment, parse_tzinfo, offset_seconds;
  repeat step.

Ltac by_shape b Hb Hsg :=
  let Hlen := fresh "Hlen" in
  let Hf := fresh "Hf" in
  apply base_shapes in Hb as [Hlen Hf];
  try apply sign_cases in Hsg;
  destruct Hlen as [Hlen|[Hlen|[Hlen|Hlen]]];
  explode b Hlen; read_pattern Hf.

(** [_fromisoformat] reads a text through these ten observations only. *)
Lemma fromisoformat_ext (s t : str) :
  has_layout s = has_layout t ->
  parse_seconds s = parse_seconds t ->
  parse_fragment s = parse_fragment t ->
  parse_tzinfo s = parse_tzinfo t ->
  slice s None (Some 4) = slice t None (Some 4) ->
  sl s 5 7 = sl t 5 7 -> sl s 8 10 = sl t 8 10 ->
  sl s 11 13 = sl t 11 13 -> sl s 14 16 = sl t 14 16 ->
  _fromisoformat s = _fromisoformat t.
Proof.
  intros H1 H2 H3 H4 H5 H6 H7 H8 H9. unfold _fromisoformat.
  rewrite H1, H2, H3, H4, H5, H6, H7, H8, H9. reflexivity.
Qed.

Lemma suffix_styles_agree (b : str) (sg h1 h2 m1 m2 : ascii) :
  timestamp_base b = true -> is_sign sg = true ->
  is_digit h1 = true -> is_digit h2 = true ->
  is_digit m1 = true -> is_digit m2 = true ->
  _fromisoformat (b ++ [sg; h1; h2; ":"%char; m1; m2])
  = _fromisoformat (b ++ [sg; h1; h2; m1; m2]).
Proof.
  intros Hb Hsg Hh1 Hh2 Hm1 Hm2.
  by_shape b Hb Hsg; destruct Hsg; subst sg;
    apply fromisoformat_ext; run_fast_path; reflexivity.
Qed.

Lemma suffix_long_offset (b : str) (sg h1 h2 m1 m2 : ascii) :
  timestamp_base b = true -> is_sign sg = true ->
  is_digit h1 = true -> is_digit h2 = true ->
  is_digit m1 = true -> is_digit m2 = true ->
  parse_tzinfo (b ++ [sg; h1; h2; ":"%char; m1; m2])
  = Ok (Some (tzoffset (sign_value sg
                        * (two_digits h1 h2 * 3600 + two_digits m1 m2 * 60)))).
Proof.
  intros Hb Hsg Hh1 Hh2 Hm1 Hm2.
  by_shape b Hb Hsg; destruct Hsg; subst sg; run_fast_path;
    unfold two_digits; simpl; repeat f_equal; lia.
Qed.

Lemma suffix_short_offset (b : str) (sg h1 h2 m1 m2 : ascii) :
  timestamp_base b = true -> is_sign sg = true ->
  is_digit h1 = true -> is_digit h2 = true ->
  is_digit m1 = true -> is_digit m2 = true ->
  parse_tzinfo (b ++ [sg; h1; h2; m1; m2])
  = Ok (Some (tzoffset (sign_value sg
                        * (two_digits h1 h2 * 3600 + two_digits m1 m2 * 60)))).
Proof.
  intros Hb Hsg Hh1 Hh2 Hm1 Hm2.
  by_shape b Hb Hsg; destruct Hsg; subst sg; run_fast_path;
    unfold two_digits; simpl; repeat f_equal; lia.
Qed.

Lemma suffix_z (b : str) :
  timestamp_base b = true -> parse_tzinfo (b ++ [ "Z"%char ]) = Ok (Some pytz_utc).
Proof.
  intros Hb. assert (Hsg : True) by exact I.
  by_shape b Hb Hsg; run_fast_path; reflexivity.
Qed.

Lemma suffix_none (b : str) :
  timestamp_base b = true -> parse_tzinfo b = Ok None.
Proof.
  intros Hb. assert (Hsg : True) by exact I.
  by_shape b Hb Hsg; run_fast_path; reflexivity.
Qed.

Lemma base_layout (b : str) : timestamp_base b = true -> has_layout b = Ok true.
Proof.
  intros Hb. assert (Hsg : True) by exact I.
  by_shape b Hb Hsg; run_fast_path; reflexivity.
Qed.

(** What the fast path makes of the part before the zone suffix. *)
Ltac run_base :=
  unfold _fromisoformat, digits_at, seconds_of, microseconds_of;
  run_fast_path; reflexivity.

Lemma base_value_z (b : str) :
  timestamp_base b = true ->
  _fromisoformat (b ++ [ "Z"%char ])
  = DT.new (Z.max 1 (digits_at b 0 4)) (Z.max 1 (digits_at b 5 7))
      (Z.max 1 (digits_at b 8 10)) (digits_at b 11 13) (digits_at b 14 16)
      (seconds_of b) (microseconds_of b) (Some pytz_utc).
Proof.
  intros Hb. assert (Hsg : True) by exact I.
  by_shape b Hb Hsg; run_base.
Qed.

Lemma base_value_none (b : str) :
  timestamp_base b = true ->
  _fromisoformat b
  = DT.new (Z.max 1 (digits_at b 0 4)) (Z.max 1 (digits_at b 5 7))
      (Z.max 1 (digits_at b 8 10)) (digits_at b 11 13) (digits_at b 14 16)
      (seconds_of b) (microseconds_of b) None.
Proof.
  intros Hb. assert (Hsg : True) by exact I.
  by_shape b Hb Hsg; run_base.
Qed.

Lemma base_value_long (b : str) (sg h1 h2 m1 m2 : ascii) :
  timestamp_base b = true -> is_sign sg = true ->
  is_digit h1 = true -> is_digit h2 = true ->
  is_digit m1 = true -> is_digit m2 = true ->
  _fromisoformat (b ++ [sg; h1; h2; ":"%char; m1; m2])
  = DT.new (Z.max 1 (digits_at b 0 4)) (Z.max 1 (digits_at b 5 7))
      (Z.max 1 (digits_at b 8 10)) (digits_at b 11 13) (digits_at b 14 16)
      (seconds_of b) (microseconds_of b)
      (Some (tzoffset (sign_value sg
                       * (two_digits h1 h2 * 3600 + two_digits m1 m2 * 60)))).
Proof.
  intros Hb Hsg Hh1 Hh2 Hm1 Hm2.
  unfold _fromisoformat.
  rewrite (suffix_long_offset b sg h1 h2 m1 m2 Hb Hsg Hh1 Hh2 Hm1 Hm2).
  by_shape b Hb Hsg; destruct Hsg; subst sg; run_base.
Qed.

Lemma base_value_short (b : str) (sg h1 h2 m1 m2 : ascii) :
  timestamp_base b = true -> is_sign sg = true ->
  is_digit h1 = true -> is_digit h2 = true ->
  is_digit m1 = true -> is_digit m2 = true ->
  _fromisoformat (b ++ [sg; h1; h2; m1; m2])
  = DT.new (Z.max 1 (digits_at b 0 4)) (Z.max 1 (digits_at b 5 7))
      (Z.max 1 (digits_at b 8 10)) (digits_at b 11 13) (digits_at b 14 16)
      (seconds_of b) (microseconds_of b)
      (Some (tzoffset (sign_value sg
                       * (two_digits h1 h2 * 3600 + two_digits m1 m2 * 60)))).
Proof.
  intros Hb Hsg Hh1 Hh2 Hm1 Hm2.
  unfold _fromisoformat.
  rewrite (suffix_short_offset b sg h1 h2 m1 m2 Hb Hsg Hh1 Hh2 Hm1 Hm2).
  by_shape b Hb Hsg; destruct Hsg; subst sg; run_base.
Qed.

Lemma zone_of_suffix_inv (z : str) (tzv : option tzinfo) :
  zone_of_suffix z = Some tzv ->
  (z = [] /\ tzv = None)
  \/ (z = [ "Z"%char ] /\ tzv = Some pytz_utc)
  \/ exists sg h1 h2 m1 m2,
       (z = [sg; h1; h2; ":"%char; m1; m2] \/ z = [sg; h1; h2; m1; m2])
       /\ is_sign sg = true /\ is_digit h1 = true /\ is_digit h2 = true
       /\ is_digit m1 = true /\ is_digit m2 = true
       /\ tzv = Some (tzoffset (sign_value sg
                                * (two_digits h1 h2 * 3600 + two_digits m1 m2 * 60))).
Proof.
  unfold zone_of_suffix. intros H.
  destruct z as [|c1 [|c2 [|c3 [|c4 [|c5 [|c6 [|c7 z]]]]]]]; try discriminate H.
  - left. injection H as <-. split; reflexivity.
  - right; left. destruct (eqc c1 "Z") eqn:E; [|discriminate H].
    apply eqc_eq in E. subst c1. injection H as <-. split; reflexivity.
  - right; right. exists c1, c2, c3, c4, c5.
    destruct (_ && _) eqn:E in H; [|discriminate H]. injection H as <-.
    repeat (apply andb_true_iff in E as [E ?]).
    repeat split; try assumption. right. reflexivity.
  - right; right. exists c1, c2, c3, c5, c6.
    destruct (eqc c4 ":") eqn:E4; [|discriminate H].
    apply eqc_eq in E4. subst c4.
    destruct (_ && _) eqn:E in H; [|discriminate H]. injection H as <-.
    repeat (apply andb_true_iff in E as [E ?]).
    repeat split; try assumption. left. reflexivity.
Qed.

(** A timestamp of the profile with a zone suffix is handed to the
    datetime constructor field by field, the date fields raised to 1. *)
Lemma base_value (b z : str) (tzv : option tzinfo) :
  timestamp_base b = true -> zone_of_suffix z = Some tzv ->
  _fromisoformat (b ++ z)
  = DT.new (Z.max 1 (digits_at b 0 4)) (Z.max 1 (digits_at b 5 7))
      (Z.max 1 (digits_at b 8 10)) (digits_at b 11 13) (digits_at b 14 16)
      (seconds_of b) (microseconds_of b) tzv.
Proof.
  intros Hb Hz.
  destruct (zone_of_suffix_inv z tzv Hz)
    as [[-> ->]|[[-> ->]|(sg & h1 & h2 & m1 & m2 & Hs & Hsg & Hh1 & Hh2 & Hm1 & Hm2 & ->)]].
  - rewrite app_nil_r. apply base_value_none. exact Hb.
  - apply base_value_z. exact Hb.
  - destruct Hs as [-> | ->].
    + apply base_value_long; assumption.
    + apply base_value_short; assumption.
Qed.

End SuffixFacts.

Section SuffixStyles.

Import PyStr Parse.

Variable catalog : gmap str tzinfo.
Variable win_tz : gmap str str.
Variable pytz_localize : tzinfo -> datetime -> result datetime.
Variable dateutil_parse : str -> result datetime.

(** C5.  Let [b] be a timestamp of the profile without zone suffix.
    With the suffix [±hh:mm] and with the suffix [±hhmm] the fast path
    computes the same fixed offset, sign times (hh hours plus mm
    minutes), and returns the same value (or fails alike); when it
    succeeds, [datetime_parse] returns that value for both texts, so the
    instants on the UTC line coincide.  With the suffix [Z] the zone is
    UTC and without suffix there is none. *)
Theorem offset_suffix_styles (b : str) (sg h1 h2 m1 m2 : ascii)
    (default_tz : option tzarg) :
  timestamp_base b = true -> is_sign sg = true ->
  is_digit h1 = true -> is_digit h2 = true ->
  is_digit m1 = true -> is_digit m2 = true ->
  let long := b ++ [sg; h1; h2; ":"%char; m1; m2] in
  let short := b ++ [sg; h1; h2; m1; m2] in
  let off := sign_value sg * (two_digits h1 h2 * 3600 + two_digits m1 m2 * 60) in
  parse_tzinfo long = Ok (Some (tzoffset off))
  /\ parse_tzinfo short = Ok (Some (tzoffset off))
  /\ _fromisoformat long = _fromisoformat short
  /\ (forall dt, _fromisoformat long = Ok dt ->
        tz dt = Some (tzoffset off)
        /\ Parse.datetime_parse catalog win_tz pytz_localize dateutil_parse
             long default_tz = Ok dt
        /\ Parse.datetime_parse catalog win_tz pytz_localize dateutil_parse
             short default_tz = Ok dt)
  /\ (forall dt1 dt2, _fromisoformat long = Ok dt1 -> _fromisoformat short = Ok dt2 ->
        utc_microseconds dt1 = utc_microseconds dt2)
  /\ parse_tzinfo (b ++ [ "Z"%char ]) = Ok (Some pytz_utc)
  /\ (forall dt, _fromisoformat (b ++ [ "Z"%char ]) = Ok dt -> tz dt = Some pytz_utc)
  /\ parse_tzinfo b = Ok None
  /\ (forall dt, _fromisoformat b = Ok dt -> tz dt = None).
Proof.
  intros Hb Hsg Hh1 Hh2 Hm1 Hm2 long short off.
  pose proof (suffix_long_offset b sg h1 h2 m1 m2 Hb Hsg Hh1 Hh2 Hm1 Hm2) as Hl.
  pose proof (suffix_short_offset b sg h1 h2 m1 m2 Hb Hsg Hh1 Hh2 Hm1 Hm2) as Hs.
  pose proof (suffix_styles_agree b sg h1 h2 m1 m2 Hb Hsg Hh1 Hh2 Hm1 Hm2) as He.
  fold long in Hl, He. fold short in Hs, He. fold off in Hl, Hs.
  split; [exact Hl|]. split; [exact Hs|]. split; [exact He|].
  split.
  { intros dt Hdt.
    assert (Htz : tz dt = Some (tzoffset off)).
    { apply fromisoformat_inv in Hdt as (_ & _ & _ & Ht & _). congruence. }
    split; [exact Htz|].
    unfold Parse.datetime_parse. rewrite <- He, Hdt. cbn [try_except mbind result_bind].
    destruct (truthy default_tz) as [z|]; [|split; reflexivity].
    unfold ensure_tz_info. rewrite Htz. split; reflexivity. }
  split.
  { intros dt1 dt2 H1 H2. rewrite He in H1. congruence. }
  split; [apply suffix_z; exact Hb|].
  split.
  { intros dt Hdt. apply fromisoformat_inv in Hdt as (_ & _ & _ & Ht & _).
    rewrite (suffix_z b Hb) in Ht. congruence. }
  split; [apply suffix_none; exact Hb|].
  intros dt Hdt. apply fromisoformat_inv in Hdt as (_ & _ & _ & Ht & _).
  rewrite (suffix_none b Hb) in Ht. congruence.
Qed.

End SuffixStyles.

(** 2017-11-13T12:15:01 at +02:00, written as [+02:00] and as [+0200]. *)
Lemma plus_two_hours_suffixes :
  timestamp_base (py "2017-11-13T12:15:01") = true
  /\ Parse._fromisoformat (py "2017-11-13T12:15:01+02:00")
     = Ok (mk_datetime 2017 11 13 12 15 1 0 (Some (tzoffset 7200)))
  /\ Parse._fromisoformat (py "2017-11-13T12:15:01+0200")
     = Ok (mk_datetime 2017 11 13 12 15 1 0 (Some (tzoffset 7200)))
  /\ utc_microseconds (mk_datetime 2017 11 13 12 15 1 0 (Some (tzoffset 7200)))
     = Some 63646164901000000
  /\ Parse.parse_tzinfo (py "2017-11-13T12:15:01+02:00") = Ok (Some (tzoffset 7200))
  /\ Parse.parse_tzinfo (py "2017-11-13T12:15:01+0200") = Ok (Some (tzoffset 7200)).
Proof.
  split; [reflexivity|]. split; [vm_compute; reflexivity|].
  split; [vm_compute; reflexivity|]. split; [vm_compute; reflexivity|].
  pose proof (offset_suffix_styles ∅ ∅ no_localize no_fallback
                (py "2017-11-13T12:15:01") "+" "0" "2" "0" "0" None
                eq_refl eq_refl eq_refl eq_refl eq_refl eq_refl) as H.
  cbv zeta in H. destruct H as (Hl & Hs & _).
  split; [exact Hl|exact Hs].
Defined.

(** ** Timestamps of the profile *)

Section ProfileFacts.

Import PyStr Parse.

Lemma follows_app (pat b t : str) :
  follows pat b = true -> follows (skipn (length b) pat) t = true ->
  follows pat (b ++ t) = true.
Proof.
  revert pat. induction b as [|c b IH]; intros pat Hb Ht.
  - exact Ht.
  - destruct pat as [|p pat]; [discriminate Hb|].
    cbn [follows] in Hb. apply andb_true_iff in Hb as [Hc Hb].
    cbn [app follows]. rewrite Hc. apply IH; assumption.
Qed.

Lemma follows_digits (n : nat) (f : str) :
  forallb is_digit f = true -> (length f <= n)%nat ->
  follows (repeat "d"%char n) f = true.
Proof.
  revert n. induction f as [|c f IH]; intros n Hf Hn.
  - destruct n; reflexivity.
  - destruct n as [|n]; [cbn in Hn; lia|].
    cbn [forallb] in Hf. apply andb_true_iff in Hf as [Hc Hf].
    cbn [repeat follows]. change (eqc "d" "d") with true. cbv iota.
    rewrite Hc. apply IH; [exact Hf|cbn in Hn; lia].
Qed.

Lemma digits_at_app (b t : str) (lo hi : Z) :
  0 <= lo <= hi -> hi <= len b -> digits_at (b ++ t) lo hi = digits_at b lo hi.
Proof.
  intros Hlo Hhi. unfold digits_at, sl. rewrite slice_app_l by lia. reflexivity.
Qed.

(** Three or six digits after a full stop extend a timestamp of the
    profile that ends with the seconds. *)
Lemma fraction_base (b f : str) :
  timestamp_base b = true -> len b = 19 ->
  forallb is_digit f = true -> len f = 3 \/ len f = 6 ->
  timestamp_base (b ++ "."%char :: f) = true
  /\ seconds_of (b ++ "."%char :: f) = digits_at b 17 19
  /\ microseconds_of (b ++ "."%char :: f)
     = if len f =? 3 then PyNum.digits_value 0 f * 1000 else PyNum.digits_value 0 f.
Proof.
  intros Hb Hlen Hf Hn.
  assert (Hl : len (b ++ "."%char :: f) = 20 + len f).
  { unfold len in *. rewrite length_app. cbn [length]. lia. }
  split; [|split].
  - apply base_shapes in Hb as [_ Hp]. unfold timestamp_base.
    apply andb_true_iff. split.
    + unfold len in *. rewrite length_app. cbn [length].
      destruct Hn as [Hn|Hn].
      * replace (length b + S (length f))%nat with 23%nat by lia. reflexivity.
      * replace (length b + S (length f))%nat with 26%nat by lia. reflexivity.
    + apply follows_app; [exact Hp|].
      replace (length b) with 19%nat by (unfold len in Hlen; lia).
      change (skipn 19 (py "dddd-dd-ddTdd:dd:dd.dddddd"))
        with ("."%char :: repeat "d"%char 6).
      cbn [follows]. change (eqc "." "d") with false. cbv iota.
      change (eqc "." ".") with true. cbn [andb].
      apply follows_digits; [exact Hf|]. unfold len in Hn. lia.
  - unfold seconds_of. rewrite Hl.
    destruct (Z.eqb_spec (20 + len f) 16) as [E|_]; [exfalso; lia|].
    apply digits_at_app; lia.
  - unfold microseconds_of. rewrite Hl.
    assert (Hsl : forall hi, hi = 20 + len f ->
                   digits_at (b ++ "."%char :: f) 20 hi = PyNum.digits_value 0 f).
    { intros hi ->. unfold digits_at.
      assert (E : b ++ "."%char :: f = (b ++ ["."%char]) ++ f ++ []).
      { rewrite app_nil_r, <- app_assoc. reflexivity. }
      rewrite E, (sl_app (b ++ ["."%char]) f [] 20 (20 + len f)); [reflexivity| |lia].
      unfold len in *. rewrite length_app. cbn [length]. lia. }
    destruct Hn as [Hn|Hn]; rewrite Hn.
    + change (20 + 3 =? 23) with true. change (3 =? 3) with true. cbv iota.
      rewrite Hsl by lia. reflexivity.
    + change (20 + 6 =? 23) with false. change (20 + 6 =? 26) with true.
      change (6 =? 3) with false. cbv iota.
      rewrite Hsl by lia. reflexivity.
Qed.

Lemma suffix_no_digit (z : str) (tzv : option tzinfo) :
  zone_of_suffix z = Some tzv ->
  match z with c :: _ => is_digit c = false | [] => True end.
Proof.
  intros H.
  destruct (zone_of_suffix_inv z tzv H)
    as [[-> _]|[[-> _]|(sg & h1 & h2 & m1 & m2 & Hs & Hsg & _)]].
  - exact I.
  - reflexivity.
  - assert (is_digit sg = false).
    { destruct (is_digit sg) eqn:E; [|reflexivity].
      rewrite (digit_not_sign sg E) in Hsg. discriminate. }
    destruct Hs as [-> | ->]; assumption.
Qed.

Variable catalog : gmap str tzinfo.
Variable win_tz : gmap str str.
Variable pytz_localize : tzinfo -> datetime -> result datetime.
Variable dateutil_parse : str -> result datetime.

Abbreviation datetime_parse :=
  (Parse.datetime_parse catalog win_tz pytz_localize dateutil_parse).

(** C3.  Let [b] be a timestamp of the profile up to the seconds, [f] the
    digits after the full stop and [z] a zone suffix.  With three
    digits the fast path hands their value times 1000 to the datetime
    constructor as the microseconds, with six digits their value; with
    any other number of digits it raises [ValueError] and
    [datetime_parse] returns what the fallback parser makes of the whole
    text. *)
Theorem fraction_digits (b f z : str) (tzv : option tzinfo)
    (default_tz : option tzarg) :
  timestamp_base b = true -> len b = 19 ->
  forallb is_digit f = true ->
  zone_of_suffix z = Some tzv ->
  let s := b ++ "."%char :: f ++ z in
  let value := PyNum.digits_value 0 f in
  let new us :=
    DT.new (Z.max 1 (digits_at b 0 4)) (Z.max 1 (digits_at b 5 7))
      (Z.max 1 (digits_at b 8 10)) (digits_at b 11 13) (digits_at b 14 16)
      (digits_at b 17 19) us tzv in
  (len f = 3 ->
   _fromisoformat s = new (value * 1000) /\ 0 <= value * 1000 < 10 ^ 6)
  /\ (len f = 6 -> _fromisoformat s = new value /\ 0 <= value < 10 ^ 6)
  /\ (len f <> 3 -> len f <> 6 ->
      _fromisoformat s = Raise ValueError
      /\ datetime_parse s default_tz
         = (dt ← dateutil_parse s;
            match truthy default_tz with
            | Some z => ensure_tz_info catalog win_tz pytz_localize dt z
            | None => Ok dt
            end))
  /\ (forall dt, _fromisoformat s = Ok dt ->
        datetime_parse s None = Ok dt
        /\ (len f = 3 -> microsecond dt = value * 1000)
        /\ (len f = 6 -> microsecond dt = value)).
Proof.
  intros Hb Hlen Hf Hz s value new.
  pose proof (digits_value_bounds f 0 Hf ltac:(lia)) as Hv. fold value in Hv.
  assert (Hs : s = (b ++ "."%char :: f) ++ z).
  { unfold s. rewrite <- app_assoc. reflexivity. }
  assert (Hok : len f = 3 \/ len f = 6 ->
                _fromisoformat s
                = new (if len f =? 3 then value * 1000 else value)).
  { intros Hn. destruct (fraction_base b f Hb Hlen Hf Hn) as (Hb' & Hsec & Hus).
    rewrite Hs, (base_value _ z tzv Hb' Hz), Hsec, Hus.
    rewrite !digits_at_app by lia. reflexivity. }
  assert (H3 : len f = 3 -> _fromisoformat s = new (value * 1000)).
  { intros Hn. rewrite Hok by (left; exact Hn). rewrite Hn. reflexivity. }
  assert (H6 : len f = 6 -> _fromisoformat s = new value).
  { intros Hn. rewrite Hok by (right; exact Hn). rewrite Hn. reflexivity. }
  split; [|split; [|split]].
  - intros Hn. split; [exact (H3 Hn)|]. rewrite Hn in Hv. lia.
  - intros Hn. split; [exact (H6 Hn)|]. rewrite Hn in Hv. lia.
  - intros Hn3 Hn6.
    assert (Hlay : has_layout s = Ok true).
    { pose proof (base_layout b Hb) as Hl. unfold has_layout in *. unfold s.
      rewrite !(getitem_app_l b) by lia. exact Hl. }
    assert (Hdot : getitem s 19 = Ok "."%char).
    { unfold s. apply getitem_app. exact Hlen. }
    assert (Hfff : leading_digits (slice s (Some 20) None) = f).
    { unfold s. change (b ++ "."%char :: f ++ z) with (b ++ ["."%char] ++ f ++ z).
      rewrite app_assoc, slice_from.
      - apply leading_digits_app; [exact Hf|]. exact (suffix_no_digit z tzv Hz).
      - unfold len in *. rewrite length_app. cbn [length]. lia. }
    destruct (fragment_by_digits catalog win_tz pytz_localize dateutil_parse
                s default_tz Hlay Hdot) as (_ & _ & Hbad).
    rewrite Hfff in Hbad. destruct (Hbad Hn3 Hn6) as (_ & Hiso & Hdp).
    split; [exact Hiso|exact Hdp].
  - intros dt Hdt. split; [|split].
    + unfold Parse.datetime_parse. rewrite Hdt. reflexivity.
    + intros Hn. rewrite (H3 Hn) in Hdt. unfold new, DT.new in Hdt.
      destruct (DT.valid_fields _ _ _ _ _ _ _); [|discriminate Hdt].
      injection Hdt as <-. reflexivity.
    + intros Hn. rewrite (H6 Hn) in Hdt. unfold new, DT.new in Hdt.
      destruct (DT.valid_fields _ _ _ _ _ _ _); [|discriminate Hdt].
      injection Hdt as <-. reflexivity.
Qed.

(** C4 (as amended).  The fast path hands the year, the month and the
    day of a timestamp of the profile to the datetime constructor
    raised to 1, so that a component that reads zero becomes 1.  The
    text is accepted when the fields are valid after that, and
    [datetime_parse] then returns the clamped value; when they are not,
    the fast path raises [ValueError] and [datetime_parse] returns what
    the fallback parser makes of the text. *)
Theorem zero_date_fields_clamped (b z : str) (tzv : option tzinfo)
    (default_tz : option tzarg) :
  timestamp_base b = true -> zone_of_suffix z = Some tzv ->
  let y := Z.max 1 (digits_at b 0 4) in
  let m := Z.max 1 (digits_at b 5 7) in
  let d := Z.max 1 (digits_at b 8 10) in
  let hh := digits_at b 11 13 in
  let mm := digits_at b 14 16 in
  let ss := seconds_of b in
  let us := microseconds_of b in
  _fromisoformat (b ++ z) = DT.new y m d hh mm ss us tzv
  /\ (digits_at b 0 4 = 0 -> y = 1)
  /\ (digits_at b 5 7 = 0 -> m = 1)
  /\ (digits_at b 8 10 = 0 -> d = 1)
  /\ (DT.valid_fields y m d hh mm ss us = true ->
      _fromisoformat (b ++ z) = Ok (mk_datetime y m d hh mm ss us tzv)
      /\ datetime_parse (b ++ z) None = Ok (mk_datetime y m d hh mm ss us tzv))
  /\ (DT.valid_fields y m d hh mm ss us = false ->
      _fromisoformat (b ++ z) = Raise ValueError
      /\ datetime_parse (b ++ z) default_tz
         = (dt ← dateutil_parse (b ++ z);
            match truthy default_tz with
            | Some z => ensure_tz_info catalog win_tz pytz_localize dt z
            | None => Ok dt
            end)).
Proof.
  intros Hb Hz y m d hh mm ss us.
  pose proof (base_value b z tzv Hb Hz) as E. fold y m d hh mm ss us in E.
  split; [exact E|].
  split; [intros H0; unfold y; rewrite H0; reflexivity|].
  split; [intros H0; unfold m; rewrite H0; reflexivity|].
  split; [intros H0; unfold d; rewrite H0; reflexivity|].
  unfold Parse.datetime_parse. rewrite E. unfold DT.new. split; intros ->.
  - split; reflexivity.
  - split; reflexivity.
Qed.

End ProfileFacts.

(** [datetime_parse("2017-11-13T12:15:01.124Z")] has 124000
    microseconds. *)
Lemma millisecond_fraction :
  timestamp_base (py "2017-11-13T12:15:01") = true
  /\ PyStr.len (py "124") = 3
  /\ zone_of_suffix (py "Z") = Some (Some pytz_utc)
  /\ Parse._fromisoformat (py "2017-11-13T12:15:01.124Z")
     = Ok (mk_datetime 2017 11 13 12 15 1 124000 (Some pytz_utc)).
Proof.
  split; [reflexivity|]. split; [reflexivity|]. split; [reflexivity|].
  exact (eq_trans
           (proj1 (proj1 (fraction_digits ∅ ∅ no_localize no_fallback
                            (py "2017-11-13T12:15:01") (py "124") (py "Z")
                            (Some pytz_utc) None eq_refl eq_refl eq_refl eq_refl)
                     eq_refl))
           eq_refl).
Defined.

(** [datetime_parse("0000-00-00T00:00:00.000Z")] is 0001-01-01T00:00:00
    at UTC. *)
Lemma zero_date_parsed :
  timestamp_base (py "0000-00-00T00:00:00.000") = true
  /\ zone_of_suffix (py "Z") = Some (Some pytz_utc)
  /\ Parse.datetime_parse ∅ ∅ no_localize no_fallback
       (py "0000-00-00T00:00:00.000Z") None
     = Ok (mk_datetime 1 1 1 0 0 0 0 (Some pytz_utc)).
Proof.
  split; [reflexivity|]. split; [reflexivity|].
  exact (proj2 (proj1 (proj2 (proj2 (proj2 (proj2
           (zero_date_fields_clamped ∅ ∅ no_localize no_fallback
              (py "0000-00-00T00:00:00.000") (py "Z") (Some pytz_utc) None
              eq_refl eq_refl))))) eq_refl)).
Defined.

(** The claim that a zero component is never a reason to reject fails
    on 29 February of year zero: the year is raised to 1, which is no
    leap year, the constructor refuses the date and the text goes to
    the fallback parser. *)
Lemma zero_year_leap_day_rejected :
  PyStr.int (PyStr.slice (py "0000-02-29T00:00:00Z") None (Some 4)) = Ok 0
  /\ Parse._fromisoformat (py "0000-02-29T00:00:00Z") = Raise ValueError
  /\ (forall fallback,
        Parse.datetime_parse ∅ ∅ no_localize fallback (py "0000-02-29T00:00:00Z") None
        = fallback (py "0000-02-29T00:00:00Z"))
  /\ Parse.datetime_parse ∅ ∅ no_localize no_fallback (py "0000-02-29T00:00:00Z") None
     = Raise ValueError.
Proof.
  assert (E : Parse._fromisoformat (py "0000-02-29T00:00:00Z") = Raise ValueError)
    by (vm_compute; reflexivity).
  split; [reflexivity|]. split; [exact E|]. split.
  - intros fallback. unfold Parse.datetime_parse. rewrite E.
    cbn [try_except mbind result_bind Parse.truthy].
    destruct (fallback _); reflexivity.
  - vm_compute. reflexivity.
Qed.

(** ** The duration grammar *)

Section BareP.

Variable dateutil_parse : str -> result datetime.

(** C1 (as amended).  The grammar rejects "P" alone: after [P] the
    pattern forbids a word boundary, and the end of the text is one.
    The text then goes to the date-literal branch with an empty
    remainder, on which the fast path raises; the result is the generic
    parser's reading of the empty text if it has one and a [ValueError]
    otherwise.  The all-zero delta is what "PT" yields, whose only group
    is the separator. *)
Theorem bare_P_not_in_grammar :
  Re.re_match ISO8601_DURATION (py "P") = None
  /\ Parse._fromisoformat [] = Raise IndexError
  /\ Duration.parse_iso_duration dateutil_parse (py "P")
     = match dateutil_parse [] with
       | Ok dt => Ok (Duration.of_datetime dt)
       | Raise _ => Raise ValueError
       end
  /\ Re.re_match ISO8601_DURATION (py "PT")
     = Some {[ "separator"%string := py "T" ]}
  /\ Duration.parse_iso_duration dateutil_parse (py "PT") = Ok Duration.all_zero.
Proof.
  assert (E1 : Re.re_match ISO8601_DURATION (py "P") = None)
    by (vm_compute; reflexivity).
  assert (E2 : Re.re_match ISO8601_DURATION (py "PT")
               = Some {[ "separator"%string := py "T" ]})
    by (vm_compute; reflexivity).
  split; [exact E1|]. split; [reflexivity|].
  split.
  - unfold Duration.parse_iso_duration. rewrite E1. reflexivity.
  - split; [exact E2|].
    unfold Duration.parse_iso_duration. rewrite E2. vm_compute. reflexivity.
Qed.

End BareP.

(** C1 (as stated) fails: "P" does not match the grammar, and with a
    generic parser that rejects the empty text the parse is an error. *)
Lemma bare_P_rejected :
  Re.re_match ISO8601_DURATION (py "P") = None
  /\ Duration.parse_iso_duration no_fallback (py "P") = Raise ValueError
  /\ Duration.parse_iso_duration no_fallback (py "P") <> Ok Duration.all_zero.
Proof.
  split; [vm_compute; reflexivity|].
  split; [vm_compute; reflexivity|].
  vm_compute. discriminate.
Qed.

Section GrammarFacts.

Import PyStr Re.

Lemma first_match_cat (r1 r2 : regex) (st st1 st2 : mstate) :
  first_match r1 st st1 -> first_match r2 st1 st2 ->
  first_match (Cat r1 r2) st st2.
Proof.
  intros [o1 H1] [o2 H2]. unfold first_match. cbn [run]. rewrite H1.
  exists (o2 ++ (o1 ≫= run r2)). cbn. rewrite H2. reflexivity.
Qed.

Lemma first_match_opt (r : regex) (st st1 : mstate) :
  first_match r st st1 -> first_match (Opt r) st st1.
Proof. intros [o H]. unfold first_match. cbn [run]. rewrite H. eexists. reflexivity. Qed.

Lemma first_match_skip (r : regex) (st : mstate) :
  run r st = [] -> first_match (Opt r) st st.
Proof. intros H. unfold first_match. cbn [run]. rewrite H. eexists. reflexivity. Qed.

Lemma first_match_named (name : string) (r : regex) (st st1 : mstate) :
  first_match r st st1 -> first_match (Named name r) st (set_group name st st1).
Proof. intros [o H]. unfold first_match. cbn [run]. rewrite H. eexists. reflexivity. Qed.

Lemma first_match_lit (c : ascii) (p : option ascii) (s : str) (g : gmap string str) :
  first_match (Lit c) (mk_mstate p (c :: s) g) (mk_mstate (Some c) s g).
Proof. unfold first_match; cbn [run rest groups]. rewrite eqc_refl. eexists. reflexivity. Qed.

Lemma first_match_class (k : cls) (c : ascii) (p : option ascii) (s : str)
    (g : gmap string str) :
  cls_mem k c = true ->
  first_match (Class k) (mk_mstate p (c :: s) g) (mk_mstate (Some c) s g).
Proof. intros H. unfold first_match; cbn [run rest groups]. rewrite H. eexists. reflexivity. Qed.

Lemma first_match_not_ahead (r : regex) (st : mstate) :
  run r st = [] -> first_match (NotAhead r) st st.
Proof. intros H. unfold first_match. cbn [run]. rewrite H. eexists. reflexivity. Qed.

Lemma digit_class (c : ascii) : cls_mem digit c = is_digit c.
Proof. reflexivity. Qed.

(** The greedy star first takes every digit there is. *)
Lemma run_star_digits (ds tail : str) (p : option ascii) (g : gmap string str) :
  forallb is_digit ds = true ->
  match tail with c :: _ => is_digit c = false | [] => True end ->
  exists others,
    run_star digit p (ds ++ tail) g
    = mk_mstate (match last ds with Some c => Some c | None => p end) tail g :: others.
Proof.
  revert p. induction ds as [|d ds IH]; intros p Hds Htail.
  - cbn [app last]. destruct tail as [|c t]; cbn [run_star].
    + eexists. reflexivity.
    + rewrite digit_class, Htail. eexists. reflexivity.
  - cbn in Hds. apply andb_true_iff in Hds as [Hd Hds].
    cbn [app run_star]. rewrite digit_class, Hd.
    destruct (IH (Some d) Hds Htail) as [o Ho]. rewrite Ho.
    eexists. cbn [app]. f_equal. f_equal.
    destruct ds as [|d' ds]; [reflexivity|].
    rewrite last_cons_cons. destruct (last (d' :: ds)) eqn:E; [reflexivity|].
    apply last_None in E. discriminate.
Qed.

Lemma first_match_digits (d : ascii) (ds tail : str) (p : option ascii)
    (g : gmap string str) :
  forallb is_digit (d :: ds) = true ->
  match tail with c :: _ => is_digit c = false | [] => True end ->
  first_match (PlusClass digit) (mk_mstate p ((d :: ds) ++ tail) g)
    (mk_mstate (last (d :: ds)) tail g).
Proof.
  intros Hds Htail. pose proof Hds as Hds'.
  cbn in Hds'. apply andb_true_iff in Hds' as [Hd Hds'].
  unfold first_match; cbn [run rest groups app]. rewrite digit_class, Hd.
  destruct (run_star_digits ds tail (Some d) g Hds' Htail) as [o Ho].
  rewrite Ho. eexists. f_equal. f_equal.
  destruct ds as [|d' ds]; [reflexivity|].
  rewrite last_cons_cons. destruct (last (d' :: ds)) eqn:E; [reflexivity|].
  apply last_None in E. discriminate.
Qed.

Lemma first_match_re_match (r : regex) (s : str) (st : mstate) :
  first_match r (mk_mstate None s ∅) st -> re_match r s = Some (groups st).
Proof. intros [o H]. unfold re_match. rewrite H. reflexivity. Qed.

(** After the last character nothing more can match but the end. *)
Lemma fields_at_end (p : option ascii) (g : gmap string str) :
  run (field "months" "M" ⋅ field "weeks" "W" ⋅ field "days" "D"
       ⋅ time_section ⋅ Eol)%re (mk_mstate p [] g)
  = [mk_mstate p [] g].
Proof. reflexivity. Qed.

Lemma years_only_match (ip fp : str) (sep : ascii) :
  PyNum.all_digits ip = true -> PyNum.all_digits fp = true ->
  sep = "."%char \/ sep = ","%char ->
  re_match ISO8601_DURATION (py "P" ++ ip ++ sep :: fp ++ py "Y")
  = Some {[ "years"%string := ip ++ sep :: fp ++ py "Y" ]}.
Proof.
  intros Hip Hfp Hsep.
  destruct ip as [|i ip]; [discriminate|]. destruct fp as [|f fp]; [discriminate|].
  unfold PyNum.all_digits in Hip, Hfp.
  set (text := (i :: ip) ++ sep :: (f :: fp) ++ py "Y").
  set (st1 := mk_mstate (Some "P"%char) text ∅).
  set (done := mk_mstate (Some "Y"%char) [] {[ "years"%string := text ]}).
  assert (Hsepd : is_digit sep = false) by (destruct Hsep; subst; reflexivity).
  assert (Hsepc : cls_mem (OneOf (py ",.")) sep = true)
    by (destruct Hsep; subst; reflexivity).
  assert (Hi : is_digit i = true).
  { cbn in Hip. apply andb_true_iff in Hip as [H _]. exact H. }
  apply (first_match_re_match _ _ done).
  unfold ISO8601_DURATION, body.
  apply (first_match_cat _ _ _ (mk_mstate None (py "P" ++ text) ∅)).
  { eexists. reflexivity. }
  apply (first_match_cat _ _ _ (mk_mstate None (py "P" ++ text) ∅)).
  { apply first_match_skip. reflexivity. }
  apply (first_match_cat _ _ _ st1).
  { apply first_match_lit. }
  apply (first_match_cat _ _ _ st1).
  { apply first_match_not_ahead. unfold st1, text. cbn [run prev rest word_at app head].
    rewrite (digit_is_word i Hi). reflexivity. }
  unfold date_fields.
  apply (first_match_cat _ _ _ done).
  2: { unfold first_match, done. rewrite fields_at_end. eexists. reflexivity. }
  unfold field at 1. apply first_match_opt.
  replace done with (set_group "years" st1 (mk_mstate (Some "Y"%char) [] ∅)).
  2: { unfold set_group, done, st1. cbn [prev rest groups length].
       rewrite Nat.sub_0_r, firstn_all. reflexivity. }
  apply first_match_named.
  apply (first_match_cat _ _ _ (mk_mstate (last (f :: fp)) (py "Y") ∅)).
  2: { apply first_match_lit. }
  unfold number.
  apply (first_match_cat _ _ _ (mk_mstate (last (i :: ip)) (sep :: (f :: fp) ++ py "Y") ∅)).
  { unfold st1, text. apply first_match_digits; assumption. }
  apply first_match_opt.
  apply (first_match_cat _ _ _ (mk_mstate (Some sep) ((f :: fp) ++ py "Y") ∅)).
  { apply first_match_class. exact Hsepc. }
  apply first_match_digits; [assumption|reflexivity].
Qed.

(** A text that starts with a fractional years field: the match goes
    on after the field with what follows it. *)
Lemma years_field_match (ip fp : str) (sep : ascii) (tail : str) (fin : mstate) :
  PyNum.all_digits ip = true -> PyNum.all_digits fp = true ->
  sep = "."%char \/ sep = ","%char ->
  first_match (field "months" "M" ⋅ field "weeks" "W" ⋅ field "days" "D"
               ⋅ time_section ⋅ Eol)%re
    (mk_mstate (Some "Y"%char) tail
       {[ "years"%string := ip ++ sep :: fp ++ py "Y" ]}) fin ->
  re_match ISO8601_DURATION (py "P" ++ (ip ++ sep :: fp ++ py "Y") ++ tail)
  = Some (groups fin).
Proof.
  intros Hip Hfp Hsep Hfin.
  destruct ip as [|i ip]; [discriminate|]. destruct fp as [|f fp]; [discriminate|].
  unfold PyNum.all_digits in Hip, Hfp.
  set (ytext := (i :: ip) ++ sep :: (f :: fp) ++ py "Y") in *.
  set (st1 := mk_mstate (Some "P"%char) (ytext ++ tail) ∅).
  assert (Hsepd : is_digit sep = false) by (destruct Hsep; subst; reflexivity).
  assert (Hsepc : cls_mem (OneOf (py ",.")) sep = true)
    by (destruct Hsep; subst; reflexivity).
  assert (Hi : is_digit i = true).
  { cbn in Hip. apply andb_true_iff in Hip as [H _]. exact H. }
  apply (first_match_re_match _ _ fin).
  unfold ISO8601_DURATION, body.
  apply (first_match_cat _ _ _ (mk_mstate None (py "P" ++ ytext ++ tail) ∅)).
  { eexists. reflexivity. }
  apply (first_match_cat _ _ _ (mk_mstate None (py "P" ++ ytext ++ tail) ∅)).
  { apply first_match_skip. reflexivity. }
  apply (first_match_cat _ _ _ st1).
  { apply first_match_lit. }
  apply (first_match_cat _ _ _ st1).
  { apply first_match_not_ahead. unfold st1, ytext. cbn [run prev rest word_at app head].
    rewrite (digit_is_word i Hi). reflexivity. }
  unfold date_fields.
  apply (first_match_cat _ _ _
           (mk_mstate (Some "Y"%char) tail {[ "years"%string := ytext ]})).
  2: { exact Hfin. }
  unfold field at 1. apply first_match_opt.
  replace (mk_mstate (Some "Y"%char) tail {[ "years"%string := ytext ]})
    with (set_group "years" st1 (mk_mstate (Some "Y"%char) tail ∅)).
  2: { unfold set_group, st1. cbn [prev rest groups]. rewrite length_app.
       replace (length ytext + length tail - length tail)%nat with (length ytext) by lia.
       rewrite take_app_length. reflexivity. }
  apply first_match_named.
  apply (first_match_cat _ _ _ (mk_mstate (last (f :: fp)) (py "Y" ++ tail) ∅)).
  2: { apply first_match_lit. }
  unfold number.
  apply (first_match_cat _ _ _
           (mk_mstate (last (i :: ip)) (sep :: (f :: fp) ++ py "Y" ++ tail) ∅)).
  { unfold st1, ytext. rewrite <- !app_assoc. cbn [app].
    rewrite <- !app_assoc.
    apply (first_match_digits i ip (sep :: f :: fp ++ py "Y" ++ tail));
      assumption. }
  apply first_match_opt.
  apply (first_match_cat _ _ _ (mk_mstate (Some sep) ((f :: fp) ++ py "Y" ++ tail) ∅)).
  { apply first_match_class. exact Hsepc. }
  apply first_match_digits; [assumption|reflexivity].
Qed.

(** A months field of digits at the end of the text. *)
Lemma months_at_end (mo : str) (p : option ascii) (g : gmap string str) :
  PyNum.all_digits mo = true ->
  first_match (field "months" "M" ⋅ field "weeks" "W" ⋅ field "days" "D"
               ⋅ time_section ⋅ Eol)%re
    (mk_mstate p (mo ++ py "M") g)
    (mk_mstate (Some "M"%char) [] (<["months"%string := mo ++ py "M"]> g)).
Proof.
  intros Hmo. destruct mo as [|d mo]; [discriminate|]. unfold PyNum.all_digits in Hmo.
  set (st0 := mk_mstate p ((d :: mo) ++ py "M") g).
  apply (first_match_cat _ _ _
           (mk_mstate (Some "M"%char) [] (<["months"%string := (d :: mo) ++ py "M"]> g))).
  2: { eexists. reflexivity. }
  unfold field. apply first_match_opt.
  replace (mk_mstate (Some "M"%char) [] (<["months"%string := (d :: mo) ++ py "M"]> g))
    with (set_group "months" st0 (mk_mstate (Some "M"%char) [] g)).
  2: { unfold set_group, st0. cbn [prev rest groups length].
       rewrite Nat.sub_0_r, firstn_all. reflexivity. }
  apply first_match_named.
  apply (first_match_cat _ _ _ (mk_mstate (last (d :: mo)) (py "M") g)).
  2: { apply first_match_lit. }
  unfold number.
  apply (first_match_cat _ _ _ (mk_mstate (last (d :: mo)) (py "M") g)).
  { apply first_match_digits; [assumption|reflexivity]. }
  apply first_match_skip. reflexivity.
Qed.

End GrammarFacts.

Section YearsFacts.

Import PyStr PyNum Duration.

Lemma slice_drop_last (x : str) (c : ascii) :
  slice (x ++ [c]) None (Some (-1)) = x.
Proof.
  unfold slice, clamp, len. rewrite length_app. cbn [length].
  replace (Z.of_nat (length x + 1) + -1) with (Z.of_nat (length x)) by lia.
  cbn [Z.ltb Z.compare].
  rewrite Z.max_r, Z.min_l by lia. rewrite Nat2Z.id, Nat.sub_0_r. cbn [skipn].
  change (drop 0 (x ++ [c])) with (x ++ [c]). apply take_app_length.
Qed.

Lemma replace_digits (s : str) :
  forallb is_digit s = true -> replace "," "." s = s.
Proof.
  intros H. unfold replace. induction s as [|c s IH]; [reflexivity|].
  cbn in H. apply andb_true_iff in H as [Hc Hs]. cbn [map].
  destruct (digit_neq c "," Hc eq_refl) as [-> _]. f_equal. apply IH, Hs.
Qed.

Lemma all_digits_forallb (s : str) : all_digits s = true -> forallb is_digit s = true.
Proof. destruct s; [discriminate|]. intros H; exact H. Qed.

Lemma field_text_decimal (ip fp : str) (sep unit : ascii) :
  all_digits ip = true -> all_digits fp = true ->
  sep = "."%char \/ sep = ","%char ->
  field_text (ip ++ sep :: fp ++ [unit]) = ip ++ "."%char :: fp.
Proof.
  intros Hip Hfp Hsep. unfold field_text.
  replace (ip ++ sep :: fp ++ [unit]) with ((ip ++ sep :: fp) ++ [unit])
    by (rewrite <- app_assoc; reflexivity).
  rewrite slice_drop_last. unfold replace. rewrite map_app. cbn [map].
  fold (replace "," "." ip). fold (replace "," "." fp).
  rewrite !replace_digits by (apply all_digits_forallb; assumption).
  destruct Hsep; subst; reflexivity.
Qed.

Lemma float_of_decimal (ip fp : str) :
  all_digits ip = true -> all_digits fp = true ->
  float_of_str (ip ++ "."%char :: fp)
  = Ok (nearest_ratio (digits_value 0 (ip ++ fp)) (10 ^ len fp)).
Proof.
  intros Hip Hfp. unfold float_of_str.
  rewrite (leading_digits_app ip ("."%char :: fp))
    by (try apply all_digits_forallb; try assumption; reflexivity).
  rewrite skipn_app, Nat.sub_diag, skipn_all. cbn [app skipn].
  rewrite Hip, Hfp. reflexivity.
Qed.

Lemma int_eq_float_trunc (v : float) (y : Z) :
  int_of_float v = Ok y -> int_eq_float y v = is_integral v.
Proof.
  intros H. unfold int_eq_float. rewrite H, Z.eqb_refl. apply andb_true_r.
Qed.

Lemma parse_duration_years_split (text : str) (v : float) :
  _parse_single_duration_value (Some text) = Ok (PyFloat v) ->
  _parse_duration_years (Some text)
  = ('(y, m) ← split_years v; Ok (PyInt y, extra_months m)).
Proof.
  intros H. unfold _parse_duration_years, split_years. rewrite H.
  cbn [mbind result_bind to_int].
  destruct (int_of_float v) as [y|e] eqn:Ey; cbn [mbind result_bind]; [|reflexivity].
  cbn [eqb]. rewrite (int_eq_float_trunc v y Ey).
  destruct (is_integral v); [reflexivity|].
  unfold sub, arith. cbn [to_float mbind result_bind].
  destruct (float_of_int y) as [fy|e]; cbn [mbind result_bind]; [|reflexivity].
  unfold mul, arith. cbn [to_float mbind result_bind].
  change (float_of_int 12) with (Ok twelve). cbn [mbind result_bind to_int].
  destruct (int_of_float (fmul (fsub v fy) twelve)) as [im|e] eqn:Em;
    cbn [mbind result_bind]; [|reflexivity].
  cbn [eqb]. rewrite (int_eq_float_trunc _ im Em).
  destruct (is_integral _); reflexivity.
Qed.

Lemma years_value (ip fp : str) (sep : ascii) :
  all_digits ip = true -> all_digits fp = true ->
  sep = "."%char \/ sep = ","%char ->
  _parse_single_duration_value (Some (ip ++ sep :: fp ++ py "Y"))
  = Ok (PyFloat (nearest_ratio (digits_value 0 (ip ++ fp)) (10 ^ len fp))).
Proof.
  intros Hip Hfp Hsep.
  unfold _parse_single_duration_value. change (py "Y") with ["Y"%char].
  rewrite (field_text_decimal ip fp sep "Y" Hip Hfp Hsep).
  rewrite (float_of_decimal ip fp Hip Hfp). reflexivity.
Qed.

(** The years and the months of the delta for groups that hold a years
    field read as [v]. *)
Lemma from_groups_years (g : gmap string str) (ytext : str) (v : float) :
  g !! "years"%string = Some ytext ->
  _parse_single_duration_value (Some ytext) = Ok (PyFloat v) ->
  (forall e, split_years v = Raise e -> from_groups g = Raise e)
  /\ (forall r, from_groups g = Ok r ->
        exists y m m0,
          split_years v = Ok (y, m)
          /\ _parse_duration_months (g !! "months"%string) = Ok m0
          /\ mul (sign_of g) (PyInt y) = Ok (years r)
          /\ (m1 ← add m0 (extra_months m); mul (sign_of g) m1) = Ok (months r)).
Proof.
  intros Hy Hv. unfold from_groups. fold (sign_of g).
  rewrite Hy, (parse_duration_years_split ytext v Hv).
  destruct (split_years v) as [[y m]|e]; cbn [mbind result_bind].
  2: { split; [intros e' [= ->]; reflexivity|intros r H; discriminate H]. }
  split; [intros e H; discriminate H|].
  intros r H. exists y, m.
  destruct (mul (sign_of g) (PyInt y)) as [yr|] eqn:Eyr; [|discriminate H].
  cbn [mbind result_bind] in H.
  destruct (_parse_duration_months _) as [m0|] eqn:Em0; [|discriminate H].
  cbn [mbind result_bind] in H. exists m0.
  destruct (add m0 (extra_months m)) as [m1|] eqn:Em1; [|discriminate H].
  cbn [mbind result_bind] in H |- *.
  destruct (mul (sign_of g) m1) as [mo|] eqn:Emo; [|discriminate H].
  cbn [mbind result_bind] in H.
  bind_inv H. injection H as <-. cbn [years months].
  repeat split; reflexivity.
Qed.

Section WithFallback.

Variable dateutil_parse : str -> result datetime.

(** C2 (as amended).  A years field [digits sep digits] is read as the
    binary64 number [v] nearest to its decimal value.  The year count
    is [int(v)]; when [v] is not integral, the remainder [v - int(v)]
    and its product with 12 are computed in binary64, the parse raises
    [ValueError] when that product is not integral, and otherwise the
    product is added to the months field: to nothing when the text has
    no months, to the months that follow the years, and in every text
    of the grammar to what its months field holds.  So "P0.5Y" is
    exactly 6 months, "P0.5Y1M" is 7 months and "P0.4Y" is an error. *)
Theorem fractional_years (ip fp : str) (sep : ascii) :
  all_digits ip = true -> all_digits fp = true ->
  sep = "."%char \/ sep = ","%char ->
  let ytext := ip ++ sep :: fp ++ py "Y" in
  let text := py "P" ++ ytext in
  let v := nearest_ratio (digits_value 0 (ip ++ fp)) (10 ^ len fp) in
  Re.re_match ISO8601_DURATION text = Some {[ "years"%string := ytext ]}
  /\ _parse_duration_years (Some ytext)
     = ('(y, m) ← split_years v; Ok (PyInt y, extra_months m))
  /\ parse_iso_duration dateutil_parse text
     = ('(y, m) ← split_years v;
        Ok (years_delta (PyInt y)
              match m with
              | None => PyInt 0
              | Some m => PyFloat (fmul plus_one (fadd (S754_zero false) m))
              end))
  /\ parse_iso_duration dateutil_parse (py "P0.5Y")
     = Ok (years_delta (PyInt 0) (PyFloat (S754_finite false 6755399441055744 (-50))))
  /\ int_of_float (S754_finite false 6755399441055744 (-50)) = Ok 6
  /\ is_integral (S754_finite false 6755399441055744 (-50)) = true
  /\ parse_iso_duration dateutil_parse (py "P0.4Y") = Raise ValueError
  /\ (forall mo, all_digits mo = true ->
        Re.re_match ISO8601_DURATION (text ++ mo ++ py "M")
        = Some (<["months"%string := mo ++ py "M"]> {[ "years"%string := ytext ]})
        /\ parse_iso_duration dateutil_parse (text ++ mo ++ py "M")
           = ('(y, m) ← split_years v;
              m0 ← _parse_duration_months (Some (mo ++ py "M"));
              m1 ← add m0 (extra_months m);
              mt ← mul (PyInt 1) m1;
              Ok (years_delta (PyInt y) mt)))
  /\ (forall s g,
        Re.re_match ISO8601_DURATION s = Some g ->
        g !! "years"%string = Some ytext ->
        (forall e, split_years v = Raise e ->
                   parse_iso_duration dateutil_parse s = Raise e)
        /\ (forall r, parse_iso_duration dateutil_parse s = Ok r ->
              exists y m m0,
                split_years v = Ok (y, m)
                /\ _parse_duration_months (g !! "months"%string) = Ok m0
                /\ mul (sign_of g) (PyInt y) = Ok (years r)
                /\ (m1 ← add m0 (extra_months m); mul (sign_of g) m1)
                   = Ok (months r)))
  /\ parse_iso_duration dateutil_parse (py "P0.5Y1M")
     = Ok (years_delta (PyInt 0) (PyFloat (S754_finite false 7881299347898368 (-50))))
  /\ int_of_float (S754_finite false 7881299347898368 (-50)) = Ok 7
  /\ is_integral (S754_finite false 7881299347898368 (-50)) = true.
Proof.
  intros Hip Hfp Hsep ytext text v.
  pose proof (years_only_match ip fp sep Hip Hfp Hsep) as Hm.
  change (py "P" ++ ip ++ sep :: fp ++ py "Y") with text in Hm. fold ytext in Hm.
  pose proof (years_value ip fp sep Hip Hfp Hsep) as Hv. fold ytext v in Hv.
  pose proof (parse_duration_years_split _ v Hv) as Hy.
  split; [exact Hm|]. split; [exact Hy|].
  split.
  { unfold parse_iso_duration. rewrite Hm. unfold from_groups.
    rewrite lookup_singleton_eq, Hy.
    rewrite !lookup_singleton_ne by discriminate.
    destruct (split_years v) as [[y [m|]]|e]; cbn [mbind result_bind];
      [| |reflexivity].
    - cbn. destruct y; reflexivity.
    - cbn. destruct y; reflexivity. }
  assert (E5 : Re.re_match ISO8601_DURATION (py "P0.5Y")
               = Some {[ "years"%string := py "0.5Y" ]})
    by (vm_compute; reflexivity).
  assert (E4 : Re.re_match ISO8601_DURATION (py "P0.4Y")
               = Some {[ "years"%string := py "0.4Y" ]})
    by (vm_compute; reflexivity).
  split.
  { unfold parse_iso_duration. rewrite E5. vm_compute. reflexivity. }
  split; [reflexivity|]. split; [reflexivity|].
  split.
  { unfold parse_iso_duration. rewrite E4. vm_compute. reflexivity. }
  split.
  { intros mo Hmo.
    assert (Hmm : Re.re_match ISO8601_DURATION (text ++ mo ++ py "M")
                  = Some (<["months"%string := mo ++ py "M"]>
                            {[ "years"%string := ytext ]})).
    { unfold text. rewrite <- app_assoc.
      pose proof (years_field_match ip fp sep (mo ++ py "M")
                    (Re.mk_mstate (Some "M"%char) []
                       (<["months"%string := mo ++ py "M"]>
                          {[ "years"%string := ytext ]}))
                    Hip Hfp Hsep (months_at_end mo _ _ Hmo)) as H.
      cbn [Re.groups] in H. exact H. }
    split; [exact Hmm|].
    unfold parse_iso_duration. rewrite Hmm. unfold from_groups.
    rewrite (lookup_insert_ne _ "months"%string "years"%string) by discriminate.
    rewrite lookup_singleton_eq, Hy, lookup_insert_eq.
    rewrite !(lookup_insert_ne _ "months"%string) by discriminate.
    rewrite !lookup_singleton_ne by discriminate.
    destruct (split_years v) as [[y m]|e]; cbn [mbind result_bind]; [|reflexivity].
    replace (mul (PyInt 1) (PyInt y)) with (Ok (PyInt y))
      by (cbn; destruct y; reflexivity).
    cbn [mbind result_bind].
    destruct (_parse_duration_months _) as [m0|]; cbn [mbind result_bind]; [|reflexivity].
    destruct (add m0 (extra_months m)) as [m1|]; cbn [mbind result_bind]; [|reflexivity].
    destruct (mul (PyInt 1) m1) as [mt|]; cbn [mbind result_bind]; reflexivity. }
  split.
  { intros s g Hs Hg. unfold parse_iso_duration. rewrite Hs.
    apply (from_groups_years g ytext v Hg Hv). }
  assert (E7 : Re.re_match ISO8601_DURATION (py "P0.5Y1M")
               = Some (<["months"%string := py "1M"]> {[ "years"%string := py "0.5Y" ]}))
    by (vm_compute; reflexivity).
  split.
  { unfold parse_iso_duration. rewrite E7. vm_compute. reflexivity. }
  split; reflexivity.
Qed.

End WithFallback.
End YearsFacts.

(** "P1,25Y" is one year and three months. *)
Lemma quarter_year_months :
  PyNum.all_digits (py "1") = true /\ PyNum.all_digits (py "25") = true
  /\ Duration.parse_iso_duration no_fallback (py "P1,25Y")
     = Ok (years_delta (PyNum.PyInt 1)
             (PyNum.PyFloat (S754_finite false 6755399441055744 (-51)))).
Proof.
  split; [reflexivity|]. split; [reflexivity|].
  pose proof (fractional_years no_fallback (py "1") (py "25") ","
                eq_refl eq_refl (or_intror eq_refl)) as H.
  cbv zeta in H. destruct H as (_ & _ & H & _).
  etransitivity; [exact H|]. vm_compute. reflexivity.
Defined.

(** C2 (as stated) fails in both directions, the arithmetic being
    binary64.  0.08333333333333333 times 12 is 0.99999999999999996, not
    a whole number, yet the text parses, to one month.  And the half
    year of 4503599627370496.5 is lost when the text is read: the parse
    gives the years and no months. *)
Lemma years_rounding_counterexample :
  (8333333333333333 * 12) mod 10 ^ 17 <> 0
  /\ Duration.parse_iso_duration no_fallback (py "P0.08333333333333333Y")
     = Ok (years_delta (PyNum.PyInt 0)
             (PyNum.PyFloat (S754_finite false 4503599627370496 (-52))))
  /\ PyNum.eqb (PyNum.PyFloat (S754_finite false 4503599627370496 (-52)))
       (PyNum.PyInt 1) = true
  /\ Duration.parse_iso_duration no_fallback (py "P4503599627370496.5Y")
     = Ok (years_delta (PyNum.PyInt 4503599627370496) (PyNum.PyInt 0)).
Proof.
  split; [vm_compute; discriminate|].
  split; [vm_compute; reflexivity|].
  split; vm_compute; reflexivity.
Qed.

Section FrameFacts.

Import PyStr Re.

Lemma run_star_frame (n : string) (v : str) (k : cls) (s : str)
    (p : option ascii) (g : gmap string str) :
  run_star k p s (<[n := v]> g) = with_group n v <$> run_star k p s g.
Proof.
  revert p. induction s as [|c s IH]; intros p; cbn [run_star].
  - reflexivity.
  - destruct (cls_mem k c); [|reflexivity].
    rewrite IH, fmap_app. reflexivity.
Qed.

Lemma bind_frame (f : mstate -> mstate) (r : regex) (l : list mstate) :
  (forall st, run r (f st) = f <$> run r st) ->
  (f <$> l) ≫= run r = f <$> (l ≫= run r).
Proof.
  intros H. induction l as [|x l IH]; [reflexivity|].
  cbn. rewrite fmap_app, H. f_equal. exact IH.
Qed.

(** A group captured before [r] starts rides along unchanged. *)
Lemma run_frame (n : string) (v : str) (r : regex) (st : mstate) :
  no_group n r = true ->
  run r (with_group n v st) = with_group n v <$> run r st.
Proof.
  revert st. induction r as [| | |c|k|k|r1 IH1 r2 IH2|r1 IH1|name r1 IH1|r1 IH1];
    intros st Hn; cbn [run with_group prev rest groups].
  - destruct (prev st); reflexivity.
  - destruct (at_end (rest st)); reflexivity.
  - destruct (xorb _ _); reflexivity.
  - destruct (rest st) as [|d s]; [reflexivity|]. destruct (eqc c d); reflexivity.
  - destruct (rest st) as [|d s]; [reflexivity|]. destruct (cls_mem k d); reflexivity.
  - destruct (rest st) as [|d s]; [reflexivity|].
    destruct (cls_mem k d); [|reflexivity]. apply run_star_frame.
  - cbn in Hn. apply andb_true_iff in Hn as [H1 H2].
    fold (with_group n v st). rewrite (IH1 st H1).
    apply bind_frame. intros st'. apply IH2, H2.
  - cbn in Hn. fold (with_group n v st). rewrite (IH1 st Hn), fmap_app. reflexivity.
  - cbn in Hn. apply andb_true_iff in Hn as [Hne H1].
    fold (with_group n v st). rewrite (IH1 st H1).
    rewrite <- !list_fmap_compose. apply list_fmap_ext. intros i st' _.
    unfold compose, set_group, with_group. cbn [prev rest groups]. f_equal.
    apply insert_insert_ne. intros ->. rewrite String.eqb_refl in Hne. discriminate.
  - cbn in Hn. fold (with_group n v st). rewrite (IH1 st Hn).
    destruct (run r1 st); reflexivity.
Qed.

(** A regex without the group [n] leaves [n] as it found it. *)
Lemma run_star_keeps (k : cls) (s : str) (p : option ascii)
    (g : gmap string str) (st' : mstate) :
  st' ∈ run_star k p s g -> groups st' = g.
Proof.
  revert p. induction s as [|c s IH]; intros p; cbn [run_star].
  - intros H. apply list_elem_of_singleton in H. subst. reflexivity.
  - destruct (cls_mem k c).
    + intros H. apply elem_of_app in H as [H|H]; [eapply IH, H|].
      apply list_elem_of_singleton in H. subst. reflexivity.
    + intros H. apply list_elem_of_singleton in H. subst. reflexivity.
Qed.

Ltac only_one H :=
  first [ apply list_elem_of_singleton in H; subst; reflexivity
        | inversion H ].

Lemma run_keeps (n : string) (r : regex) (st st' : mstate) :
  no_group n r = true -> st' ∈ run r st -> groups st' !! n = groups st !! n.
Proof.
  revert st st'. induction r as [| | |c|k|k|r1 IH1 r2 IH2|r1 IH1|name r1 IH1|r1 IH1];
    intros st st' Hn; cbn [run].
  - destruct (prev st); intros H; only_one H.
  - destruct (at_end _); intros H; only_one H.
  - destruct (xorb _ _); intros H; only_one H.
  - destruct (rest st) as [|d s]; [intros H; inversion H|].
    destruct (eqc c d); intros H; only_one H.
  - destruct (rest st) as [|d s]; [intros H; inversion H|].
    destruct (cls_mem k d); intros H; only_one H.
  - destruct (rest st) as [|d s]; [intros H; inversion H|].
    destruct (cls_mem k d); intros H; [|inversion H].
    apply run_star_keeps in H. rewrite H. reflexivity.
  - cbn in Hn. apply andb_true_iff in Hn as [H1 H2]. intros H.
    apply list_elem_of_bind in H as (mid & Hmid & Hin).
    rewrite (IH2 mid st' H2 Hmid). apply IH1; assumption.
  - cbn in Hn. intros H. apply elem_of_app in H as [H|H]; [apply IH1; assumption|].
    only_one H.
  - cbn in Hn. apply andb_true_iff in Hn as [Hne H1]. intros H.
    apply list_elem_of_fmap in H as (mid & -> & Hin).
    unfold set_group. cbn [groups].
    rewrite lookup_insert_ne.
    + apply IH1; assumption.
    + intros ->. rewrite String.eqb_refl in Hne. discriminate.
  - destruct (run r1 st); intros H; only_one H.
Qed.

End FrameFacts.

Section SignFacts.

Import PyStr PyNum Re Duration.

(** [-1.0 * x] is [-(1.0 * x)]. *)
Lemma fmul_minus_one (x : float) : fmul minus_one x = fneg (fmul plus_one x).
Proof.
  unfold fmul, fneg.
  change minus_one with (S754_finite true 4503599627370496 (-52)).
  change plus_one with (S754_finite false 4503599627370496 (-52)).
  destruct x as [s|s| |s m e]; try reflexivity.
  cbn [SFmul xorb]. 
  change (if s then false else true) with (negb s). apply round_opp.
Qed.

Lemma mul_minus_one (x : num) :
  mul (PyInt (-1)) x = result_map neg (mul (PyInt 1) x).
Proof.
  destruct x as [z|f].
  - cbn. f_equal. f_equal. destruct z; reflexivity.
  - unfold mul, arith. cbn [to_float].
    change (float_of_int (-1)) with (Ok minus_one).
    change (float_of_int 1) with (Ok plus_one).
    cbn [mbind result_bind result_map neg]. rewrite fmul_minus_one. reflexivity.
Qed.

Lemma from_groups_sign (g : gmap string str) :
  g !! "sign"%string = None ->
  from_groups (<["sign"%string := py "-"]> g) = result_map negate (from_groups g).
Proof.
  intros Hs. unfold from_groups.
  rewrite lookup_insert_eq, Hs.
  rewrite !lookup_insert_ne by discriminate.
  change (bool_decide (py "-" = py "-")) with true. cbv iota.
  destruct (_parse_duration_years (g !! "years"%string)) as [[y e]|err];
    cbn [mbind result_bind result_map]; [|reflexivity].
  rewrite (mul_minus_one y).
  destruct (mul (PyInt 1) y); cbn [mbind result_bind result_map]; [|reflexivity].
  destruct (_parse_duration_months _); cbn [mbind result_bind result_map]; [|reflexivity].
  destruct (add _ e) as [m1|]; cbn [mbind result_bind result_map]; [|reflexivity].
  rewrite (mul_minus_one m1).
  destruct (mul (PyInt 1) m1); cbn [mbind result_bind result_map]; [|reflexivity].
  repeat (match goal with
          | |- context [_parse_single_duration_value ?o] =>
              destruct (_parse_single_duration_value o) as [?v|];
              cbn [mbind result_bind result_map]; [|reflexivity]
          end;
          match goal with
          | |- context [mul (PyInt (-1)) ?v] =>
              rewrite (mul_minus_one v);
              destruct (mul (PyInt 1) v); cbn [mbind result_bind result_map];
              [|reflexivity]
          end).
  reflexivity.
Qed.

Lemma run_body_prev (p q : option ascii) (s : str) (g : gmap string str) :
  run body (mk_mstate p s g) = run body (mk_mstate q s g).
Proof.
  unfold body. cbn [run rest groups]. destruct s as [|c s]; [reflexivity|].
  destruct (eqc "P" c); reflexivity.
Qed.

Lemma run_sign_minus (s : str) :
  run sign_group (mk_mstate None ("-"%char :: s) ∅)
  = [with_group "sign" (py "-") (mk_mstate (Some "-"%char) s ∅);
     mk_mstate None ("-"%char :: s) ∅].
Proof.
  unfold sign_group. cbn [run rest prev groups].
  change (cls_mem (OneOf (py "+-")) "-") with true. cbv iota.
  cbn [fmap list_fmap app]. unfold set_group, with_group.
  cbn [prev rest groups length].
  replace (S (length s) - length s)%nat with 1%nat by lia.
  reflexivity.
Qed.

Lemma run_sign_absent (s : str) :
  run sign_group (mk_mstate None ("P"%char :: s) ∅)
  = [mk_mstate None ("P"%char :: s) ∅].
Proof. reflexivity. Qed.

Lemma run_body_minus (s : str) (p : option ascii) (g : gmap string str) :
  run body (mk_mstate p ("-"%char :: s) g) = [].
Proof. reflexivity. Qed.

Lemma minus_prefix (t : str) :
  run ISO8601_DURATION (mk_mstate None ("-"%char :: "P"%char :: t) ∅)
  = with_group "sign" (py "-")
      <$> run ISO8601_DURATION (mk_mstate None ("P"%char :: t) ∅).
Proof.
  unfold ISO8601_DURATION. fold sign_group.
  change (run (Bol ⋅ ?r)%re ?st) with (run r st ++ []).
  rewrite !app_nil_r.
  change (run (sign_group ⋅ body)%re ?st) with (run sign_group st ≫= run body).
  rewrite run_sign_minus, run_sign_absent.
  change ([?a; ?b] ≫= run body) with (run body a ++ run body b ++ []).
  change ([?a] ≫= run body) with (run body a ++ []).
  rewrite run_body_minus, !app_nil_r.
  rewrite (run_frame "sign" (py "-") body _ eq_refl).
  rewrite (run_body_prev (Some "-"%char) None). reflexivity.
Qed.

Lemma re_match_minus (t : str) :
  re_match ISO8601_DURATION ("-"%char :: "P"%char :: t)
  = (fun g => <["sign"%string := py "-"]> g)
      <$> re_match ISO8601_DURATION ("P"%char :: t).
Proof.
  unfold re_match. rewrite minus_prefix.
  destruct (run ISO8601_DURATION _) as [|st l]; reflexivity.
Qed.

Lemma re_match_unsigned (t : str) (g : gmap string str) :
  re_match ISO8601_DURATION ("P"%char :: t) = Some g -> g !! "sign"%string = None.
Proof.
  unfold re_match, ISO8601_DURATION. fold sign_group.
  change (run (Bol ⋅ ?r)%re ?st) with (run r st ++ []).
  rewrite !app_nil_r.
  change (run (sign_group ⋅ body)%re ?st) with (run sign_group st ≫= run body).
  rewrite run_sign_absent.
  change ([?a] ≫= run body) with (run body a ++ []). rewrite app_nil_r.
  destruct (run body _) as [|st l] eqn:E; [discriminate|].
  cbn. intros [= <-].
  rewrite (run_keeps "sign" body (mk_mstate None ("P"%char :: t) ∅) st eq_refl).
  - reflexivity.
  - rewrite E. left.
Qed.

End SignFacts.

Section NegativeDurations.

Import PyNum Duration.

Variable dateutil_parse : str -> result datetime.

Lemma mul_sign_zero (sign : num) :
  sign = PyInt 1 \/ sign = PyInt (-1) -> mul sign (PyInt 0) = Ok (PyInt 0).
Proof. intros [-> | ->]; reflexivity. Qed.

Lemma from_groups_defaults (g : gmap string str) (r : relativedelta) :
  from_groups g = Ok r -> missing_fields_zero g r.
Proof.
  unfold from_groups.
  set (sign := match g !! "sign"%string with
               | Some s => if bool_decide (s = py "-") then PyInt (-1) else PyInt 1
               | None => PyInt 1
               end).
  assert (Hsign : sign = PyInt 1 \/ sign = PyInt (-1)).
  { unfold sign. destruct (g !! "sign"%string); [|auto].
    destruct (bool_decide _); auto. }
  clearbody sign. intros H.
  destruct (_parse_duration_years _) as [[y e]|] eqn:Ey;
    cbn [mbind result_bind] in H; [|discriminate H].
  bind_inv H. injection H as <-. unfold missing_fields_zero. cbn.
  repeat split; intros Hn; try intros Hn'.
  - rewrite Hn in Ey. vm_compute in Ey. injection Ey as <- <-.
    destruct Hsign as [-> | ->]; vm_compute in E; congruence.
  - rewrite Hn in Ey. vm_compute in Ey. injection Ey as <- <-.
    rewrite Hn' in E0. vm_compute in E0. injection E0 as <-.
    vm_compute in E1. injection E1 as <-.
    destruct Hsign as [-> | ->]; vm_compute in E2; congruence.
  - rewrite Hn in E3. vm_compute in E3. injection E3 as <-.
    destruct Hsign as [-> | ->]; vm_compute in E4; congruence.
  - rewrite Hn in E5. vm_compute in E5. injection E5 as <-.
    destruct Hsign as [-> | ->]; vm_compute in E6; congruence.
  - rewrite Hn in E7. vm_compute in E7. injection E7 as <-.
    destruct Hsign as [-> | ->]; vm_compute in E8; congruence.
  - rewrite Hn in E9. vm_compute in E9. injection E9 as <-.
    destruct Hsign as [-> | ->]; vm_compute in E10; congruence.
  - rewrite Hn in E11. vm_compute in E11. injection E11 as <-.
    destruct Hsign as [-> | ->]; vm_compute in E12; congruence.
Qed.

(** C9.  A body ["P..."] that the grammar accepts is accepted with a
    ["-"] before it, the groups being the same but for the sign; the
    parse of the signed text is the parse of the body with every
    component negated (and the same error when the body is one); and in
    the parse of the body every field whose group is missing is 0. *)
Theorem leading_minus_negates (t : str) (g : gmap string str) :
  Re.re_match ISO8601_DURATION ("P"%char :: t) = Some g ->
  Re.re_match ISO8601_DURATION ("-"%char :: "P"%char :: t)
  = Some (<["sign"%string := py "-"]> g)
  /\ parse_iso_duration dateutil_parse ("-"%char :: "P"%char :: t)
     = result_map negate (parse_iso_duration dateutil_parse ("P"%char :: t))
  /\ (forall r, parse_iso_duration dateutil_parse ("P"%char :: t) = Ok r ->
        missing_fields_zero g r
        /\ parse_iso_duration dateutil_parse ("-"%char :: "P"%char :: t)
           = Ok (negate r)).
Proof.
  intros Hg.
  pose proof (re_match_minus t) as Hm. rewrite Hg in Hm. cbn in Hm.
  pose proof (re_match_unsigned t g Hg) as Hs.
  assert (Hneg : parse_iso_duration dateutil_parse ("-"%char :: "P"%char :: t)
                 = result_map negate
                     (parse_iso_duration dateutil_parse ("P"%char :: t))).
  { unfold parse_iso_duration. rewrite Hm, Hg. apply from_groups_sign, Hs. }
  split; [exact Hm|]. split; [exact Hneg|].
  intros r Hr. split.
  - apply from_groups_defaults. unfold parse_iso_duration in Hr.
    rewrite Hg in Hr. exact Hr.
  - rewrite Hneg, Hr. reflexivity.
Qed.

End NegativeDurations.

(** "-P1Y2M3D" against "P1Y2M3D". *)
Lemma minus_ymd_negated :
  Re.re_match ISO8601_DURATION (py "P1Y2M3D")
  = Some (<["years"%string := py "1Y"]>
            (<["months"%string := py "2M"]> {[ "days"%string := py "3D" ]}))
  /\ Duration.parse_iso_duration no_fallback (py "P1Y2M3D")
     = Ok (mk_relativedelta (PyNum.PyInt 1) (PyNum.PyInt 2)
             (PyNum.PyFloat (S754_finite false 6755399441055744 (-51)))
             (PyNum.PyInt 0) (PyNum.PyInt 0) (PyNum.PyInt 0) (PyNum.PyInt 0))
  /\ Duration.parse_iso_duration no_fallback (py "-P1Y2M3D")
     = Ok (mk_relativedelta (PyNum.PyInt (-1)) (PyNum.PyInt (-2))
             (PyNum.PyFloat (S754_finite true 6755399441055744 (-51)))
             (PyNum.PyInt 0) (PyNum.PyInt 0) (PyNum.PyInt 0) (PyNum.PyInt 0)).
Proof.
  assert (Hg : Re.re_match ISO8601_DURATION (py "P1Y2M3D")
               = Some (<["years"%string := py "1Y"]>
                         (<["months"%string := py "2M"]>
                            {[ "days"%string := py "3D" ]})))
    by (vm_compute; reflexivity).
  assert (Hp : Duration.parse_iso_duration no_fallback (py "P1Y2M3D")
               = Ok (mk_relativedelta (PyNum.PyInt 1) (PyNum.PyInt 2)
                       (PyNum.PyFloat (S754_finite false 6755399441055744 (-51)))
                       (PyNum.PyInt 0) (PyNum.PyInt 0) (PyNum.PyInt 0)
                       (PyNum.PyInt 0)))
    by (vm_compute; reflexivity).
  split; [exact Hg|]. split; [exact Hp|].
  destruct (leading_minus_negates no_fallback (py "1Y2M3D") _ Hg) as (_ & _ & H).
  destruct (H _ Hp) as [_ Hn]. exact Hn.
Defined.

(** ** Ordinals of dates *)

Section CalendarFacts.

Import Calendar.

Lemma days_before_year_succ (y : Z) :
  days_before_year (y + 1) = days_before_year y + 365 + leap_day y.
Proof.
  unfold days_before_year, leap_day, DT.is_leap.
  replace (y + 1 - 1) with y by lia.
  destruct (Z.eqb_spec (y mod 4) 0) as [H4|H4];
    destruct (Z.eqb_spec (y mod 100) 0) as [H100|H100];
    destruct (Z.eqb_spec (y mod 400) 0) as [H400|H400];
    cbn [andb orb negb];
    Z.to_euclidean_division_equations; lia.
Qed.

Lemma days_before_year_mono (y1 y2 : Z) :
  y1 <= y2 -> days_before_year y1 <= days_before_year y2.
Proof.
  intros H. pattern y2. apply (Z.le_ind _ ltac:(intros ? ? ->; tauto) y1); [lia| |exact H].
  intros m Hm IH. replace (Z.succ m) with (m + 1) by lia.
  rewrite days_before_year_succ. unfold leap_day. destruct (DT.is_leap m); lia.
Qed.

Lemma month_cases (m : Z) :
  1 <= m <= 12 ->
  m = 1 \/ m = 2 \/ m = 3 \/ m = 4 \/ m = 5 \/ m = 6 \/ m = 7 \/ m = 8
  \/ m = 9 \/ m = 10 \/ m = 11 \/ m = 12.
Proof. lia. Qed.

Lemma days_in_february (y : Z) : DT.days_in_month y 2 = 28 + leap_day y.
Proof. unfold DT.days_in_month, leap_day. destruct (DT.is_leap y); reflexivity. Qed.

(** The days of the year before the first of month [m + 1]. *)
Lemma days_before_month_next (y m : Z) :
  1 <= m <= 12 ->
  days_before_month y (Z.to_nat (m + 1))
  = days_before_month y (Z.to_nat m) + DT.days_in_month y m.
Proof.
  intros Hm. replace (Z.to_nat (m + 1)) with (S (Z.to_nat m)) by lia.
  destruct (Z.to_nat m) as [|k] eqn:E; [lia|].
  cbn [days_before_month]. rewrite <- E. rewrite Z2Nat.id by lia. reflexivity.
Qed.

Lemma days_before_month_13 (y : Z) :
  days_before_month y 13 = 365 + leap_day y.
Proof.
  cbv [days_before_month]. unfold DT.days_in_month, leap_day.
  destruct (DT.is_leap y); vm_compute; reflexivity.
Qed.

Lemma days_in_month_bounds (y m : Z) : 28 <= DT.days_in_month y m <= 31.
Proof.
  unfold DT.days_in_month.
  destruct (m =? 2); [destruct (DT.is_leap y); lia|].
  destruct ((m =? 4) || (m =? 6) || (m =? 9) || (m =? 11)); lia.
Qed.

Lemma days_before_month_mono (y : Z) (a b : nat) :
  (a <= b)%nat -> days_before_month y a <= days_before_month y b.
Proof.
  induction 1 as [|b Hab IH]; [lia|].
  etransitivity; [exact IH|]. clear.
  destruct b as [|b]; [cbn; lia|].
  change (days_before_month y (S (S b)))
    with (days_before_month y (S b) + DT.days_in_month y (Z.of_nat (S b))).
  pose proof (days_in_month_bounds y (Z.of_nat (S b))). lia.
Qed.

Lemma days_before_month_nonneg (y : Z) (m : nat) : 0 <= days_before_month y m.
Proof. apply (days_before_month_mono y 0 m). lia. Qed.

(** A date that passes the checks of [datetime.date] has an ordinal
    between those of 0001-01-01 and 9999-12-31. *)
Lemma date_of_ymd_valid (y m d : Z) (dd : date) :
  date_of_ymd y m d = Ok dd -> valid_date dd.
Proof.
  unfold date_of_ymd, DT.between.
  destruct (_ && _) eqn:E; [|discriminate]. intros [= <-].
  repeat (apply andb_true_iff in E as [E ?]).
  repeat match goal with H : (_ <=? _) = true |- _ => apply Z.leb_le in H end.
  unfold valid_date. cbn [toordinal].
  pose proof (days_before_year_mono 1 y ltac:(lia)) as Hlo.
  pose proof (days_before_year_mono (y + 1) 10000 ltac:(lia)) as Hhi.
  rewrite days_before_year_succ in Hhi.
  change (days_before_year 1) with 0 in Hlo.
  change (days_before_year 10000) with MAXORDINAL in Hhi.
  pose proof (days_before_month_nonneg y (Z.to_nat m)).
  pose proof (days_before_month_mono y (Z.to_nat (m + 1)) 13 ltac:(lia)) as Hm.
  rewrite days_before_month_next, days_before_month_13 in Hm by lia.
  lia.
Qed.

End CalendarFacts.

(** ** Rounding between grid instants *)

Section GridBounds.

Import Calendar.

Lemma grid_point_below (w d g : Z) :
  0 < d -> g mod d = 0 -> g <= w -> g <= w - w mod d.
Proof.
  intros Hd Hg Hle.
  apply Z.mod_divide in Hg; [|lia]. destruct Hg as [k ->].
  pose proof (Z.div_mod w d ltac:(lia)) as Hw.
  pose proof (Z.mod_pos_bound w d Hd) as Hr.
  replace (w - w mod d) with (d * (w / d)) by lia.
  assert (k <= w / d) by (apply Z.div_le_lower_bound; lia).
  nia.
Qed.

Lemma grid_point_above (w d g : Z) :
  0 < d -> g mod d = 0 -> w <= g -> w + (0 - w) mod d <= g.
Proof.
  intros Hd Hg Hle.
  apply Z.mod_divide in Hg; [|lia]. destruct Hg as [k ->].
  pose proof (Z.div_mod (0 - w) d ltac:(lia)) as Hw.
  pose proof (Z.mod_pos_bound (0 - w) d Hd) as Hr.
  replace (w + (0 - w) mod d) with (- (d * ((0 - w) / d))) by lia.
  assert (- k <= (0 - w) / d) by (apply Z.div_le_lower_bound; lia).
  nia.
Qed.

(** With a positive grid [floor_datetime] never fails: it returns the
    last grid instant at or before its argument, with the same tzinfo. *)
Theorem floor_datetime_greatest (x : instant) (delta : option timedelta)
    (delta_kwargs : timedelta) :
  let d := pick_delta delta delta_kwargs in
  valid_instant x -> 0 < d ->
  exists f,
    floor_datetime x delta delta_kwargs = Ok f
    /\ zone f = zone x /\ valid_instant f
    /\ wall f mod d = 0
    /\ wall f <= wall x < wall f + d
    /\ (forall g, g mod d = 0 -> g <= wall x -> g <= wall f).
Proof.
  intros d [Hlo Hhi] Hd.
  pose proof (Z.mod_pos_bound (wall x) d Hd) as Hr.
  exists (mk_instant (wall x - wall x mod d) (zone x)).
  assert (Hfl : floor_datetime x delta delta_kwargs
                = Ok (mk_instant (wall x - wall x mod d) (zone x))).
  { unfold floor_datetime. fold d. rewrite timedelta_mod_nonzero by lia.
    cbn [mbind result_bind]. unfold instant_add, instant_sub, epoch_of.
    cbn [wall zone]. rewrite Z.sub_0_r, Z.add_opp_r.
    rewrite (proj2 (Z.leb_le 0 _)), (proj2 (Z.leb_le _ MAX_WALL)); [reflexivity|lia|].
    pose proof (Z.div_mod (wall x) d ltac:(lia)) as Hw.
    assert (0 <= wall x / d) by (apply Z.div_pos; lia). nia. }
  split; [exact Hfl|]. cbn [wall zone]. split; [reflexivity|].
  pose proof (Z.div_mod (wall x) d ltac:(lia)) as Hw.
  assert (0 <= wall x / d) by (apply Z.div_pos; lia).
  split; [unfold valid_instant; cbn [wall]; nia|].
  split.
  { replace (wall x - wall x mod d) with (wall x / d * d) by lia.
    apply Z.mod_mul. lia. }
  split; [lia|].
  intros g Hg Hle. apply grid_point_below; assumption.
Qed.

(** With a positive grid [ceil_datetime] aims at the first grid instant
    at or after its argument; it returns it when it is representable
    and raises [OverflowError] when it lies beyond [datetime.max]. *)
Theorem ceil_datetime_least (x : instant) (delta : option timedelta)
    (delta_kwargs : timedelta) :
  let d := pick_delta delta delta_kwargs in
  let c := wall x + (0 - wall x) mod d in
  valid_instant x -> 0 < d ->
  c mod d = 0
  /\ wall x <= c < wall x + d
  /\ (forall g, g mod d = 0 -> wall x <= g -> c <= g)
  /\ ceil_datetime x delta delta_kwargs
     = if c <=? MAX_WALL then Ok (mk_instant c (zone x)) else Raise OverflowError.
Proof.
  intros d c [Hlo Hhi] Hd.
  pose proof (Z.mod_pos_bound (0 - wall x) d Hd) as Hr.
  pose proof (Z.div_mod (0 - wall x) d ltac:(lia)) as Hw.
  split.
  { unfold c. replace (wall x + (0 - wall x) mod d)
      with ((- ((0 - wall x) / d)) * d) by lia.
    apply Z.mod_mul. lia. }
  split; [unfold c; lia|].
  split; [intros g Hg Hle; apply grid_point_above; assumption|].
  unfold ceil_datetime. fold d. rewrite timedelta_mod_nonzero by lia.
  cbn [mbind result_bind]. unfold instant_add, instant_sub, epoch_of.
  cbn [wall zone]. fold c.
  rewrite (proj2 (Z.leb_le 0 c)) by (unfold c; lia).
  reflexivity.
Qed.

(** A negative grid swaps the two roundings: [ceil_datetime] with
    [-d] is [floor_datetime] with [d], and the other way round. *)
Theorem negative_grid_swaps (x : instant) (d : timedelta) :
  d <> 0 ->
  ceil_datetime x (Some (- d)) 0 = floor_datetime x (Some d) 0
  /\ floor_datetime x (Some (- d)) 0 = ceil_datetime x (Some d) 0.
Proof.
  intros Hd.
  assert (Hp : pick_delta (Some d) 0 = d).
  { unfold pick_delta. destruct (Z.eqb_spec d 0); [contradiction|reflexivity]. }
  assert (Hn : pick_delta (Some (- d)) 0 = - d).
  { unfold pick_delta. destruct (Z.eqb_spec (- d) 0); [lia|reflexivity]. }
  unfold ceil_datetime, floor_datetime. rewrite Hp, Hn.
  rewrite !timedelta_mod_nonzero by lia.
  cbn [mbind result_bind]. unfold instant_sub, epoch_of. cbn [wall].
  split; f_equal.
  - replace (0 - wall x) with (- wall x) by lia.
    replace (wall x - 0) with (wall x) by lia.
    apply Z.mod_opp_opp. exact Hd.
  - replace (wall x - 0) with (- (0 - wall x)) by lia.
    rewrite Z.mod_opp_opp by exact Hd. lia.
Qed.

End GridBounds.

(** 2018-02-15T12:38:00 rounds down to 12:30. *)
Lemma floor_quarter_hour :
  let x := Calendar.mk_instant 63654295080000000 None in
  Calendar.valid_instant x /\ 0 < Calendar.pick_delta (Some (15 * 60 * 10 ^ 6)) 0
  /\ exists f,
       Calendar.floor_datetime x (Some (15 * 60 * 10 ^ 6)) 0 = Ok f
       /\ Calendar.wall f = 63654294600000000.
Proof.
  cbv zeta.
  assert (Hv : Calendar.valid_instant (Calendar.mk_instant 63654295080000000 None)).
  { unfold Calendar.valid_instant. simpl. vm_compute. split; discriminate. }
  assert (Hd : 0 < Calendar.pick_delta (Some (15 * 60 * 10 ^ 6)) 0) by reflexivity.
  split; [exact Hv|]. split; [exact Hd|].
  destruct (floor_datetime_greatest (Calendar.mk_instant 63654295080000000 None)
              (Some (15 * 60 * 10 ^ 6)) 0 Hv Hd) as (f & Hf & _).
  exists f. split; [exact Hf|].
  assert (E : Calendar.floor_datetime (Calendar.mk_instant 63654295080000000 None)
                (Some (15 * 60 * 10 ^ 6)) 0
              = Ok (Calendar.mk_instant 63654294600000000 None))
    by (vm_compute; reflexivity).
  rewrite E in Hf. injection Hf as <-. reflexivity.
Defined.

(** 2018-02-15T12:38:00 rounds up to 12:45. *)
Lemma ceil_quarter_hour :
  let x := Calendar.mk_instant 63654295080000000 None in
  Calendar.valid_instant x /\ 0 < Calendar.pick_delta (Some (15 * 60 * 10 ^ 6)) 0
  /\ Calendar.ceil_datetime x (Some (15 * 60 * 10 ^ 6)) 0
     = Ok (Calendar.mk_instant 63654295500000000 None).
Proof.
  cbv zeta.
  assert (Hv : Calendar.valid_instant (Calendar.mk_instant 63654295080000000 None)).
  { unfold Calendar.valid_instant. simpl. vm_compute. split; discriminate. }
  assert (Hd : 0 < Calendar.pick_delta (Some (15 * 60 * 10 ^ 6)) 0) by reflexivity.
  split; [exact Hv|]. split; [exact Hd|].
  exact (eq_trans
           (proj2 (proj2 (proj2
              (ceil_datetime_least (Calendar.mk_instant 63654295080000000 None)
                 (Some (15 * 60 * 10 ^ 6)) 0 Hv Hd))))
           eq_refl).
Defined.

(** With a grid of minus a quarter of an hour, [ceil_datetime] takes
    12:38 down to 12:30. *)
Lemma negative_quarter_hour :
  15 * 60 * 10 ^ 6 <> 0
  /\ Calendar.ceil_datetime (Calendar.mk_instant 63654295080000000 None)
       (Some (- (15 * 60 * 10 ^ 6))) 0
     = Ok (Calendar.mk_instant 63654294600000000 None).
Proof.
  assert (Hd : 15 * 60 * 10 ^ 6 <> 0) by discriminate.
  split; [exact Hd|].
  exact (eq_trans
           (proj1 (negative_grid_swaps (Calendar.mk_instant 63654295080000000 None)
                     (15 * 60 * 10 ^ 6) Hd))
           eq_refl).
Defined.

(** ** Shifts and business days *)

Section ShiftFacts.

Import Calendar Shift.

Lemma arg_negated (kw : kwargs) (k : keyword) :
  arg ((fun v => -1 * v) <$> kw) k = - arg kw k.
Proof.
  unfold arg. rewrite lookup_fmap. destruct (kw !! k); cbn; lia.
Qed.

Lemma total_us_negated (kw : kwargs) :
  total_us ((fun v => -1 * v) <$> kw) = - total_us kw.
Proof. unfold total_us. rewrite !arg_negated. lia. Qed.

Lemma us_per_day : US_PER_DAY = 86400000000.
Proof. reflexivity. Qed.

Lemma max_wall : MAX_WALL = 315537897599999999.
Proof. reflexivity. Qed.

(** A timedelta that leads from one datetime to another has fewer
    days than [datetime.timedelta] can hold. *)
Lemma shift_in_range (w t : Z) :
  0 <= w <= MAX_WALL -> 0 <= w + t <= MAX_WALL ->
  -999999999 <= t / US_PER_DAY <= 999999999.
Proof.
  rewrite max_wall, us_per_day. intros Hw Ht.
  split.
  - apply Z.div_le_lower_bound; lia.
  - apply Z.div_le_upper_bound; lia.
Qed.

(** So the constructor of the timedelta refuses only what the addition
    would refuse as well. *)
Lemma timedelta_is_add (x : instant) (kw : kwargs) :
  valid_instant x -> timedelta x kw = instant_add x (total_us kw).
Proof.
  intros Hx. unfold timedelta, timedelta_new.
  destruct (_ && _) eqn:E; [reflexivity|]. cbn [mbind result_bind].
  unfold instant_add.
  destruct ((0 <=? wall x + total_us kw) && (wall x + total_us kw <=? MAX_WALL)) eqn:E';
    [|reflexivity].
  exfalso. apply andb_true_iff in E' as [H1 H2].
  apply Z.leb_le in H1, H2.
  destruct (shift_in_range (wall x) (total_us kw) Hx (conj H1 H2)) as [Hd1 Hd2].
  apply Z.leb_le in Hd1, Hd2. rewrite Hd1, Hd2 in E. discriminate E.
Qed.

Variable now : result instant.

(** [time_ago] goes back from [now()] by what [in_time] goes forward;
    a shift by the keyword arguments and one by their negations undo
    each other. *)
Theorem time_ago_undoes_in_time (x y : instant) (kw : kwargs) :
  valid_instant x ->
  timedelta x kw = Ok y ->
  wall y = wall x + total_us kw
  /\ timedelta y ((fun v => -1 * v) <$> kw) = Ok x
  /\ (now = Ok y -> time_ago now kw = Ok x)
  /\ (now = Ok x -> in_time now kw = Ok y).
Proof.
  intros Hx Hy. pose proof Hx as [Hlo Hhi].
  rewrite timedelta_is_add in Hy by exact Hx.
  unfold instant_add in Hy.
  destruct (_ && _) eqn:E; [|discriminate Hy]. injection Hy as <-.
  apply andb_true_iff in E as [H1 H2]. apply Z.leb_le in H1, H2.
  assert (Hback : timedelta (mk_instant (wall x + total_us kw) (zone x))
                    ((fun v => -1 * v) <$> kw) = Ok x).
  { rewrite timedelta_is_add by (split; cbn [wall]; lia).
    rewrite total_us_negated. unfold instant_add. cbn [wall zone].
    replace (wall x + total_us kw + - total_us kw) with (wall x) by lia.
    rewrite (proj2 (Z.leb_le 0 (wall x)) Hlo), (proj2 (Z.leb_le _ _) Hhi).
    destruct x; reflexivity. }
  cbn [wall]. split; [reflexivity|]. split; [exact Hback|]. split.
  - intros ->. unfold time_ago, in_time. cbn [mbind result_bind]. exact Hback.
  - intros ->. unfold in_time. cbn [mbind result_bind].
    rewrite timedelta_is_add by exact Hx. unfold instant_add.
    rewrite (proj2 (Z.leb_le _ _) H1), (proj2 (Z.leb_le _ _) H2). reflexivity.
Qed.

End ShiftFacts.

(** Three days and two hours from 2018-02-15T12:38:00, and back. *)
Lemma three_days_ago :
  let x := Calendar.mk_instant 63654295080000000 None in
  let kw : Shift.kwargs := {[ Shift.kw_days := 3; Shift.kw_hours := 2 ]} in
  Calendar.valid_instant x
  /\ Shift.timedelta x kw = Ok (Calendar.mk_instant 63654561480000000 None)
  /\ Shift.timedelta (Calendar.mk_instant 63654561480000000 None)
       ((fun v => -1 * v) <$> kw) = Ok x.
Proof.
  cbv zeta.
  assert (Hv : Calendar.valid_instant (Calendar.mk_instant 63654295080000000 None)).
  { unfold Calendar.valid_instant. simpl. vm_compute. split; discriminate. }
  assert (Hy : Shift.timedelta (Calendar.mk_instant 63654295080000000 None)
                 {[ Shift.kw_days := 3; Shift.kw_hours := 2 ]}
               = Ok (Calendar.mk_instant 63654561480000000 None))
    by (vm_compute; reflexivity).
  split; [exact Hv|]. split; [exact Hy|].
  exact (proj1 (proj2 (time_ago_undoes_in_time (Raise ValueError) _ _ _ Hv Hy))).
Defined.

Section BusinessRoundTrip.

Import Calendar.

Lemma date_eq (d1 d2 : date) : toordinal d1 = toordinal d2 -> d1 = d2.
Proof. destruct d1, d2. cbn. intros ->. reflexivity. Qed.

(** From a business day, the previous business day of the next one is
    the day itself, and so is the next business day of the previous
    one. *)
Theorem business_day_round_trip (fuel : nat) (d : date) :
  (3 <= fuel)%nat -> valid_date d -> is_business_day d = true ->
  (toordinal d < MAXORDINAL ->
   exists n, get_next_business_day fuel d = Some (Ok n)
             /\ get_previous_business_day fuel n = Some (Ok d))
  /\ (1 < toordinal d ->
      exists p, get_previous_business_day fuel d = Some (Ok p)
                /\ get_next_business_day fuel p = Some (Ok d)).
Proof.
  intros Hfuel Hd Hb. split.
  - intros Hmax.
    destruct (next_business_day_steps d Hd Hmax) as (n & Hn & Hvn & Hbn & Hrn & Hgap).
    destruct (previous_business_day_steps n Hvn ltac:(destruct Hd; lia))
      as (p & Hp & Hvp & Hbp & Hrp & Hgap').
    unfold get_next_business_day, get_previous_business_day in *.
    exists n. split.
    + apply (get_next_timedelta_fuel_mono _ _ 3); assumption.
    + apply (get_next_timedelta_fuel_mono _ _ 3); [|assumption].
      rewrite Hp. do 2 f_equal. apply date_eq.
      destruct (Z.lt_trichotomy (toordinal p) (toordinal d)) as [Hlt|[Heq|Hgt]].
      * specialize (Hgap' (toordinal d) ltac:(lia)).
        replace (mk_date (toordinal d)) with d in Hgap' by (destruct d; reflexivity).
        congruence.
      * exact Heq.
      * specialize (Hgap (toordinal p) ltac:(lia)).
        replace (mk_date (toordinal p)) with p in Hgap by (destruct p; reflexivity).
        congruence.
  - intros Hmin.
    destruct (previous_business_day_steps d Hd Hmin) as (p & Hp & Hvp & Hbp & Hrp & Hgap).
    destruct (next_business_day_steps p Hvp ltac:(destruct Hd; lia))
      as (n & Hn & Hvn & Hbn & Hrn & Hgap').
    unfold get_next_business_day, get_previous_business_day in *.
    exists p. split.
    + apply (get_next_timedelta_fuel_mono _ _ 3); assumption.
    + apply (get_next_timedelta_fuel_mono _ _ 3); [|assumption].
      rewrite Hn. do 2 f_equal. apply date_eq.
      destruct (Z.lt_trichotomy (toordinal n) (toordinal d)) as [Hlt|[Heq|Hgt]].
      * specialize (Hgap (toordinal n) ltac:(lia)).
        replace (mk_date (toordinal n)) with n in Hgap by (destruct n; reflexivity).
        congruence.
      * exact Heq.
      * specialize (Hgap' (toordinal d) ltac:(lia)).
        replace (mk_date (toordinal d)) with d in Hgap' by (destruct d; reflexivity).
        congruence.
Qed.

End BusinessRoundTrip.

(** Friday 2018-02-16: the next business day is Monday the 19th, whose
    previous business day is the Friday again. *)
Lemma friday_round_trip :
  (3 <= 3)%nat /\ Calendar.valid_date (Calendar.mk_date 736741)
  /\ Calendar.is_business_day (Calendar.mk_date 736741) = true
  /\ Calendar.toordinal (Calendar.mk_date 736741) < Calendar.MAXORDINAL
  /\ exists n,
       Calendar.get_next_business_day 3 (Calendar.mk_date 736741) = Some (Ok n)
       /\ Calendar.get_previous_business_day 3 n = Some (Ok (Calendar.mk_date 736741)).
Proof.
  assert (Hf : (3 <= 3)%nat) by lia.
  assert (Hv : Calendar.valid_date (Calendar.mk_date 736741)).
  { unfold Calendar.valid_date. simpl. vm_compute. split; discriminate. }
  assert (Hb : Calendar.is_business_day (Calendar.mk_date 736741) = true) by reflexivity.
  assert (Hm : Calendar.toordinal (Calendar.mk_date 736741) < Calendar.MAXORDINAL)
    by reflexivity.
  split; [exact Hf|]. split; [exact Hv|]. split; [exact Hb|]. split; [exact Hm|].
  exact (proj1 (business_day_round_trip 3 (Calendar.mk_date 736741) Hf Hv Hb) Hm).
Defined.

(** ** The date parser *)

Section DateParseFacts.

Import PyStr Calendar DateParse.

(** A text that starts with [YYYY-MM-DD], as [date_parse] reads it. *)
Lemma date_text_reads (Y M D rest : str) :
  len Y = 4 -> len M = 2 -> len D = 2 ->
  let s := Y ++ "-"%char :: M ++ "-"%char :: D ++ rest in
  getitem s 4 = Ok "-"%char /\ getitem s 7 = Ok "-"%char
  /\ slice s None (Some 4) = Y /\ Parse.sl s 5 7 = M /\ Parse.sl s 8 10 = D.
Proof.
  intros HY HM HD s. unfold len in *. repeat split.
  - apply getitem_app. exact HY.
  - subst s. change (Y ++ "-"%char :: M ++ "-"%char :: D ++ rest)
      with (Y ++ ["-"%char] ++ M ++ "-"%char :: D ++ rest).
    rewrite !app_assoc. apply getitem_app.
    unfold len. rewrite !length_app. cbn [length]. lia.
  - apply slice_head. exact HY.
  - subst s. change (Y ++ "-"%char :: M ++ "-"%char :: D ++ rest)
      with (Y ++ ["-"%char] ++ M ++ "-"%char :: D ++ rest).
    rewrite (app_assoc Y). apply sl_app; unfold len;
      rewrite ?length_app; cbn [length]; lia.
  - subst s. change (Y ++ "-"%char :: M ++ "-"%char :: D ++ rest)
      with (Y ++ ["-"%char] ++ M ++ ["-"%char] ++ D ++ rest).
    rewrite (app_assoc Y), (app_assoc (Y ++ _)), (app_assoc ((Y ++ _) ++ _)).
    apply sl_app; unfold len; rewrite ?length_app; cbn [length]; lia.
Qed.

Lemma digit_char_spec (d : Z) :
  0 <= d <= 9 -> is_digit (digit_char d) = true /\ digit_val (digit_char d) = d.
Proof.
  intros H.
  assert (d = 0 \/ d = 1 \/ d = 2 \/ d = 3 \/ d = 4 \/ d = 5 \/ d = 6 \/ d = 7
          \/ d = 8 \/ d = 9) as Hd by lia.
  repeat (destruct Hd as [->|Hd]; [split; reflexivity|]).
  subst. split; reflexivity.
Qed.

Lemma digits_value_snoc (s : str) (c : ascii) (acc : Z) :
  PyNum.digits_value acc (s ++ [c]) = 10 * PyNum.digits_value acc s + digit_val c.
Proof.
  revert acc. induction s as [|x s IH]; intros acc; cbn [app PyNum.digits_value].
  - reflexivity.
  - apply IH.
Qed.

Lemma zfill_spec (width : nat) (z : Z) :
  0 <= z < 10 ^ Z.of_nat width ->
  length (zfill width z) = width
  /\ forallb is_digit (zfill width z) = true
  /\ PyNum.digits_value 0 (zfill width z) = z.
Proof.
  revert z. induction width as [|w IH]; intros z Hz.
  - cbn in *. repeat split. lia.
  - rewrite Nat2Z.inj_succ, Z.pow_succ_r in Hz by lia.
    destruct (IH (z / 10)) as (Hl & Hd & Hv).
    { split; [apply Z.div_pos; lia|apply Z.div_lt_upper_bound; lia]. }
    pose proof (Z.mod_pos_bound z 10 ltac:(lia)) as Hm.
    destruct (digit_char_spec (z mod 10) ltac:(lia)) as [Hc Hcv].
    cbn [zfill]. repeat split.
    + rewrite length_app, Hl. cbn [length]. lia.
    + rewrite forallb_app, Hd. cbn [forallb]. rewrite Hc. reflexivity.
    + rewrite digits_value_snoc, Hv, Hcv.
      pose proof (Z.div_mod z 10 ltac:(lia)). lia.
Qed.

(** [int] on the zero-padded text of a number gives the number back. *)
Lemma int_zfill (width : nat) (z : Z) :
  (0 < width)%nat -> 0 <= z < 10 ^ Z.of_nat width ->
  int (zfill width z) = Ok z.
Proof.
  intros Hw Hz. destruct (zfill_spec width z Hz) as (Hl & Hd & Hv).
  rewrite int_all_digits; [rewrite Hv; reflexivity|].
  unfold PyNum.all_digits. destruct (zfill width z); [cbn in Hl; lia|exact Hd].
Qed.

Variable dateutil_parse : str -> result datetime.

Lemma date_of_ymd_fields (y m d : Z) (dd : date) :
  date_of_ymd y m d = Ok dd ->
  1 <= y <= 9999 /\ 1 <= m <= 12 /\ 1 <= d <= 31.
Proof.
  unfold date_of_ymd, DT.between.
  destruct (_ && _) eqn:E; [|discriminate]. intros _.
  repeat (apply andb_true_iff in E as [E ?]).
  repeat match goal with H : (_ <=? _) = true |- _ => apply Z.leb_le in H end.
  pose proof (days_in_month_bounds y m). lia.
Qed.

(** [date_parse] reads the text of a date back, whatever follows the
    first ten characters and without consulting the fallback parser. *)
Theorem date_parse_isoformat (y m d : Z) (rest : str) (dd : date) :
  date_of_ymd y m d = Ok dd ->
  date_parse dateutil_parse (isoformat y m d ++ rest) = Ok dd.
Proof.
  intros Hdd. destruct (date_of_ymd_fields y m d dd Hdd) as (Hy & Hm & Hd).
  destruct (zfill_spec 4 y ltac:(cbn; lia)) as (HlY & _).
  destruct (zfill_spec 2 m ltac:(cbn; lia)) as (HlM & _).
  destruct (zfill_spec 2 d ltac:(cbn; lia)) as (HlD & _).
  unfold isoformat. rewrite <- app_assoc. cbn [app]. rewrite <- app_assoc. cbn [app].
  destruct (date_text_reads (zfill 4 y) (zfill 2 m) (zfill 2 d) rest)
    as (H4 & H7 & HY & HM & HD); try (unfold len; lia).
  unfold date_parse, fast_path. rewrite H4, H7. cbn [mbind result_bind].
  change (eqc "-" "-") with true. cbn [andb].
  rewrite HY, HM, HD.
  rewrite !int_zfill by (cbn; lia). cbn [mbind result_bind].
  rewrite Hdd. reflexivity.
Qed.

End DateParseFacts.

(** The date of a timestamp text is read off its first ten characters. *)
Lemma date_of_timestamp_text :
  Calendar.date_of_ymd 2018 2 16 = Ok (Calendar.mk_date 736741)
  /\ isoformat 2018 2 16 ++ py "T10:00:00+02:00" = py "2018-02-16T10:00:00+02:00"
  /\ DateParse.date_parse no_fallback (py "2018-02-16T10:00:00+02:00")
     = Ok (Calendar.mk_date 736741).
Proof.
  assert (Hd : Calendar.date_of_ymd 2018 2 16 = Ok (Calendar.mk_date 736741))
    by reflexivity.
  split; [exact Hd|]. split; [reflexivity|].
  exact (date_parse_isoformat no_fallback 2018 2 16 (py "T10:00:00+02:00") _ Hd).
Defined.

(** ** What the fast path does not look at *)

Section LenientFastPath.

Import PyStr Parse.

(** The zone is read off the last six characters. *)
Lemma parse_tzinfo_app (p z : str) :
  6 <= len z \/ last z = Some "Z"%char ->
  parse_tzinfo (p ++ z) = parse_tzinfo z.
Proof.
  intros [Hz|Hz].
  - unfold parse_tzinfo.
    rewrite !(getitem_neg_app p z) by lia.
    unfold sl. rewrite !(slice_neg_app p z) by (try exact I; lia).
    reflexivity.
  - assert (Hlen : 0 < len z).
    { destruct z; [discriminate|]. unfold len. cbn [length]. lia. }
    assert (HZ : getitem z (-1) = Ok "Z"%char).
    { destruct (exists_last (l := z)) as (z' & c & ->).
      { intros ->. discriminate. }
      rewrite last_snoc in Hz. injection Hz as ->.
      unfold getitem, len. rewrite length_app. cbn [length].
      destruct (Z.ltb_spec (-1) 0) as [_|H]; [|exfalso; lia].
      destruct (Z.ltb_spec (Z.of_nat (length z' + 1) + -1) 0) as [H|_]; [exfalso; lia|].
      replace (Z.to_nat (Z.of_nat (length z' + 1) + -1)) with (length z') by lia.
      rewrite nth_error_app2 by lia. rewrite Nat.sub_diag. reflexivity. }
    unfold parse_tzinfo. rewrite (getitem_neg_app p z (-1)) by lia. rewrite HZ.
    reflexivity.
Qed.

Lemma parse_fragment_no_stop (b t : str) (c : ascii) :
  len b = 19 -> c <> "."%char -> parse_fragment (b ++ c :: t) = Ok 0.
Proof.
  intros Hb Hc. unfold parse_fragment. rewrite (getitem_app b t c 19 Hb).
  destruct (eqc c ".") eqn:E; [apply eqc_eq in E; contradiction|reflexivity].
Qed.

(** From position 19 on, a text that does not go on with a full stop is
    not examined until the zone suffix: whatever lies between is
    ignored. *)
Theorem text_before_zone_ignored (b j z : str) :
  len b = 19 ->
  6 <= len z \/ last z = Some "Z"%char ->
  head z <> Some "."%char ->
  head j <> Some "."%char ->
  _fromisoformat (b ++ j ++ z) = _fromisoformat (b ++ z).
Proof.
  intros Hb Hz Hhz Hhj.
  assert (Hz1 : exists c z', z = c :: z' /\ c <> "."%char).
  { destruct z as [|c z']; [destruct Hz as [Hz|Hz]; [unfold len in Hz; cbn in Hz; lia|discriminate]|].
    exists c, z'. split; [reflexivity|]. intros ->. apply Hhz. reflexivity. }
  destruct Hz1 as (c & z' & Ez & Hc).
  assert (Hj1 : exists c' t, j ++ z = c' :: t /\ c' <> "."%char).
  { destruct j as [|c' j']; [exists c, z'; split; [rewrite Ez; reflexivity|exact Hc]|].
    exists c', (j' ++ z). split; [reflexivity|]. intros ->. apply Hhj. reflexivity. }
  destruct Hj1 as (c' & t & Ej & Hc').
  apply fromisoformat_ext.
  - unfold has_layout. rewrite !(getitem_app_l b) by lia. reflexivity.
  - unfold parse_seconds, sl. rewrite !(getitem_app_l b) by lia.
    rewrite !(slice_app_l b) by lia. reflexivity.
  - rewrite Ej, Ez. rewrite !parse_fragment_no_stop by assumption. reflexivity.
  - rewrite app_assoc. rewrite !parse_tzinfo_app by exact Hz. reflexivity.
  - rewrite !(slice_app_l b) by (try exact I; lia). reflexivity.
  - unfold sl. rewrite !(slice_app_l b) by lia. reflexivity.
  - unfold sl. rewrite !(slice_app_l b) by lia. reflexivity.
  - unfold sl. rewrite !(slice_app_l b) by lia. reflexivity.
  - unfold sl. rewrite !(slice_app_l b) by lia. reflexivity.
Qed.

Lemma has_layout_len (s : str) : has_layout s = Ok true -> 14 <= len s.
Proof.
  unfold has_layout. intros H.
  destruct (getitem s 4) as [c4|]; [|discriminate H].
  destruct (getitem s 7) as [c7|]; [|discriminate H].
  cbn [mbind result_bind] in H.
  destruct (eqc c4 c7 && eqc c7 "-"); [|discriminate H].
  destruct (getitem s 10) as [c10|]; [|discriminate H].
  cbn [mbind result_bind] in H.
  destruct (eqc c10 "T"); [|discriminate H].
  destruct (getitem s 13) as [c13|] eqn:E13; [|discriminate H].
  apply getitem_ok_len in E13; lia.
Qed.

Lemma sl_beyond (s : str) (lo hi : Z) : len s <= lo -> 0 <= lo -> sl s lo hi = [].
Proof.
  intros Hlo H0. unfold sl, slice, clamp, len in *.
  destruct (Z.ltb_spec lo 0) as [H|_]; [exfalso; lia|].
  replace (Z.to_nat (Z.min (Z.max 0 lo) (Z.of_nat (length s)))) with (length s) by lia.
  rewrite skipn_all. apply firstn_nil.
Qed.

Section WithFallback.

Variable catalog : gmap str tzinfo.
Variable win_tz : gmap str str.
Variable pytz_localize : tzinfo -> datetime -> result datetime.
Variable dateutil_parse : str -> result datetime.

(** A text of fewer than 15 characters is never read by the fast
    path: [datetime_parse] returns what the fallback parser makes of
    it. *)
Theorem short_text_falls_back (s : str) (default_tz : option tzarg) :
  len s < 15 ->
  is_ok (_fromisoformat s) = false
  /\ Parse.datetime_parse catalog win_tz pytz_localize dateutil_parse s default_tz
     = (dt ← dateutil_parse s;
        match truthy default_tz with
        | Some z => ensure_tz_info catalog win_tz pytz_localize dt z
        | None => Ok dt
        end).
Proof.
  intros Hs.
  assert (H : is_ok (_fromisoformat s) = false).
  { destruct (_fromisoformat s) as [dt|] eqn:E; [|reflexivity]. exfalso.
    apply fromisoformat_inv in E as (Hl & _ & _ & _ & y & m & d & _ & _ & _ & _ & _ & _ & _ & Hmin).
    apply has_layout_len in Hl.
    rewrite sl_beyond in Hmin by lia. discriminate Hmin. }
  split; [exact H|].
  unfold Parse.datetime_parse. destruct (_fromisoformat s); [discriminate H|reflexivity].
Qed.

End WithFallback.

End LenientFastPath.

(** A remark between the seconds and the zone is passed over. *)
Lemma remark_before_zone :
  PyStr.len (py "2017-11-13T12:15:01") = 19
  /\ 6 <= PyStr.len (py "+02:00")
  /\ head (py "+02:00") <> Some "."%char
  /\ head (py " or so") <> Some "."%char
  /\ Parse._fromisoformat (py "2017-11-13T12:15:01" ++ py " or so" ++ py "+02:00")
     = Ok (mk_datetime 2017 11 13 12 15 1 0 (Some (tzoffset 7200))).
Proof.
  assert (H0 : 6 <= PyStr.len (py "+02:00")) by (vm_compute; discriminate).
  assert (H1 : head (py "+02:00") <> Some "."%char) by discriminate.
  assert (H2 : head (py " or so") <> Some "."%char) by discriminate.
  assert (E : Parse._fromisoformat (py "2017-11-13T12:15:01" ++ py "+02:00")
              = Ok (mk_datetime 2017 11 13 12 15 1 0 (Some (tzoffset 7200))))
    by (vm_compute; reflexivity).
  split; [reflexivity|]. split; [exact H0|]. split; [exact H1|]. split; [exact H2|].
  exact (eq_trans
           (text_before_zone_ignored (py "2017-11-13T12:15:01") (py " or so")
              (py "+02:00") eq_refl (or_introl H0) H1 H2)
           E).
Defined.

(** A text that holds a date only goes to the fallback parser. *)
Lemma date_only_text :
  PyStr.len (py "2017-11-13") < 15
  /\ is_ok (Parse._fromisoformat (py "2017-11-13")) = false
  /\ Parse.datetime_parse ∅ ∅ no_localize
       (fun _ => Ok (mk_datetime 2017 11 13 0 0 0 0 None)) (py "2017-11-13") None
     = Ok (mk_datetime 2017 11 13 0 0 0 0 None).
Proof.
  assert (Hl : PyStr.len (py "2017-11-13") < 15) by reflexivity.
  split; [exact Hl|].
  destruct (short_text_falls_back ∅ ∅ no_localize
              (fun _ => Ok (mk_datetime 2017 11 13 0 0 0 0 None))
              (py "2017-11-13") None Hl) as [H1 H2].
  split; [exact H1|exact H2].
Defined.

(** ** Days and months *)


Lemma attach_zone_aware (z : tzinfo) (x y : Calendar.instant) :
  attach_zone z x = Ok y -> Calendar.zone y <> None.
Proof.
  unfold attach_zone. destruct (Calendar.zone x); [discriminate|].
  intros [= <-]. discriminate.
Qed.

Section MomentFacts.

Import Calendar Moments.

Variable catalog : gmap str tzinfo.
Variable win_tz : gmap str str.
Variable tz_localize : tzinfo -> instant -> result instant.

(** pytz's [localize] attaches a tzinfo and leaves the wall clock as
    it is. *)
Hypothesis localize_wall :
  forall z x y, tz_localize z x = Ok y -> wall y = wall x.





End MomentFacts.



(** ** The range of datetimes and comparable objects *)

Section RangeFacts.

Import Calendar Moments.

Lemma valid_fields_inv (y m d hh mm ss us : Z) :
  DT.valid_fields y m d hh mm ss us = true ->
  (DT.between 1 y 9999 && DT.between 1 m 12
   && DT.between 1 d (DT.days_in_month y m) = true)
  /\ 0 <= hh <= 23 /\ 0 <= mm <= 59 /\ 0 <= ss <= 59 /\ 0 <= us <= 999999.
Proof.
  unfold DT.valid_fields. intros H. rewrite !andb_true_iff in H.
  destruct H as ((((((Hy & Hm) & Hd) & Hh) & Hmi) & Hs) & Hu).
  split; [rewrite Hy, Hm, Hd; reflexivity|].
  unfold DT.between in Hh, Hmi, Hs, Hu.
  apply andb_true_iff in Hh as [? ?], Hmi as [? ?], Hs as [? ?], Hu as [? ?].
  repeat match goal with H : (_ <=? _) = true |- _ => apply Z.leb_le in H end.
  lia.
Qed.

(** Every datetime that the constructor accepts lies, on the wall
    clock, between [min_datetime()] and [max_datetime()], which are the
    first and the last microsecond that a datetime can hold: nothing can
    be added to the one or subtracted from the other. *)
Theorem datetime_range (y m d hh mm ss us : Z) (t : option tzinfo) (dt : datetime) :
  DT.new y m d hh mm ss us t = Ok dt ->
  exists i lo hi,
    instant_of_datetime dt = Ok i
    /\ min_datetime ≫= instant_of_datetime = Ok lo
    /\ max_datetime ≫= instant_of_datetime = Ok hi
    /\ wall lo <= wall i <= wall hi
    /\ (forall td, td < 0 -> instant_add lo td = Raise OverflowError)
    /\ (forall td, 0 < td -> instant_add hi td = Raise OverflowError).
Proof.
  unfold DT.new. destruct (DT.valid_fields _ _ _ _ _ _ _) eqn:E; [|discriminate].
  intros [= <-]. apply valid_fields_inv in E as (Hd & Hh & Hm & Hs & Hu).
  unfold instant_of_datetime. cbn [year month day hour minute second microsecond tz].
  destruct (date_of_ymd y m d) as [dd|] eqn:Ed.
  2:{ unfold date_of_ymd in Ed. rewrite Hd in Ed. discriminate Ed. }
  pose proof (date_of_ymd_valid _ _ _ _ Ed) as [Hlo Hhi].
  eexists _, (mk_instant 0 (Some pytz_utc)), (mk_instant MAX_WALL (Some pytz_utc)).
  split; [reflexivity|]. split; [reflexivity|]. split; [reflexivity|].
  cbn [wall].
  split; [unfold MAX_WALL, US_PER_DAY, MAXORDINAL in *; lia|]. split.
  - intros td Htd. unfold instant_add. cbn [wall].
    destruct (Z.leb_spec 0 (0 + td)); [exfalso; lia|reflexivity].
  - intros td Htd. unfold instant_add. cbn [wall].
    destruct (Z.leb_spec (MAX_WALL + td) MAX_WALL); [exfalso; lia|].
    rewrite andb_false_r. reflexivity.
Qed.

End RangeFacts.

(** 2016-02-29T23:59:59 lies within the range. *)
Lemma leap_day_in_range :
  DT.new 2016 2 29 23 59 59 0 None = Ok (mk_datetime 2016 2 29 23 59 59 0 None)
  /\ exists i lo hi,
       Calendar.instant_of_datetime (mk_datetime 2016 2 29 23 59 59 0 None) = Ok i
       /\ Moments.min_datetime ≫= Calendar.instant_of_datetime = Ok lo
       /\ Moments.max_datetime ≫= Calendar.instant_of_datetime = Ok hi
       /\ Calendar.wall lo <= Calendar.wall i <= Calendar.wall hi.
Proof.
  split; [reflexivity|].
  destruct (datetime_range 2016 2 29 23 59 59 0 None _ eq_refl)
    as (i & lo & hi & Hi & Hlo & Hhi & Hr & _).
  exists i, lo, hi. repeat split; try assumption; apply Hr.
Defined.

Section ComparableFacts.

Import Calendar Moments.

Variable catalog : gmap str tzinfo.
Variable win_tz : gmap str str.
Variable tz_localize : tzinfo -> instant -> result instant.

(** pytz's [localize] returns a datetime with a tzinfo. *)
Hypothesis localize_aware :
  forall z x y, tz_localize z x = Ok y -> zone y <> None.

Abbreviation comparable := (Moments.comparable catalog win_tz tz_localize).
Abbreviation collect := (Moments.collect catalog win_tz tz_localize).

Lemma comparable_aware (tz : tzinfo) (o : date_object) (x : instant) :
  comparable tz o = Ok x -> zone x <> None.
Proof.
  destruct o as [d|y]; cbn [Moments.comparable].
  - unfold beginning_of_day, combine, localize. cbn [Zone.ensure_tz_object mbind result_bind].
    apply localize_aware.
  - destruct (zone y) eqn:E.
    + intros [= <-]. congruence.
    + unfold localize. cbn [Zone.ensure_tz_object mbind result_bind].
      apply localize_aware.
Qed.

Lemma collect_spec (tz : tzinfo) (l : list date_object) (r : list instant) :
  collect tz l = Ok r ->
  length r = length l
  /\ Forall (fun x => zone x <> None) r
  /\ (forall i x, l !! i = Some (DatetimeObj x) -> zone x <> None -> r !! i = Some x).
Proof.
  revert r. induction l as [|o l IH]; intros r H; cbn [Moments.collect] in H.
  - injection H as <-. repeat split; [constructor|]. intros i x Hi. discriminate Hi.
  - destruct (comparable tz o) as [x|] eqn:Ex; [|discriminate H].
    cbn [mbind result_bind] in H.
    destruct (collect tz l) as [r'|]; [|discriminate H].
    cbn [mbind result_bind] in H. injection H as <-.
    destruct (IH r' eq_refl) as (Hl & Hf & Hi).
    split; [cbn [length]; lia|]. split.
    + constructor; [exact (comparable_aware tz o x Ex)|exact Hf].
    + intros [|i] y Hy Hz.
      * cbn in Hy. injection Hy as ->. cbn [Moments.comparable] in Ex.
        destruct (zone y); [|contradiction]. injection Ex as <-. reflexivity.
      * cbn in Hy |- *. apply Hi; assumption.
Qed.

Lemma collect_aware (tz : tzinfo) (r : list instant) :
  Forall (fun x => zone x <> None) r -> collect tz (DatetimeObj <$> r) = Ok r.
Proof.
  induction 1 as [|x r Hx _ IH]; [reflexivity|].
  cbn [fmap list_fmap Moments.collect Moments.comparable].
  destruct (zone x); [|contradiction].
  cbn [mbind result_bind].
  change (list_fmap _ _ DatetimeObj r) with (DatetimeObj <$> r).
  rewrite IH. reflexivity.
Qed.

(** What [ensure_date_objects_are_comparable] returns has one datetime
    for each argument, every one of them with a tzinfo; the arguments
    that had a tzinfo are returned as they are, and a second pass
    changes nothing. *)
Theorem comparable_objects (l : list date_object) (r : list instant) :
  ensure_date_objects_are_comparable catalog win_tz tz_localize l = Ok r ->
  length r = length l
  /\ Forall (fun x => zone x <> None) r
  /\ (forall i x, l !! i = Some (DatetimeObj x) -> zone x <> None -> r !! i = Some x)
  /\ ensure_date_objects_are_comparable catalog win_tz tz_localize (DatetimeObj <$> r)
     = Ok r.
Proof.
  unfold ensure_date_objects_are_comparable. intros H.
  destruct (collect_spec _ l r H) as (Hl & Hf & Hi).
  repeat split; try assumption. apply collect_aware. exact Hf.
Qed.

End ComparableFacts.

(** A date, a naive datetime and a datetime at +02:00: the first two
    get the zone of the third. *)
Lemma date_and_datetime_comparable :
  let l := [ Moments.DateObj (Calendar.mk_date 736741);
             Moments.DatetimeObj (Calendar.mk_instant 63654295080000000 None);
             Moments.DatetimeObj
               (Calendar.mk_instant 63654295500000000 (Some pytz_utc)) ] in
  let r := [ Calendar.mk_instant 63654336000000000 (Some pytz_utc);
             Calendar.mk_instant 63654295080000000 (Some pytz_utc);
             Calendar.mk_instant 63654295500000000 (Some pytz_utc) ] in
  Moments.ensure_date_objects_are_comparable ∅ ∅ attach_zone l = Ok r
  /\ Moments.ensure_date_objects_are_comparable ∅ ∅ attach_zone
       (Moments.DatetimeObj <$> r) = Ok r.
Proof.
  cbv zeta.
  assert (H : Moments.ensure_date_objects_are_comparable ∅ ∅ attach_zone
                [ Moments.DateObj (Calendar.mk_date 736741);
                  Moments.DatetimeObj (Calendar.mk_instant 63654295080000000 None);
                  Moments.DatetimeObj
                    (Calendar.mk_instant 63654295500000000 (Some pytz_utc)) ]
              = Ok [ Calendar.mk_instant 63654336000000000 (Some pytz_utc);
                     Calendar.mk_instant 63654295080000000 (Some pytz_utc);
                     Calendar.mk_instant 63654295500000000 (Some pytz_utc) ])
    by (vm_compute; reflexivity).
  split; [exact H|].
  exact (proj2 (proj2 (proj2
           (comparable_objects ∅ ∅ attach_zone attach_zone_aware _ _ H)))).
Defined.

(** ** The next quarter of an hour *)

Section QuarterHours.

Import Calendar.

Lemma quarter_hour : QUARTER_HOUR = 900000000.
Proof. reflexivity. Qed.

Lemma quarter_hour_delta : pick_delta (Some (15 * 60 * 10 ^ 6)) 0 = 900000000.
Proof. reflexivity. Qed.

(** [get_next_even_15_minutes] returns the first full quarter of an
    hour at or after its argument, less than fifteen minutes later and
    with the same tzinfo; it leaves its own result as it is.  It raises
    [OverflowError] on the instants after the last full quarter hour of
    the year 9999, that is after 9999-12-31T23:45:00. *)
Theorem next_quarter_hour (x : instant) :
  valid_instant x ->
  (wall x <= MAX_WALL + 1 - QUARTER_HOUR ->
   exists r,
     get_next_even_15_minutes x = Ok r
     /\ zone r = zone x /\ valid_instant r
     /\ wall r mod QUARTER_HOUR = 0
     /\ wall x <= wall r < wall x + QUARTER_HOUR
     /\ (forall g, g mod QUARTER_HOUR = 0 -> wall x <= g -> wall r <= g)
     /\ get_next_even_15_minutes r = Ok r)
  /\ (MAX_WALL + 1 - QUARTER_HOUR < wall x ->
      get_next_even_15_minutes x = Raise OverflowError).
Proof.
  intros [Hlo Hhi].
  rewrite quarter_hour. rewrite max_wall in *.
  set (q := 900000000) in *.
  assert (Hq : 0 < q) by (unfold q; lia).
  pose proof (Z.mod_pos_bound (0 - wall x) q Hq) as Hr.
  pose proof (Z.div_mod (0 - wall x) q ltac:(lia)) as Hw.
  set (c := wall x + (0 - wall x) mod q) in *.
  assert (Hc : c mod q = 0).
  { unfold c. replace (wall x + (0 - wall x) mod q)
      with ((- ((0 - wall x) / q)) * q) by lia.
    apply Z.mod_mul. lia. }
  assert (Hceil : get_next_even_15_minutes x
                  = if c <=? 315537897599999999
                    then Ok (mk_instant c (zone x)) else Raise OverflowError).
  { unfold get_next_even_15_minutes, ceil_datetime.
    rewrite quarter_hour_delta. fold q.
    rewrite timedelta_mod_nonzero by lia.
    cbn [mbind result_bind]. unfold instant_add, instant_sub, epoch_of.
    cbn [wall zone]. fold c. rewrite max_wall.
    rewrite (proj2 (Z.leb_le 0 c)) by (unfold c; lia).
    reflexivity. }
  assert (Hlast : (315537897599999999 + 1 - q) mod q = 0) by reflexivity.
  split.
  - intros Hx.
    assert (Hle : c <= 315537897599999999 + 1 - q).
    { apply grid_point_above; [exact Hq|exact Hlast|exact Hx]. }
    exists (mk_instant c (zone x)). cbn [wall zone].
    split.
    { rewrite Hceil. rewrite (proj2 (Z.leb_le c _)); [reflexivity|].
      unfold q in Hle. lia. }
    split; [reflexivity|].
    split; [unfold valid_instant; cbn [wall]; rewrite max_wall; unfold c, q in *; lia|].
    split; [exact Hc|].
    split; [unfold c; lia|].
    split; [intros g Hg Hge; apply grid_point_above; assumption|].
    unfold get_next_even_15_minutes, ceil_datetime.
    rewrite quarter_hour_delta. fold q.
    rewrite timedelta_mod_nonzero by lia.
    cbn [mbind result_bind]. unfold instant_sub, epoch_of. cbn [wall zone].
    rewrite (on_grid_opp c q Hc).
    apply instant_add_zero. unfold valid_instant. cbn [wall]. rewrite max_wall.
    unfold c, q in *. lia.
  - intros Hx. rewrite Hceil.
    assert (Hgt : 315537897599999999 < c).
    { assert (H1 : 315537897599999999 + 1 - q <= c - q \/ c - q < 315537897599999999 + 1 - q) by lia.
      destruct H1 as [H1|H1]; [lia|]. exfalso.
      assert (Hcq : (c - q) mod q = 0).
      { replace (c - q) with (c + (-1) * q) by lia. rewrite Z.mod_add by lia. exact Hc. }
      assert (Hc' : c <= 315537897599999999 + 1 - q).
      { apply Z.mod_divide in Hc; [|lia]. destruct Hc as [k Hk].
        apply Z.mod_divide in Hlast; [|lia]. destruct Hlast as [k' Hk'].
        rewrite Hk, Hk' in *. nia. }
      unfold c in Hc'. lia. }
    destruct (Z.leb_spec c 315537897599999999); [lia|reflexivity].
Qed.

End QuarterHours.

(** 2018-02-15T12:38:00 is followed by 12:45. *)
Lemma quarter_past_noon :
  Calendar.valid_instant (Calendar.mk_instant 63654295080000000 None)
  /\ Calendar.get_next_even_15_minutes (Calendar.mk_instant 63654295080000000 None)
     = Ok (Calendar.mk_instant 63654295500000000 None).
Proof.
  assert (Hv : Calendar.valid_instant (Calendar.mk_instant 63654295080000000 None)).
  { unfold Calendar.valid_instant. cbn [Calendar.wall]. rewrite max_wall. lia. }
  assert (Hx : Calendar.wall (Calendar.mk_instant 63654295080000000 None)
               <= Calendar.MAX_WALL + 1 - QUARTER_HOUR).
  { cbn [Calendar.wall]. rewrite max_wall, quarter_hour. lia. }
  split; [exact Hv|].
  destruct (proj1 (next_quarter_hour _ Hv) Hx) as (r & Hr & _).
  rewrite Hr. vm_compute in Hr. symmetry. exact Hr.
Defined.

(** ** Arguments that are datetimes already *)

Section EnsureDatetimeFacts.

Import DateParse.

Variable catalog : gmap str tzinfo.
Variable win_tz : gmap str str.
Variable pytz_localize : tzinfo -> datetime -> result datetime.
Variable dateutil_parse : str -> result datetime.

(** pytz's [localize] returns a datetime with a tzinfo. *)
Hypothesis localize_aware :
  forall z d d', pytz_localize z d = Ok d' -> tz d' <> None.

Abbreviation ensure_datetime :=
  (DateParse.ensure_datetime catalog win_tz pytz_localize dateutil_parse).

(** What [ensure_datetime] returns it returns again unchanged when it
    is passed back with the same default zone.  With a default zone the
    result has a tzinfo; a datetime that has one already comes back as
    it is, the default zone not even being looked up; and on a text
    the function is [datetime_parse] with the same default zone. *)
Theorem ensure_datetime_settles (a : datetime_arg) (default_tz : option tzarg)
    (dt : datetime) :
  ensure_datetime a default_tz = Ok dt ->
  ensure_datetime (GivenDatetime dt) default_tz = Ok dt
  /\ (Parse.truthy default_tz <> None -> tz dt <> None)
  /\ (forall d, a = GivenDatetime d -> tz d <> None -> dt = d)
  /\ (forall s, a = GivenText s ->
        Parse.datetime_parse catalog win_tz pytz_localize dateutil_parse s default_tz
        = Ok dt).
Proof.
  intros H. unfold DateParse.ensure_datetime in *.
  assert (Haware : Parse.truthy default_tz <> None -> tz dt <> None).
  { intros Ht.
    destruct (match a with GivenDatetime d => Ok d | GivenText s => _ end)
      as [d0|] eqn:E0; [|discriminate H].
    cbn [mbind result_bind] in H.
    destruct (Parse.truthy default_tz) as [z|]; [|congruence].
    unfold Parse.ensure_tz_info in H.
    destruct (tz d0) eqn:Ez.
    - injection H as <-. rewrite Ez. discriminate.
    - unfold Parse.localize in H.
      destruct (Zone.ensure_tz_object catalog win_tz z) as [zz|]; [|discriminate H].
      cbn [mbind result_bind] in H. eapply localize_aware, H. }
  split; [|split; [exact Haware|split]].
  - cbn [mbind result_bind].
    destruct (Parse.truthy default_tz) as [z|] eqn:Et; [|reflexivity].
    unfold Parse.ensure_tz_info.
    destruct (tz dt) eqn:Ez; [reflexivity|].
    exfalso. apply Haware; [discriminate|reflexivity].
  - intros d -> Hd. cbn [mbind result_bind] in H.
    destruct (Parse.truthy default_tz) as [z|]; [|congruence].
    unfold Parse.ensure_tz_info in H.
    destruct (tz d); [congruence|contradiction].
  - intros s ->. unfold Parse.datetime_parse in *.
    destruct (try_except _ _) as [d0|]; [|discriminate H].
    cbn [mbind result_bind] in H |- *.
    destruct (Parse.truthy None) eqn:En; [discriminate En|].
    cbn [mbind result_bind] in H. exact H.
Qed.

End EnsureDatetimeFacts.

Lemma attach_tzinfo_aware (z : tzinfo) (d d' : datetime) :
  attach_tzinfo z d = Ok d' -> tz d' <> None.
Proof.
  unfold attach_tzinfo. destruct (tz d); [discriminate|].
  intros H. injection H as <-. discriminate.
Qed.

(** A text without a zone, read with the default zone "utc", and the
    result passed back. *)
Lemma naive_text_ensured :
  DateParse.ensure_datetime ∅ ∅ attach_tzinfo no_fallback
    (DateParse.GivenText (py "2017-11-13T12:15:01")) (Some (TzName (py "utc")))
  = Ok (mk_datetime 2017 11 13 12 15 1 0 (Some pytz_utc))
  /\ DateParse.ensure_datetime ∅ ∅ attach_tzinfo no_fallback
       (DateParse.GivenDatetime (mk_datetime 2017 11 13 12 15 1 0 (Some pytz_utc)))
       (Some (TzName (py "utc")))
     = Ok (mk_datetime 2017 11 13 12 15 1 0 (Some pytz_utc)).
Proof.
  assert (H : DateParse.ensure_datetime ∅ ∅ attach_tzinfo no_fallback
                (DateParse.GivenText (py "2017-11-13T12:15:01"))
                (Some (TzName (py "utc")))
              = Ok (mk_datetime 2017 11 13 12 15 1 0 (Some pytz_utc)))
    by (vm_compute; reflexivity).
  split; [exact H|].
  exact (proj1 (ensure_datetime_settles ∅ ∅ attach_tzinfo no_fallback
                  attach_tzinfo_aware _ _ _ H)).
Defined.

(** ** Dates that are not in the calendar *)

Section DateParseFallback.

Import PyStr Calendar DateParse.

Variable dateutil_parse : str -> result datetime.

(** [date_parse] does not repair a date: the text of a day that is
    not in the calendar (month 13, the 30th of February, a zero in any
    field) is handed to the fallback parser whole, and the date of what
    that parser returns is the result. *)
Theorem date_parse_invalid_date (y m d : Z) (rest : str) :
  0 <= y < 10000 -> 0 <= m < 100 -> 0 <= d < 100 ->
  is_ok (date_of_ymd y m d) = false ->
  fast_path (isoformat y m d ++ rest) = Raise ValueError
  /\ date_parse dateutil_parse (isoformat y m d ++ rest)
     = (dt ← dateutil_parse (isoformat y m d ++ rest); date_of dt).
Proof.
  intros Hy Hm Hd Hbad.
  destruct (zfill_spec 4 y ltac:(cbn; lia)) as (HlY & _).
  destruct (zfill_spec 2 m ltac:(cbn; lia)) as (HlM & _).
  destruct (zfill_spec 2 d ltac:(cbn; lia)) as (HlD & _).
  assert (Hf : fast_path (isoformat y m d ++ rest) = Raise ValueError).
  { unfold isoformat. rewrite <- app_assoc. cbn [app]. rewrite <- app_assoc. cbn [app].
    destruct (date_text_reads (zfill 4 y) (zfill 2 m) (zfill 2 d) rest)
      as (H4 & H7 & HY & HM & HD); try (unfold len; lia).
    unfold fast_path. rewrite H4, H7. cbn [mbind result_bind].
    change (eqc "-" "-") with true. cbn [andb].
    rewrite HY, HM, HD.
    rewrite !int_zfill by (cbn; lia). cbn [mbind result_bind].
    unfold date_of_ymd in *.
    destruct (_ && _); [discriminate Hbad|reflexivity]. }
  split; [exact Hf|].
  unfold date_parse. rewrite Hf. reflexivity.
Qed.

End DateParseFallback.

(** The all-zero timestamp that [datetime_parse] repairs is no date
    for [date_parse]. *)
Lemma zero_date_not_repaired :
  isoformat 0 0 0 = py "0000-00-00"
  /\ DateParse.date_parse no_fallback (py "0000-00-00T00:00:00Z") = Raise ValueError.
Proof.
  split; [reflexivity|].
  exact (eq_trans
           (proj2 (date_parse_invalid_date no_fallback 0 0 0 (py "T00:00:00Z")
                     ltac:(lia) ltac:(lia) ltac:(lia) eq_refl))
           eq_refl).
Defined.

(** ** Texts outside the duration grammar *)

Section AlphabetFacts.

Import PyStr Re.

Lemma run_star_consumes (k : cls) (s : str) (p : option ascii)
    (g : gmap string str) (st' : mstate) :
  st' ∈ run_star k p s g ->
  exists u, s = u ++ rest st' /\ forallb (cls_mem k) u = true.
Proof.
  revert p. induction s as [|c s IH]; intros p; cbn [run_star].
  - intros H. apply list_elem_of_singleton in H. subst. exists []. split; reflexivity.
  - destruct (cls_mem k c) eqn:Ec.
    + intros H. apply elem_of_app in H as [H|H].
      * destruct (IH _ H) as (u & Hu & Hall). exists (c :: u). split.
        -- cbn. rewrite <- Hu. reflexivity.
        -- cbn. rewrite Ec. exact Hall.
      * apply list_elem_of_singleton in H. subst. exists []. split; reflexivity.
    + intros H. apply list_elem_of_singleton in H. subst. exists []. split; reflexivity.
Qed.

Lemma forallb_weaken (f h : ascii -> bool) (u : str) :
  (forall c, f c = true -> h c = true) ->
  forallb f u = true -> forallb h u = true.
Proof.
  intros Hfh. rewrite !forallb_forall. intros H c Hc. apply Hfh, H, Hc.
Qed.

Ltac stays H :=
  first [ apply list_elem_of_singleton in H; subst; exists []; split; reflexivity
        | inversion H ].

(** What lies between two positions of a match was consumed by the
    pattern. *)
Lemma run_consumes (r : regex) (st st' : mstate) :
  st' ∈ run r st ->
  exists u, rest st = u ++ rest st' /\ forallb (accepts r) u = true.
Proof.
  revert st st'. induction r as [| | |c|k|k|r1 IH1 r2 IH2|r1 IH1|name r1 IH1|r1 IH1];
    intros st st'; cbn [run].
  - destruct (prev st); intros H; stays H.
  - destruct (at_end _); intros H; stays H.
  - destruct (xorb _ _); intros H; stays H.
  - destruct (rest st) as [|d s]; [intros H; inversion H|].
    destruct (eqc c d) eqn:E; intros H; [|inversion H].
    apply list_elem_of_singleton in H. subst. exists [d]. split; [reflexivity|].
    cbn. rewrite E. reflexivity.
  - destruct (rest st) as [|d s]; [intros H; inversion H|].
    destruct (cls_mem k d) eqn:E; intros H; [|inversion H].
    apply list_elem_of_singleton in H. subst. exists [d]. split; [reflexivity|].
    cbn. rewrite E. reflexivity.
  - destruct (rest st) as [|d s]; [intros H; inversion H|].
    destruct (cls_mem k d) eqn:E; intros H; [|inversion H].
    apply run_star_consumes in H as (u & Hu & Hall). exists (d :: u). split.
    + cbn. rewrite <- Hu. reflexivity.
    + cbn. rewrite E. exact Hall.
  - intros H. apply list_elem_of_bind in H as (mid & Hmid & Hin).
    destruct (IH1 _ _ Hin) as (u1 & Hu1 & Ha1).
    destruct (IH2 _ _ Hmid) as (u2 & Hu2 & Ha2).
    exists (u1 ++ u2). split.
    + rewrite Hu1, Hu2, app_assoc. reflexivity.
    + rewrite forallb_app. apply andb_true_iff. split.
      * apply (forallb_weaken (accepts r1)); [|exact Ha1].
        intros c Hc. cbn. rewrite Hc. reflexivity.
      * apply (forallb_weaken (accepts r2)); [|exact Ha2].
        intros c Hc. cbn. rewrite Hc. apply orb_true_r.
  - intros H. apply elem_of_app in H as [H|H]; [exact (IH1 _ _ H)|stays H].
  - intros H. apply list_elem_of_fmap in H as (mid & -> & Hin).
    exact (IH1 _ _ Hin).
  - destruct (run r1 st); intros H; stays H.
Qed.

(** A pattern that ends with [$] stops at the end of the text or
    before its final newline. *)
Lemma run_ends (r : regex) (st st' : mstate) :
  ends_with_eol r = true -> st' ∈ run r st -> at_end (rest st') = true.
Proof.
  revert st st'. induction r as [| | |c|k|k|r1 IH1 r2 IH2|r1 IH1|name r1 IH1|r1 IH1];
    intros st st' He; try discriminate He; cbn [run].
  - destruct (at_end (rest st)) eqn:E; intros H; [|inversion H].
    apply list_elem_of_singleton in H. subst. exact E.
  - intros H. apply list_elem_of_bind in H as (mid & Hmid & _).
    exact (IH2 _ _ He Hmid).
Qed.

Lemma alphabet_of_grammar (c : ascii) :
  accepts ISO8601_DURATION c = true -> duration_alphabet c = true.
Proof.
  destruct c as [[] [] [] [] [] [] [] []]; vm_compute; intros H;
    first [reflexivity | discriminate H].
Qed.

(** The grammar matches no text with a character from outside its
    alphabet. *)
Lemma matched_in_alphabet (s : str) (g : gmap string str) :
  re_match ISO8601_DURATION s = Some g -> forallb duration_alphabet s = true.
Proof.
  unfold re_match. intros H.
  destruct (run ISO8601_DURATION (mk_mstate None s ∅)) as [|st' l] eqn:E;
    [discriminate H|].
  assert (Hin : st' ∈ run ISO8601_DURATION (mk_mstate None s ∅))
    by (rewrite E; apply list_elem_of_here).
  destruct (run_consumes _ _ _ Hin) as (u & Hu & Hall).
  pose proof (run_ends ISO8601_DURATION _ _ eq_refl Hin) as Hend.
  cbn [rest] in Hu. rewrite Hu, forallb_app. apply andb_true_iff. split.
  - apply (forallb_weaken (accepts ISO8601_DURATION)); [|exact Hall].
    exact alphabet_of_grammar.
  - destruct (rest st') as [|c [|d tl]]; [reflexivity| |discriminate Hend].
    cbn in Hend. apply eqc_eq in Hend. subst c. reflexivity.
Qed.

Lemma outside_alphabet (s : str) (c : ascii) :
  In c s -> duration_alphabet c = false -> re_match ISO8601_DURATION s = None.
Proof.
  intros Hin Hc. destruct (re_match ISO8601_DURATION s) as [g|] eqn:E; [|reflexivity].
  apply matched_in_alphabet in E. rewrite forallb_forall in E.
  rewrite (E c Hin) in Hc. discriminate Hc.
Qed.



Lemma slice_tail (c : ascii) (t : str) : slice (c :: t) (Some 1) None = t.
Proof.
  unfold slice, clamp, len. cbn [length].
  change (1 <? 0) with false. cbv iota.
  replace (Z.to_nat (Z.min (Z.max 0 1) (Z.of_nat (S (length t))))) with 1%nat by lia.
  cbn [skipn]. replace (S (length t) - 1)%nat with (length t) by lia.
  apply firstn_all.
Qed.

Section WithFallback.

Variable dateutil_parse : str -> result datetime.

(** A text with a character that the duration grammar has no use for
    (a colon, a space, a letter other than the designators) is not in
    the grammar, with or without a sign.  After a leading [P] the rest
    of it is read as a date and time; any other first character,
    a sign among them, makes it a [ValueError]. *)
Theorem outside_grammar_is_date_literal (t : str) (c : ascii) :
  In c t -> duration_alphabet c = false ->
  (forall p, re_match ISO8601_DURATION (p ++ t) = None)
  /\ Duration.parse_iso_duration dateutil_parse ("P"%char :: t)
     = match try_except (Parse._fromisoformat t) (dateutil_parse t) with
       | Ok dt => Ok (Duration.of_datetime dt)
       | Raise _ => Raise ValueError
       end
  /\ (forall d p, d <> "P"%char ->
        Duration.parse_iso_duration dateutil_parse (d :: p ++ t) = Raise ValueError).
Proof.
  intros Hin Hc.
  assert (Hno : forall p, re_match ISO8601_DURATION (p ++ t) = None).
  { intros p. apply (outside_alphabet _ c); [|exact Hc].
    apply in_or_app. right. exact Hin. }
  split; [exact Hno|]. split.
  - unfold Duration.parse_iso_duration, Duration.date_literal.
    rewrite (Hno ["P"%char] : re_match _ ("P"%char :: t) = None). cbn [startswith py list_ascii_of_string].
    rewrite eqc_refl. cbn [andb]. rewrite slice_tail. reflexivity.
  - intros d p Hd. unfold Duration.parse_iso_duration.
    rewrite (Hno (d :: p) : re_match _ (d :: p ++ t) = None). cbn [startswith py list_ascii_of_string].
    destruct (eqc "P" d) eqn:E; [|reflexivity].
    apply eqc_eq in E. congruence.
Qed.


End WithFallback.

End AlphabetFacts.


(** With a space in place of the [T] the fast path does not apply, and
    the fallback parser decides. *)
Lemma spaced_timestamp_as_duration :
  In " "%char (py "2017-11-13 12:15") /\ duration_alphabet " " = false
  /\ Duration.parse_iso_duration no_fallback (py "P2017-11-13 12:15")
     = Raise ValueError.
Proof.
  assert (Hin : In " "%char (py "2017-11-13 12:15")) by (vm_compute; tauto).
  split; [exact Hin|]. split; [reflexivity|].
  exact (eq_trans
           (proj1 (proj2 (outside_grammar_is_date_literal no_fallback _ " "%char
                            Hin eq_refl)))
           eq_refl).
Defined.

(** ** A leading plus sign *)

Section PlusSign.

Import PyStr PyNum Re Duration.
Local Open Scope re_scope.

Variable dateutil_parse : str -> result datetime.

Lemma run_sign_plus (s : str) :
  run sign_group (mk_mstate None ("+"%char :: s) ∅)
  = [with_group "sign" (py "+") (mk_mstate (Some "+"%char) s ∅);
     mk_mstate None ("+"%char :: s) ∅].
Proof.
  unfold sign_group. cbn [run rest prev groups].
  change (cls_mem (OneOf (py "+-")) "+") with true. cbv iota.
  cbn [fmap list_fmap app]. unfold set_group, with_group.
  cbn [prev rest groups length].
  replace (S (length s) - length s)%nat with 1%nat by lia.
  reflexivity.
Qed.

Lemma run_body_plus (s : str) (p : option ascii) (g : gmap string str) :
  run body (mk_mstate p ("+"%char :: s) g) = [].
Proof. reflexivity. Qed.

Lemma plus_prefix (t : str) :
  run ISO8601_DURATION (mk_mstate None ("+"%char :: "P"%char :: t) ∅)
  = with_group "sign" (py "+")
      <$> run ISO8601_DURATION (mk_mstate None ("P"%char :: t) ∅).
Proof.
  unfold ISO8601_DURATION. fold sign_group.
  change (run (Bol ⋅ ?r)%re ?st) with (run r st ++ []).
  rewrite !app_nil_r.
  change (run (sign_group ⋅ body)%re ?st) with (run sign_group st ≫= run body).
  rewrite run_sign_plus, run_sign_absent.
  change ([?a; ?b] ≫= run body) with (run body a ++ run body b ++ []).
  change ([?a] ≫= run body) with (run body a ++ []).
  rewrite run_body_plus, !app_nil_r.
  rewrite (run_frame "sign" (py "+") body _ eq_refl).
  rewrite (run_body_prev (Some "+"%char) None). reflexivity.
Qed.

Lemma from_groups_plus (g : gmap string str) :
  g !! "sign"%string = None ->
  from_groups (<["sign"%string := py "+"]> g) = from_groups g.
Proof.
  intros Hs. unfold from_groups.
  rewrite lookup_insert_eq, Hs.
  rewrite !lookup_insert_ne by discriminate.
  change (bool_decide (py "+" = py "-")) with false. reflexivity.
Qed.

(** A plus sign before the P changes nothing: the text is in the
    grammar when the text without the sign is, with the sign as one
    more group, and the delta is the same. *)
Theorem leading_plus_ignored (t : str) (g : gmap string str) :
  Re.re_match ISO8601_DURATION ("P"%char :: t) = Some g ->
  Re.re_match ISO8601_DURATION ("+"%char :: "P"%char :: t)
  = Some (<["sign"%string := py "+"]> g)
  /\ parse_iso_duration dateutil_parse ("+"%char :: "P"%char :: t)
     = parse_iso_duration dateutil_parse ("P"%char :: t).
Proof.
  intros Hg.
  assert (Hp : Re.re_match ISO8601_DURATION ("+"%char :: "P"%char :: t)
               = Some (<["sign"%string := py "+"]> g)).
  { unfold re_match in *. rewrite plus_prefix.
    destruct (run ISO8601_DURATION _) as [|st l]; [discriminate Hg|].
    cbn in Hg |- *. injection Hg as <-. reflexivity. }
  split; [exact Hp|].
  unfold parse_iso_duration. rewrite Hp, Hg.
  apply from_groups_plus. exact (re_match_unsigned t g Hg).
Qed.

End PlusSign.

(** "+P1Y2M3D" is "P1Y2M3D". *)
Lemma plus_ymd :
  Re.re_match ISO8601_DURATION (py "P1Y2M3D")
  = Some (<["years"%string := py "1Y"]>
            (<["months"%string := py "2M"]> {[ "days"%string := py "3D" ]}))
  /\ Duration.parse_iso_duration no_fallback (py "+P1Y2M3D")
     = Ok (mk_relativedelta (PyNum.PyInt 1) (PyNum.PyInt 2)
             (PyNum.PyFloat (S754_finite false 6755399441055744 (-51)))
             (PyNum.PyInt 0) (PyNum.PyInt 0) (PyNum.PyInt 0) (PyNum.PyInt 0)).
Proof.
  assert (Hg : Re.re_match ISO8601_DURATION (py "P1Y2M3D")
               = Some (<["years"%string := py "1Y"]>
                         (<["months"%string := py "2M"]> {[ "days"%string := py "3D" ]})))
    by (vm_compute; reflexivity).
  assert (E : Duration.parse_iso_duration no_fallback (py "P1Y2M3D")
              = Ok (mk_relativedelta (PyNum.PyInt 1) (PyNum.PyInt 2)
                      (PyNum.PyFloat (S754_finite false 6755399441055744 (-51)))
                      (PyNum.PyInt 0) (PyNum.PyInt 0) (PyNum.PyInt 0) (PyNum.PyInt 0)))
    by (vm_compute; reflexivity).
  split; [exact Hg|].
  exact (eq_trans (proj2 (leading_plus_ignored no_fallback (py "1Y2M3D") _ Hg)) E).
Defined.

(** ** The test cases of the module *)

Example int_examples :
  PyStr.int (py "0000") = Ok 0 /\ PyStr.int (py "+1") = Ok 1
  /\ PyStr.int (py "-1") = Ok (-1) /\ PyStr.int (py " 7") = Ok 7
  /\ PyStr.int (py "1_0") = Ok 10 /\ PyStr.int (py "1__0") = Raise ValueError
  /\ PyStr.int (py "") = Raise ValueError /\ PyStr.int (py "1Z") = Raise ValueError.
Proof. repeat split; reflexivity. Qed.

Example slice_examples :
  PyStr.slice (py "2017-11-13T12:15:01+02:00") (Some (-5)) (Some (-3)) = py "02"
  /\ PyStr.slice (py "2017-11-13") (Some 5) (Some 7) = py "11"
  /\ PyStr.slice (py "ab") (Some 20) None = []
  /\ PyStr.getitem (py "ab") (-1) = Ok "b"%char
  /\ PyStr.getitem (py "ab") (-3) = Raise IndexError
  /\ PyStr.getitem (py "ab") 2 = Raise IndexError.
Proof. repeat split; reflexivity. Qed.

Example float_examples :
  PyNum.float_of_str (py "0.5") = Ok (S754_finite false 4503599627370496 (-53))
  /\ PyNum.float_of_str (py "0.4") = Ok (S754_finite false 7205759403792794 (-54))
  /\ PyNum.float_of_str (py "12") = Ok (S754_finite false 6755399441055744 (-49))
  /\ PyNum.float_of_str (py "0") = Ok (S754_zero false)
  /\ PyNum.float_of_int 12 = Ok (S754_finite false 6755399441055744 (-49))
  /\ PyNum.int_of_float (S754_finite true 6192449487634432 (-50)) = Ok (-5).
Proof. repeat split; vm_compute; reflexivity. Qed.

Example fromisoformat_examples :
  Parse._fromisoformat (py "2017-11-13T12:15:01Z")
    = Ok (mk_datetime 2017 11 13 12 15 1 0 (Some pytz_utc))
  /\ Parse._fromisoformat (py "2017-11-13T12:15:01.124Z")
    = Ok (mk_datetime 2017 11 13 12 15 1 124000 (Some pytz_utc))
  /\ Parse._fromisoformat (py "2017-11-13T12:15:01.000213+0600")
    = Ok (mk_datetime 2017 11 13 12 15 1 213 (Some (tzoffset 21600)))
  /\ Parse._fromisoformat (py "2017-11-13T12:15:01.321000-02:00")
    = Ok (mk_datetime 2017 11 13 12 15 1 321000 (Some (tzoffset (-7200))))
  /\ Parse._fromisoformat (py "2017-11-13T12:15+02:00")
    = Ok (mk_datetime 2017 11 13 12 15 0 0 (Some (tzoffset 7200)))
  /\ Parse._fromisoformat (py "2017-11-13T12:15")
    = Ok (mk_datetime 2017 11 13 12 15 0 0 None)
  /\ Parse._fromisoformat (py "Wed, 06 Sep 2017 03:55:53 -0700") = Raise ValueError
  /\ Parse._fromisoformat (py "") = Raise IndexError.
Proof. repeat split; vm_compute; reflexivity. Qed.
